(** * Raw-data aggregation pipeline of Multi_Agent_Financial_Analysts

    A shallow embedding of the normalisation layer of the repository:
    [resolver.py], [sec_financials.py], [price_trend.py], [finnhub_news.py]
    and [collect_raw_data.py].  Python values are embedded as the
    inductive [pyval]; Python floats are IEEE-754 binary64 and are
    embedded as Rocq's primitive floats; exceptions are embedded with
    the error monad [result].  Network answers are inputs of the model. *)

From Stdlib Require Import ZArith List String Ascii Bool Lia Floats.
From Stdlib Require Import Permutation Sorted DecimalString.
Import ListNotations.

Local Open Scope string_scope.
Local Open Scope list_scope.
Local Open Scope Z_scope.

(** ** Python values and exceptions *)

Module Py.

(** The fragment of Python's data model that the pipeline manipulates:
    what [json.load] produces, plus tuples. *)
Unset Elimination Schemes.
Inductive pyval : Type :=
| PNone
| PBool (b : bool)
| PInt (z : Z)
| PFloat (f : float)
| PStr (s : string)
| PList (l : list pyval)
| PTuple (l : list pyval)
| PDict (d : list (string * pyval)).
Set Elimination Schemes.

(** Structural induction that reaches the values inside lists, tuples
    and dicts. *)
Section PyvalInduction.
Variable P : pyval -> Prop.
Hypothesis HNone : P PNone.
Hypothesis HBool : forall b, P (PBool b).
Hypothesis HInt : forall z, P (PInt z).
Hypothesis HFloat : forall f, P (PFloat f).
Hypothesis HStr : forall s, P (PStr s).
Hypothesis HList : forall l, Forall P l -> P (PList l).
Hypothesis HTuple : forall l, Forall P l -> P (PTuple l).
Hypothesis HDict : forall d, Forall (fun kv => P (snd kv)) d -> P (PDict d).

Fixpoint pyval_induction (v : pyval) : P v :=
  let fix items (l : list pyval) : Forall P l :=
    match l with
    | [] => Forall_nil P
    | x :: l' => Forall_cons x (pyval_induction x) (items l')
    end in
  match v with
  | PNone => HNone
  | PBool b => HBool b
  | PInt z => HInt z
  | PFloat f => HFloat f
  | PStr s => HStr s
  | PList l => HList l (items l)
  | PTuple l => HTuple l (items l)
  | PDict d =>
      HDict d
        ((fix bindings (d : list (string * pyval))
            : Forall (fun kv => P (snd kv)) d :=
            match d with
            | [] => Forall_nil _
            | kv :: d' =>
                Forall_cons kv (pyval_induction (snd kv)) (bindings d')
            end) d)
  end.
End PyvalInduction.

(** A dict keeps its insertion order; it is embedded as an association
    list in which the first binding of a key is the live one. *)
Definition dict := list (string * pyval).

Record exn := MkExn { exn_kind : string; exn_msg : string }.

Definition TypeError (m : string) := MkExn "TypeError" m.
Definition KeyError (m : string) := MkExn "KeyError" m.
Definition AttributeError (m : string) := MkExn "AttributeError" m.
Definition IndexError (m : string) := MkExn "IndexError" m.
Definition ValueError (m : string) := MkExn "ValueError" m.
Definition OverflowError (m : string) := MkExn "OverflowError" m.
Definition FileNotFoundError (m : string) := MkExn "FileNotFoundError" m.

(** [Ok v] is normal termination with value [v]; [Raise e] is an
    exception that propagates. *)
Inductive result (A : Type) : Type :=
| Ok (a : A)
| Raise (e : exn).
Arguments Ok {A} a.
Arguments Raise {A} e.

Definition bind {A B} (r : result A) (k : A -> result B) : result B :=
  match r with
  | Ok a => k a
  | Raise e => Raise e
  end.

(** [try: ... except Exception: handler] *)
Definition try_except {A} (r : result A) (handler : exn -> A) : A :=
  match r with
  | Ok a => a
  | Raise e => handler e
  end.

Definition of_option {A} (o : option A) (e : exn) : result A :=
  match o with
  | Some a => Ok a
  | None => Raise e
  end.

Definition to_option {A} (r : result A) : option A :=
  match r with
  | Ok a => Some a
  | Raise _ => None
  end.

Fixpoint mapM {A B} (f : A -> result B) (l : list A) : result (list B) :=
  match l with
  | [] => Ok []
  | a :: l' =>
      bind (f a) (fun b => bind (mapM f l') (fun bs => Ok (b :: bs)))
  end.

(** *** Floats *)

Definition is_zero (f : float) : bool := PrimFloat.eqb f 0%float.

(** [bool(x)] of a float: everything but [0.0] and [-0.0], NaN included. *)
Definition float_truthy (f : float) : bool := negb (is_zero f).

(** [float(z)] for a Python int: round to nearest even, [OverflowError]
    when the integer is beyond the binary64 range. *)
Definition float_of_Z (z : Z) : result float :=
  let f := SF2Prim (SpecFloat.binary_normalize prec emax z 0 false) in
  if PrimFloat.is_infinity f
  then Raise (OverflowError "int too large to convert to float")
  else Ok f.

(** Exact comparison of an integer with a float, as CPython does it;
    [None] when the float is NaN. *)
Definition cmp_Z_float (z : Z) (f : float) : option comparison :=
  match Prim2SF f with
  | SpecFloat.S754_nan => None
  | SpecFloat.S754_infinity s => Some (if s then Gt else Lt)
  | SpecFloat.S754_zero _ => Some (z ?= 0)
  | SpecFloat.S754_finite s m e =>
      let v := if s then Z.neg m else Z.pos m in
      Some (if 0 <=? e then z ?= v * 2 ^ e else z * 2 ^ (- e) ?= v)
  end.

(** [int(f)] for a float: truncation toward zero. *)
Definition Z_of_float (f : float) : result Z :=
  match Prim2SF f with
  | SpecFloat.S754_nan =>
      Raise (ValueError "cannot convert float NaN to integer")
  | SpecFloat.S754_infinity _ =>
      Raise (OverflowError "cannot convert float infinity to integer")
  | SpecFloat.S754_zero _ => Ok 0
  | SpecFloat.S754_finite s m e =>
      let v := if s then Z.neg m else Z.pos m in
      Ok (if 0 <=? e then v * 2 ^ e else Z.quot v (2 ^ (- e)))
  end.

(** *** Numbers: bool, int and float compare with each other *)

Inductive num := NInt (z : Z) | NFloat (f : float).

Definition num_of (v : pyval) : option num :=
  match v with
  | PBool b => Some (NInt (if b then 1 else 0))
  | PInt z => Some (NInt z)
  | PFloat f => Some (NFloat f)
  | _ => None
  end.

Definition num_eqb (a b : num) : bool :=
  match a, b with
  | NInt x, NInt y => x =? y
  | NFloat x, NFloat y => PrimFloat.eqb x y
  | NInt x, NFloat y =>
      match cmp_Z_float x y with Some Eq => true | _ => false end
  | NFloat x, NInt y =>
      match cmp_Z_float y x with Some Eq => true | _ => false end
  end.

Definition num_ltb (a b : num) : bool :=
  match a, b with
  | NInt x, NInt y => x <? y
  | NFloat x, NFloat y => PrimFloat.ltb x y
  | NInt x, NFloat y =>
      match cmp_Z_float x y with Some Lt => true | _ => false end
  | NFloat x, NInt y =>
      match cmp_Z_float y x with Some Gt => true | _ => false end
  end.

(** *** Strings *)

(** Text made of the characters below 128 only. *)
Fixpoint is_ascii (s : string) : bool :=
  match s with
  | EmptyString => true
  | String c s' => (nat_of_ascii c <? 128)%nat && is_ascii s'
  end.

Fixpoint repeat_char (c : ascii) (n : nat) : string :=
  match n with
  | O => EmptyString
  | S n' => String c (repeat_char c n')
  end.

(** [s.zfill(width)]: zeros go after a leading sign.  [len] is the
    length function of texts. *)
Definition zfill (len : string -> nat) (width : nat) (s : string) : string :=
  let pad := repeat_char "0"%char (width - len s) in
  match s with
  | String c s' =>
      if (Ascii.eqb c "-"%char || Ascii.eqb c "+"%char)%bool
      then String c (String.append pad s')
      else String.append pad s
  | EmptyString => pad
  end.

(** [str(z)] of an int. *)
Definition str_of_Z (z : Z) : string := NilZero.string_of_int (Z.to_int z).

Definition string_ltb (s t : string) : bool :=
  match String.compare s t with Lt => true | _ => false end.

(** *** Datetimes

    A [datetime] as [datetime.fromisoformat] returns it: the reading of
    the wall clock in microseconds since [datetime.min], and the UTC
    offset in microseconds when the text carries one (an aware
    datetime); a naive datetime has none. *)
Record datetime := {
  wall : N;
  utcoffset : option Z
}.

Definition aware (t : datetime) : bool :=
  match utcoffset t with Some _ => true | None => false end.

(** The point in time that comparisons between datetimes of one kind
    look at: aware datetimes are compared after subtracting their
    offsets. *)
Definition instant (t : datetime) : Z :=
  match utcoffset t with
  | Some o => Z.of_N (wall t) - o
  | None => Z.of_N (wall t)
  end.

(** [a == b] on datetimes: a naive and an aware one are never equal. *)
Definition dt_eqb (a b : datetime) : bool :=
  Bool.eqb (aware a) (aware b) && (instant a =? instant b).

(** [a < b] on datetimes: a naive and an aware one do not compare. *)
Definition dt_lt (a b : datetime) : result bool :=
  if Bool.eqb (aware a) (aware b)
  then Ok (instant a <? instant b)
  else Raise (TypeError
                "can't compare offset-naive and offset-aware datetimes").

(** *** Dicts *)

Fixpoint dict_get (k : string) (d : dict) : option pyval :=
  match d with
  | [] => None
  | (k', v) :: d' => if String.eqb k k' then Some v else dict_get k d'
  end.

(** [d.get(k, default)] *)
Definition get_default (k : string) (default : pyval) (d : dict) : pyval :=
  match dict_get k d with
  | Some v => v
  | None => default
  end.

(** [d[k] = v]: an existing key keeps its position, a new key goes last. *)
Fixpoint dict_set (k : string) (v : pyval) (d : dict) : dict :=
  match d with
  | [] => [(k, v)]
  | (k', v') :: d' =>
      if String.eqb k k' then (k', v) :: d' else (k', v') :: dict_set k v d'
  end.

Definition dict_keys (d : dict) : list string := map fst d.

(** [x.get(k, default)]: only dicts have the method. *)
Definition py_get (x : pyval) (k : string) (default : pyval) : result pyval :=
  match x with
  | PDict d => Ok (get_default k default d)
  | _ => Raise (AttributeError "object has no attribute 'get'")
  end.

(** [x[k]] with a string key. *)
Definition subscript (x : pyval) (k : string) : result pyval :=
  match x with
  | PDict d => of_option (dict_get k d) (KeyError k)
  | PNone => Raise (TypeError "'NoneType' object is not subscriptable")
  | PStr _ | PList _ | PTuple _ =>
      Raise (TypeError "indices must be integers or slices, not str")
  | _ => Raise (TypeError "object is not subscriptable")
  end.

(** [k in r] for a dict. *)
Definition has_key (k : string) (r : pyval) : bool :=
  match r with
  | PDict d => existsb (String.eqb k) (dict_keys d)
  | _ => false
  end.

(** *** Truthiness and equality *)

Definition truthy (v : pyval) : bool :=
  match v with
  | PNone => false
  | PBool b => b
  | PInt z => negb (z =? 0)
  | PFloat f => float_truthy f
  | PStr s => negb (String.eqb s "")
  | PList l | PTuple l => match l with [] => false | _ => true end
  | PDict d => match d with [] => false | _ => true end
  end.

(** [a or b] on optional floats (the shape of [g(t1) or g(t2)]): the
    left operand when it is truthy, else the right one. *)
Definition or_else (a b : option float) : option float :=
  match a with
  | Some x => if float_truthy x then a else b
  | None => b
  end.

(** Pointwise equality of two sequences. *)
Fixpoint list_eqb {A} (eq : A -> A -> bool) (l m : list A) : bool :=
  match l, m with
  | [], [] => true
  | x :: l', y :: m' => eq x y && list_eqb eq l' m'
  | _, _ => false
  end.

(** Every binding of [d] has an equal binding in [e]. *)
Definition sub_dict (eq : pyval -> pyval -> bool) (d e : dict) : bool :=
  forallb (fun kv =>
             match dict_get (fst kv) e with
             | Some w => eq (snd kv) w
             | None => false
             end) d.

(** [a == b].  Numbers compare by value across bool, int and float,
    NaN differs from itself, a tuple never equals a list, and dicts
    compare as mappings. *)
Fixpoint py_eq (a b : pyval) {struct a} : bool :=
  match a, b with
  | PNone, PNone => true
  | PStr s, PStr t => String.eqb s t
  | PList l, PList m => list_eqb py_eq l m
  | PTuple l, PTuple m => list_eqb py_eq l m
  | PDict d, PDict e =>
      Nat.eqb (List.length d) (List.length e) && sub_dict py_eq d e
  | _, _ =>
      match num_of a, num_of b with
      | Some x, Some y => num_eqb x y
      | _, _ => false
      end
  end.

(** [l < m] on two sequences: the first pair of elements that are not
    equal decides; when there is none the shorter sequence is the
    smaller.  Elements are compared by value: the two sequences are
    taken to share no element that differs from itself (a NaN). *)
Fixpoint list_ltb {A} (eq : A -> A -> bool) (lt : A -> A -> result bool)
    (l m : list A) : result bool :=
  match l, m with
  | [], [] => Ok false
  | [], _ :: _ => Ok true
  | _ :: _, [] => Ok false
  | x :: l', y :: m' => if eq x y then list_ltb eq lt l' m' else lt x y
  end.

(** [a < b].  Numbers compare by value, texts and sequences of one
    kind lexicographically; any other pair of operands raises
    [TypeError]. *)
Fixpoint py_lt (a b : pyval) {struct a} : result bool :=
  match a, b with
  | PList l, PList m => list_ltb py_eq py_lt l m
  | PTuple l, PTuple m => list_ltb py_eq py_lt l m
  | _, _ =>
      match num_of a, num_of b with
      | Some x, Some y => Ok (num_ltb x y)
      | _, _ =>
          match a, b with
          | PStr s, PStr t => Ok (string_ltb s t)
          | _, _ => Raise (TypeError "'<' not supported between instances")
          end
      end
  end.

(** *** Sorting

    [sorted(l, key=..., reverse=...)] is stable; with [reverse=True]
    CPython reverses, sorts ascending and reverses again, so equal
    keys keep their input order.  All keys are computed before the
    first comparison.  The ascending pass is embedded as a stable
    insertion sort over the decorated list; for keys that [<] orders
    totally every stable sort computes the same list. *)
Section Sorting.
Context {A K : Type}.
Variable lt : K -> K -> result bool.

Fixpoint insert (x : K * A) (l : list (K * A)) : result (list (K * A)) :=
  match l with
  | [] => Ok [x]
  | y :: l' =>
      bind (lt (fst y) (fst x)) (fun b =>
        if b then bind (insert x l') (fun r => Ok (y :: r))
        else Ok (x :: l))
  end.

Fixpoint isort (l : list (K * A)) : result (list (K * A)) :=
  match l with
  | [] => Ok []
  | x :: l' => bind (isort l') (insert x)
  end.

Definition sorted (key : A -> result K) (reverse : bool) (l : list A)
  : result (list A) :=
  bind (mapM (fun a => bind (key a) (fun k => Ok (k, a))) l) (fun dl =>
    if reverse
    then bind (isort (rev dl)) (fun r => Ok (rev (map snd r)))
    else bind (isort dl) (fun r => Ok (map snd r))).
End Sorting.

(** [l[-n:]] *)
Definition lastn {A} (n : nat) (l : list A) : list A :=
  skipn (List.length l - n) l.

(** [l[-1]], if any. *)
Fixpoint last_error {A} (l : list A) : option A :=
  match l with
  | [] => None
  | [a] => Some a
  | _ :: l' => last_error l'
  end.

Definition is_some {A} (o : option A) : bool :=
  match o with Some _ => true | None => false end.

(** A field of a result is present when its key is bound to a value
    other than [None]. *)
Definition field (k : string) (r : pyval) : option pyval :=
  match r with
  | PDict d =>
      match dict_get k d with
      | Some PNone | None => None
      | Some v => Some v
      end
  | _ => None
  end.

End Py.

Export Py.

Notation "x <- c1 ;; c2" := (bind c1 (fun x => c2))
  (at level 61, c1 at next level, right associativity).

(** ** Sorting without exceptions

    The list that [sorted] computes when neither the key function nor
    the comparison raises; the properties below relate the two. *)

Module PureSort.
Section Defs.
Context {A K : Type}.
Variable ltb : K -> K -> bool.

Fixpoint insert_p (x : K * A) (l : list (K * A)) : list (K * A) :=
  match l with
  | [] => [x]
  | y :: l' => if ltb (fst y) (fst x) then y :: insert_p x l' else x :: l
  end.

Fixpoint isort_p (l : list (K * A)) : list (K * A) :=
  match l with
  | [] => []
  | x :: l' => insert_p x (isort_p l')
  end.

Definition decorate (key : A -> K) (l : list A) : list (K * A) :=
  map (fun a => (key a, a)) l.

(** [sorted(l, key=key, reverse=True)] *)
Definition sorted_desc (key : A -> K) (l : list A) : list A :=
  rev (map snd (isort_p (rev (decorate key l)))).

(** [x] does not come after [y] in ascending order. *)
Definition asc (x y : K * A) : Prop := ltb (fst y) (fst x) = false.

(** One step of the search for the last element of the sorted list. *)
Definition keep_max (y m : K * A) : K * A :=
  if ltb (fst m) (fst y) then y else m.

End Defs.

(** A decorated element with its key seen through [f]. *)
Definition relabel {A K K' : Type} (f : K' -> K) (x : K' * A) : K * A :=
  (f (fst x), snd x).

(** A decorated element and its pure counterpart: the same element,
    with keys that [R] relates. *)
Definition related {A K K' : Type} (R : K -> K' -> Prop)
    (x : K * A) (x' : K' * A) : Prop :=
  R (fst x) (fst x') /\ snd x = snd x'.

(** The first element of [cur :: l] whose key no other element
    exceeds. *)
Definition first_max {B K : Type} (ltb : K -> K -> bool) (key : B -> K)
    (cur : B) (l : list B) : B :=
  fold_left (fun m y => if ltb (key m) (key y) then y else m) l cur.

End PureSort.

(** ** Exact values of numbers

    Every int and every finite float is an integer multiple of
    [2^-1074].  [exact] gives that multiple, so that [<] and [==]
    between numbers other than NaN are the order and the equality of
    integers extended by the two infinities. *)

Module Exact.

Inductive ext := NegInf | Fin (z : Z) | PosInf.

Definition ext_compare (a b : ext) : comparison :=
  match a, b with
  | NegInf, NegInf => Eq
  | NegInf, _ => Lt
  | Fin _, NegInf => Gt
  | Fin x, Fin y => x ?= y
  | Fin _, PosInf => Lt
  | PosInf, PosInf => Eq
  | PosInf, _ => Gt
  end.

Definition ext_ltb (a b : ext) : bool :=
  match ext_compare a b with Lt => true | _ => false end.

Definition ext_eqb (a b : ext) : bool :=
  match ext_compare a b with Eq => true | _ => false end.

Definition signed (s : bool) (m : positive) : Z :=
  if s then Z.neg m else Z.pos m.

Definition exact_sf (f : SpecFloat.spec_float) : ext :=
  match f with
  | SpecFloat.S754_zero _ => Fin 0
  | SpecFloat.S754_infinity s => if s then NegInf else PosInf
  | SpecFloat.S754_nan => Fin 0
  | SpecFloat.S754_finite s m e => Fin (signed s m * 2 ^ (e + 1074))
  end.

Definition exact (n : num) : ext :=
  match n with
  | NInt z => Fin (z * 2 ^ 1074)
  | NFloat f => exact_sf (Prim2SF f)
  end.

(** [f == f] fails on NaN only. *)
Definition not_nan (n : num) : bool :=
  match n with
  | NInt _ => true
  | NFloat f => PrimFloat.eqb f f
  end.

End Exact.

(** ** Library functions

    What the pipeline calls in [datetime], [math], [statistics], pandas
    and [pathlib], and the text-to-number conversions of [int] and
    [float].  They are not part of the repository; the embedding takes
    them as an interface.  So it does [upper] and [len] of the texts
    that the resolver handles, whose results on characters beyond
    ASCII are the library's, and [str] of the values other than ints,
    texts, booleans and [None]. *)

Class PyLib := {
  (** [datetime.fromisoformat(s)]; [None] when it raises. *)
  fromisoformat : string -> option datetime;
  (** [s.upper()] *)
  str_upper : string -> string;
  (** [len(s)]: the number of characters, which is the number of bytes
      for ASCII text. *)
  str_len : string -> nat;
  str_len_ascii :
    forall s, is_ascii s = true -> str_len s = String.length s;
  (** [str(v)] of a float, a list, a tuple or a dict. *)
  str_of_other : pyval -> string;
  (** [int(s)] and [float(s)] of a string; [None] when they raise. *)
  int_of_str : string -> option Z;
  float_of_str : string -> option float;
  (** [math.log] on its domain. *)
  log : float -> float;
  (** [statistics.pstdev] of a non-empty list. *)
  pstdev : list float -> result float;
  (** [Series.mean()] of a non-empty series. *)
  series_mean : list float -> float;
  (** [datetime.fromtimestamp(ts, tz=utc).strftime("%Y-%m-%d %H:%M:%S")]
      of a number; [None] when it raises. *)
  fromtimestamp_utc : num -> option string;
  (** [str(Path(a) / b)] *)
  path_join : string -> string -> string
}.

(** ** resolver.py *)

Module Resolver.

(** The dict that a successful resolution returns. *)
Record resolved := {
  r_ticker : string;
  r_cik : string;
  r_title : pyval
}.

Section WithLib.
Context {L : PyLib}.

(** [v.upper()]: only text has the method. *)
Definition py_upper (v : pyval) : result string :=
  match v with
  | PStr s => Ok (str_upper s)
  | _ => Raise (AttributeError "object has no attribute 'upper'")
  end.

(** [str(v)] *)
Definition py_str (v : pyval) : string :=
  match v with
  | PStr s => s
  | PInt z => str_of_Z z
  | PBool b => if b then "True" else "False"
  | PNone => "None"
  | _ => str_of_other v
  end.

(** One turn of the loop over the records: the resolution when the
    record carries the symbol, [None] when the loop goes on. *)
Definition try_entry (ticker : string) (entry : pyval)
  : result (option resolved) :=
  t <- subscript entry "ticker" ;;
  u <- py_upper t ;;
  if String.eqb u (str_upper ticker)
  then
    c <- subscript entry "cik_str" ;;
    let cik_str := zfill str_len 10 (py_str c) in
    title <- py_get entry "title" (PStr "Unknown") ;;
    Ok (Some {| r_ticker := str_upper ticker;
                r_cik := cik_str;
                r_title := title |})
  else Ok None.

Fixpoint scan (ticker : string) (entries : list pyval)
  : result (option resolved) :=
  match entries with
  | [] => Ok None
  | entry :: rest =>
      r <- try_entry ticker entry ;;
      match r with
      | Some x => Ok (Some x)
      | None => scan ticker rest
      end
  end.

(** [registry] is what the statements before the loop leave: [None]
    when the request, its decoding or [data.values()] raises, else the
    values of the decoded object in order.  The function returns
    [None] from the handler, for an exception before or inside the
    loop, and also by falling off its end when no record matches. *)
Definition resolve_ticker_to_cik
    (registry : option (list pyval)) (ticker : string)
  : option resolved :=
  match registry with
  | None => None
  | Some entries => try_except (scan ticker entries) (fun _ => None)
  end.

End WithLib.

(** The Python value of an [Optional[Dict[str, str]]]. *)
Definition to_py (r : option resolved) : pyval :=
  match r with
  | Some x => PDict [("ticker", PStr (r_ticker x));
                     ("cik", PStr (r_cik x));
                     ("title", r_title x)]
  | None => PNone
  end.

(** [resolved["cik"]] *)
Definition get_cik (r : option resolved) : result string :=
  match r with
  | Some x => Ok (r_cik x)
  | None => Raise (TypeError "'NoneType' object is not subscriptable")
  end.

End Resolver.

(** ** sec_financials.py *)

Module SecFinancials.
Section WithLib.
Context {L : PyLib}.

(** [int(v)] *)
Definition py_int (v : pyval) : result Z :=
  match v with
  | PInt z => Ok z
  | PBool b => Ok (if b then 1 else 0)
  | PFloat f => Z_of_float f
  | PStr s =>
      of_option (int_of_str s) (ValueError "invalid literal for int()")
  | _ => Raise (TypeError "int() argument must be a string or a number")
  end.

(** [float(v)] *)
Definition py_float (v : pyval) : result float :=
  match v with
  | PFloat f => Ok f
  | PInt z => float_of_Z z
  | PBool b => Ok (if b then 1%float else 0%float)
  | PStr s =>
      of_option (float_of_str s)
                (ValueError "could not convert string to float")
  | _ => Raise (TypeError "float() argument must be a string or a number")
  end.

Fixpoint hashable (v : pyval) : bool :=
  match v with
  | PList _ | PDict _ => false
  | PTuple l => forallb hashable l
  | _ => true
  end.

(** [v.get("fp") == "FY" or v.get("form") in {"10-K", "20-F"}] *)
Definition is_annual (v : pyval) : result bool :=
  fp <- py_get v "fp" PNone ;;
  if py_eq fp (PStr "FY") then Ok true
  else
    form <- py_get v "form" PNone ;;
    if hashable form
    then Ok (py_eq form (PStr "10-K") || py_eq form (PStr "20-F"))
    else Raise (TypeError "unhashable type").

Fixpoint filterM {A} (f : A -> result bool) (l : list A)
  : result (list A) :=
  match l with
  | [] => Ok []
  | a :: l' =>
      b <- f a ;;
      r <- filterM f l' ;;
      Ok (if b then a :: r else r)
  end.

Definition datetime_min : datetime := {| wall := 0; utcoffset := None |}.

(** The inner [parse_date]: any failure yields [datetime.min]. *)
Definition parse_date (x : pyval) : datetime :=
  match x with
  | PDict d =>
      match dict_get "end" d with
      | Some (PStr s) =>
          match fromisoformat s with
          | Some t => t
          | None => datetime_min
          end
      | _ => datetime_min
      end
  | _ => datetime_min
  end.

(** The sort key [(parse_date(v), int(v.get("fy", 0)))]. *)
Definition sort_key (v : pyval) : result (datetime * Z) :=
  fy <- py_get v "fy" (PInt 0) ;;
  y <- py_int fy ;;
  Ok (parse_date v, y).

(** [<] on the key tuples: the dates are compared with [==], then with
    [<] when they differ, else the years decide. *)
Definition key_lt (a b : datetime * Z) : result bool :=
  if dt_eqb (fst a) (fst b) then Ok (snd a <? snd b)
  else dt_lt (fst a) (fst b).

(** The rank of a key among the keys whose dates are of one kind: the
    instant of the date, then the year. *)
Definition rank (k : datetime * Z) : Z * Z := (instant (fst k), snd k).

(** The lexicographic order of the ranks. *)
Definition key_ltb (a b : Z * Z) : bool :=
  if fst a =? fst b then snd a <? snd b
  else fst a <? fst b.

(** The entries that the selection ranks: the annual ones, or all of
    them when none is annual. *)
Definition candidates (l : list pyval) : result (list pyval) :=
  annuals <- filterM is_annual l ;;
  Ok match annuals with
     | [] => l
     | _ => annuals
     end.

Definition latest_annual_value (values : pyval) : result pyval :=
  match values with
  | PList l =>
      annuals <- candidates l ;;
      annuals <- sorted key_lt sort_key true annuals ;;
      Ok match annuals with
         | x :: _ => x
         | [] => PNone
         end
  | _ => Raise (TypeError "values is not a list of entries")
  end.

Fixpoint first_unit (keys : list string) (units : dict) : pyval :=
  match keys with
  | [] => PNone
  | k :: keys' =>
      match dict_get k units with
      | Some v => v
      | None => first_unit keys' units
      end
  end.

Definition get_us_gaap_body (facts : pyval) (tag : string)
  : result (option float) :=
  f <- subscript facts "facts" ;;
  gaap <- subscript f "us-gaap" ;;
  tag_data <- subscript gaap tag ;;
  units <- py_get tag_data "units" (PDict []) ;;
  match units with
  | PDict u =>
      let usd_values := first_unit ["USD"; "USD/shares"; "pure"] u in
      let usd_values :=
        if negb (truthy usd_values) && truthy units
        then match u with
             | (_, v) :: _ => v
             | [] => usd_values
             end
        else usd_values in
      latest <- latest_annual_value usd_values ;;
      if truthy latest
      then
        v <- py_get latest "val" PNone ;;
        x <- py_float v ;;
        Ok (Some x)
      else Ok None
  | _ => Raise (TypeError "units is not a mapping")
  end.

(** [try: ... except Exception: return None] *)
Definition get_us_gaap (facts : pyval) (tag : string) : option float :=
  try_except (get_us_gaap_body facts tag) (fun _ => None).

(** [sum(l)] over floats, starting from [0]. *)
Definition py_sum (l : list float) : float :=
  fold_left PrimFloat.add l 0%float.

Definition present (l : list (option float)) : list float :=
  flat_map (fun o => match o with Some x => [x] | None => [] end) l.

Definition opt_truthy (o : option float) : bool :=
  match o with
  | Some x => float_truthy x
  | None => false
  end.

(** [(n / d) if cond else None]; the operands are numbers whenever
    the guard of a call site holds. *)
Definition ratio_if (cond : bool) (n d : option float) : option float :=
  if cond
  then match n, d with
       | Some x, Some y => Some (x / y)%float
       | _, _ => None
       end
  else None.

Definition opt_val (o : option float) : pyval :=
  match o with
  | Some x => PFloat x
  | None => PNone
  end.

(** The intermediate values of [pull_sec_financials], by the name of
    the local variable. *)
Record locals := {
  revenue : option float;
  gross_profit : option float;
  operating_income : option float;
  net_income : option float;
  current_assets : option float;
  current_liabilities : option float;
  equity : option float;
  cash : option float;
  lt_debt : option float;
  current_portion_lt_debt : option float;
  st_borrow : option float;
  commercial_paper : option float;
  total_debt : float
}.

Definition extract (g : string -> option float) : locals :=
  let lt := or_else (g "LongTermDebtNoncurrent") (g "LongTermDebt") in
  let cp := g "LongTermDebtCurrent" in
  let st := g "ShortTermBorrowings" in
  let cm := g "CommercialPaper" in
  {| revenue :=
       or_else (or_else
         (g "RevenueFromContractWithCustomerExcludingAssessedTax")
         (g "SalesRevenueNet")) (g "Revenues");
     gross_profit := g "GrossProfit";
     operating_income :=
       or_else (g "OperatingIncomeLoss") (g "OperatingIncome");
     net_income := or_else (g "NetIncomeLoss") (g "ProfitLoss");
     current_assets := g "AssetsCurrent";
     current_liabilities := g "LiabilitiesCurrent";
     equity :=
       or_else
         (g "StockholdersEquityIncludingPortionAttributableToNoncontrollingInterest")
         (g "StockholdersEquity");
     cash :=
       or_else (g "CashAndCashEquivalentsAtCarryingValue")
               (g "CashCashEquivalentsAndShortTermInvestments");
     lt_debt := lt;
     current_portion_lt_debt := cp;
     st_borrow := st;
     commercial_paper := cm;
     total_debt := py_sum (present [lt; cp; st; cm]) |}.

(** [total_debt] is a number on every path, so the test
    [total_debt is not None] of the source always holds. *)
Definition financials (v : locals) : pyval :=
  let td := Some (total_debt v) in
  let gross_margin :=
    ratio_if (opt_truthy (revenue v) && is_some (gross_profit v))
             (gross_profit v) (revenue v) in
  let operating_margin :=
    ratio_if (opt_truthy (revenue v) && is_some (operating_income v))
             (operating_income v) (revenue v) in
  let current_ratio :=
    ratio_if (opt_truthy (current_assets v)
              && opt_truthy (current_liabilities v))
             (current_assets v) (current_liabilities v) in
  let debt_to_equity :=
    ratio_if (opt_truthy (equity v) && is_some td) td (equity v) in
  PDict [("revenue", opt_val (revenue v));
         ("gross_profit", opt_val (gross_profit v));
         ("operating_income", opt_val (operating_income v));
         ("net_income", opt_val (net_income v));
         ("cash", opt_val (cash v));
         ("current_assets", opt_val (current_assets v));
         ("current_liabilities", opt_val (current_liabilities v));
         ("equity", opt_val (equity v));
         ("total_debt",
           if float_truthy (total_debt v)
           then PFloat (total_debt v) else PNone);
         ("gross_margin", opt_val gross_margin);
         ("operating_margin", opt_val operating_margin);
         ("current_ratio", opt_val current_ratio);
         ("debt_to_equity", opt_val debt_to_equity)].

(** The entries on which neither the annual test nor the sort key
    raises. *)
Definition selectable (v : pyval) : bool :=
  match is_annual v, sort_key v with
  | Ok _, Ok _ => true
  | _, _ => false
  end.

Definition annual (v : pyval) : bool :=
  try_except (is_annual v) (fun _ => false).

Definition key_of (v : pyval) : Z * Z :=
  rank (try_except (sort_key v) (fun _ => (datetime_min, 0))).

(** The end dates of the entries are of one kind: all naive (an end
    date that does not parse counts as [datetime.min], which is naive)
    or all aware. *)
Definition comparable (l : list pyval) : bool :=
  forallb (fun v => negb (aware (parse_date v))) l
  || forallb (fun v => aware (parse_date v)) l.

(** [candidates] on selectable entries. *)
Definition candidates_p (l : list pyval) : list pyval :=
  match filter annual l with
  | [] => l
  | _ => filter annual l
  end.

Definition SEC_BASE := "https://data.sec.gov".

Definition facts_url (cik : string) : string :=
  String.append SEC_BASE
    (String.append "/api/xbrl/companyfacts/CIK" (String.append cik ".json")).

(** [fetch_json url] is the decoded answer of the request, [None]
    when the request or its decoding raises. *)
Definition pull_sec_financials
    (fetch_json : string -> option pyval) (cik : string) : pyval :=
  match fetch_json (facts_url cik) with
  | None => PDict []
  | Some data =>
      if truthy data
      then financials (extract (get_us_gaap data))
      else PDict []
  end.

(** The intermediate values of a call, when the facts were fetched. *)
Definition locals_of (fetch_json : string -> option pyval) (cik : string)
  : option locals :=
  match fetch_json (facts_url cik) with
  | None => None
  | Some data =>
      if truthy data then Some (extract (get_us_gaap data)) else None
  end.

(** The debt components that are not [None], in the order of the sum. *)
Definition debt_components (fetch_json : string -> option pyval)
    (cik : string) : list float :=
  match locals_of fetch_json cik with
  | Some v =>
      present [lt_debt v; current_portion_lt_debt v; st_borrow v;
               commercial_paper v]
  | None => []
  end.

End WithLib.
End SecFinancials.

(** ** price_trend.py *)

Module PriceTrend.
Section WithLib.
Context {L : PyLib}.

(** One row of the table that [history] returns: the index, already
    formatted by [strftime("%Y-%m-%d")], and the Close column, where
    NaN is a missing value. *)
Definition row : Type := string * float.

(** [hist["Close"].dropna()] *)
Definition dropna (hist : list row) : list row :=
  filter (fun r => negb (PrimFloat.is_nan (snd r))) hist.

(** [math.log(x)]: a [ValueError] outside the positive numbers. *)
Definition py_log (x : float) : result float :=
  if (x <=? 0)%float then Raise (ValueError "math domain error")
  else Ok (log x).

(** The comprehension over [range(1, len(vals))], with [prev] the
    value at [i-1]. *)
Fixpoint logrets_from (prev : float) (rest : list float)
  : result (list float) :=
  match rest with
  | [] => Ok []
  | v :: rest' =>
      if float_truthy prev && float_truthy v
      then
        r <- py_log (v / prev)%float ;;
        rs <- logrets_from v rest' ;;
        Ok (r :: rs)
      else logrets_from v rest'
  end.

Definition logrets (vals : list float) : result (list float) :=
  match vals with
  | [] => Ok []
  | v :: rest => logrets_from v rest
  end.

(** [statistics.pstdev(logrets) * math.sqrt(252) if logrets else None] *)
Definition annualized_vol (lr : list float) : result pyval :=
  match lr with
  | [] => Ok PNone
  | _ => s <- pstdev lr ;; Ok (PFloat (s * PrimFloat.sqrt 252)%float)
  end.

(** [float(series.tail(n).mean()) if len(series) >= n else None] *)
Definition sma (n : nat) (vals : list float) : pyval :=
  if (n <=? List.length vals)%nat
  then PFloat (series_mean (lastn n vals))
  else PNone.

Definition out_of_range := IndexError "list index out of range".

Definition error_shape (msg : string) : pyval :=
  PDict [("error", PStr msg)].

(** The metrics computed from the close series [closes], the rows
    left by [dropna]. *)
Definition metrics_of (closes : list row) : result pyval :=
  latest_close <- of_option (option_map snd (last_error closes))
                            out_of_range ;;
  oldest_close <- of_option (option_map snd (hd_error closes))
                            out_of_range ;;
  let pct_change :=
    if float_truthy oldest_close
    then PFloat (latest_close / oldest_close - 1)%float
    else PNone in
  let vals := map snd closes in
  let sma20 := sma 20 vals in
  let sma50 := sma 50 vals in
  lr <- logrets vals ;;
  vol <- annualized_vol lr ;;
  Ok (PDict [("latest_close", PFloat latest_close);
             ("oldest_close", PFloat oldest_close);
             ("pct_change", pct_change);
             ("sma20", sma20);
             ("sma50", sma50);
             ("annualized_vol", vol);
             ("sample",
               PList (map (fun r => PTuple [PStr (fst r); PFloat (snd r)])
                          (lastn 5 closes)))]).

(** The body of the [try] block on the table [hist]. *)
Definition price_metrics (hist : list row) : result pyval :=
  match hist with
  | [] => Ok (error_shape "No price data returned")
  | _ => metrics_of (dropna hist)
  end.

(** The keys of the normal shape. *)
Definition metric_keys : list string :=
  ["latest_close"; "oldest_close"; "pct_change"; "sma20"; "sma50";
   "annualized_vol"; "sample"].

(** [hist] is the outcome of [yf.Ticker(symbol).history(...)]: the
    table, or the exception it raised. *)
Definition pull_price_trend_yf (hist : result (list row)) : pyval :=
  try_except (h <- hist ;; price_metrics h)
             (fun e => error_shape (exn_msg e)).

End WithLib.
End PriceTrend.

(** ** finnhub_news.py *)

Module FinnhubNews.
Section WithLib.
Context {L : PyLib}.

(** The elements that iterating over a value yields. *)
Definition iter_items (data : pyval) : result (list pyval) :=
  match data with
  | PList l | PTuple l => Ok l
  | PDict d => Ok (map (fun kv => PStr (fst kv)) d)
  | PStr s => Ok (map (fun c => PStr (String c EmptyString))
                      (list_ascii_of_string s))
  | _ => Raise (TypeError "object is not iterable")
  end.

(** [len(data)] of a value that was iterated. *)
Definition py_len (data : pyval) : Z :=
  match data with
  | PList l | PTuple l => Z.of_nat (List.length l)
  | PDict d => Z.of_nat (List.length d)
  | PStr s => Z.of_nat (String.length s)
  | _ => 0
  end.

(** The sort key [x.get("datetime", 0)]. *)
Definition timestamp (x : pyval) : result pyval :=
  py_get x "datetime" (PInt 0).

(** The conversion inside the [try]: it raises on a value that is
    not a number and wherever the library does. *)
Definition to_iso (ts : pyval) : option string :=
  match num_of ts with
  | Some n => fromtimestamp_utc n
  | None => None
  end.

(** One turn of the loop over the retained items; the bare [except]
    leaves the item as it is. *)
Definition enrich (it : pyval) : pyval :=
  match it with
  | PDict d =>
      match to_iso (get_default "datetime" (PInt 0) d) with
      | Some s => PDict (dict_set "datetime_iso" (PStr s) d)
      | None => it
      end
  | _ => it
  end.

Definition is_dict (v : pyval) : bool :=
  match v with PDict _ => true | _ => false end.

(** The items whose timestamp is an integer or is missing. *)
Definition int_ts (v : pyval) : bool :=
  match v with
  | PDict d =>
      match get_default "datetime" (PInt 0) d with
      | PInt _ => true
      | _ => false
      end
  | _ => false
  end.

(** The items whose timestamp is a number other than NaN, or is
    missing. *)
Definition num_ts (v : pyval) : bool :=
  match v with
  | PDict d =>
      match num_of (get_default "datetime" (PInt 0) d) with
      | Some n => Exact.not_nan n
      | None => false
      end
  | _ => false
  end.

(** The timestamp of such an item, as a number. *)
Definition ts_num (v : pyval) : num :=
  match v with
  | PDict d =>
      match num_of (get_default "datetime" (PInt 0) d) with
      | Some n => n
      | None => NInt 0
      end
  | _ => NInt 0
  end.

(** No two items of the list have equal timestamps. *)
Fixpoint distinct_ts (l : list pyval) : bool :=
  match l with
  | [] => true
  | a :: l' =>
      forallb (fun b => negb (num_eqb (ts_num a) (ts_num b))) l'
      && distinct_ts l'
  end.

(** The integer timestamp of such an item. *)
Definition ts_of (v : pyval) : Z :=
  match v with
  | PDict d =>
      match get_default "datetime" (PInt 0) d with
      | PInt z => z
      | _ => 0
      end
  | _ => 0
  end.

(** What the loop may do to a retained item [it], giving [it']: nothing
    when the conversion raises, else bind [datetime_iso] and leave every
    other key as it is. *)
Definition enriched (it it' : pyval) : Prop :=
  match it with
  | PDict d =>
      match to_iso (get_default "datetime" (PInt 0) d) with
      | None => it' = it
      | Some iso =>
          exists d',
            it' = PDict d'
            /\ dict_get "datetime_iso" d' = Some (PStr iso)
            /\ forall k, k <> "datetime_iso" -> dict_get k d' = dict_get k d
      end
  | _ => it' = it
  end.

Definition error_field (data : pyval) : pyval :=
  match data with
  | PDict d => get_default "error" PNone d
  | _ => PNone
  end.

(** [api_key] is the module constant [FINNHUB_API_KEY]; [fetched] is
    what [fetch_json] returned, [None] on any failure. *)
Definition pull_finnhub_news (api_key : string) (fetched : option pyval)
  : result pyval :=
  if String.eqb api_key ""
  then Ok (PDict [("error", PStr "Missing FINNHUB_API_KEY")])
  else
    let data := match fetched with Some v => v | None => PNone end in
    if negb (truthy data) || (is_dict data && truthy (error_field data))
    then Ok (PDict [("error",
                     if is_dict data then error_field data
                     else PStr "Failed to get news")])
    else
      l <- iter_items data ;;
      s <- sorted py_lt timestamp true l ;;
      let items := map enrich (firstn 20 s) in
      Ok (PDict [("count", PInt (py_len data));
                 ("sample", PList items)]).

End WithLib.
End FinnhubNews.

(** ** collect_raw_data.py *)

Module Hub.

(** JSON documents, as [json.dump] writes and [json.load] reads them. *)
Unset Elimination Schemes.
Inductive json : Type :=
| JNull
| JBool (b : bool)
| JInt (z : Z)
| JFloat (f : float)
| JStr (s : string)
| JArr (l : list json)
| JObj (o : list (string * json)).
Set Elimination Schemes.

(** The encoder: lists and tuples both become arrays. *)
Fixpoint json_dump (v : pyval) : json :=
  match v with
  | PNone => JNull
  | PBool b => JBool b
  | PInt z => JInt z
  | PFloat f => JFloat f
  | PStr s => JStr s
  | PList l | PTuple l => JArr (map json_dump l)
  | PDict d => JObj (map (fun kv => (fst kv, json_dump (snd kv))) d)
  end.

(** The decoder: an array becomes a list. *)
Fixpoint json_load (j : json) : pyval :=
  match j with
  | JNull => PNone
  | JBool b => PBool b
  | JInt z => PInt z
  | JFloat f => PFloat f
  | JStr s => PStr s
  | JArr l => PList (map json_load l)
  | JObj o => PDict (map (fun kv => (fst kv, json_load (snd kv))) o)
  end.

(** What a value becomes on the way through a JSON document: every
    tuple is a list. *)
Fixpoint tuples_to_lists (v : pyval) : pyval :=
  match v with
  | PList l | PTuple l => PList (map tuples_to_lists l)
  | PDict d => PDict (map (fun kv => (fst kv, tuples_to_lists (snd kv))) d)
  | _ => v
  end.

Fixpoint tuple_free (v : pyval) : bool :=
  match v with
  | PTuple _ => false
  | PList l => forallb tuple_free l
  | PDict d => forallb (fun kv => tuple_free (snd kv)) d
  | _ => true
  end.

Fixpoint distinct (keys : list string) : bool :=
  match keys with
  | [] => true
  | k :: keys' => negb (existsb (String.eqb k) keys') && distinct keys'
  end.

(** The values that compare equal to themselves and hold no tuple: no
    float is NaN ([f == f] fails on NaN only) and the keys of a dict
    are distinct, as they are in every Python dict. *)
Fixpoint json_exact (v : pyval) : bool :=
  match v with
  | PFloat f => PrimFloat.eqb f f
  | PTuple _ => false
  | PList l => forallb json_exact l
  | PDict d =>
      distinct (dict_keys d) && forallb (fun kv => json_exact (snd kv)) d
  | _ => true
  end.

(** The files of the output directory: the document stored under a
    path, if any.  A file is known by the path text that is passed to
    [open]; two spellings of one file are outside the model. *)
Definition files := string -> option json.

Definition write_file (fs : files) (path : string) (j : json) : files :=
  fun p => if String.eqb p path then Some j else fs p.

Section WithLib.
Context {L : PyLib}.

(** The sources that one aggregation call consults: the records of
    the symbol registry as the resolver reads them, the answers of the
    SEC and news requests, and the price history. *)
Record world := {
  registry : option (list pyval);
  sec_fetch_json : string -> option pyval;
  history : string -> result (list PriceTrend.row);
  FINNHUB_API_KEY : string;
  company_news : string -> option pyval
}.

Definition collect_raw_data (w : world) (ticker : string)
  : result pyval :=
  let resolved := Resolver.resolve_ticker_to_cik (registry w) ticker in
  cik <- Resolver.get_cik resolved ;;
  let sec := SecFinancials.pull_sec_financials (sec_fetch_json w) cik in
  let prices := PriceTrend.pull_price_trend_yf (history w ticker) in
  news <- FinnhubNews.pull_finnhub_news (FINNHUB_API_KEY w)
                                        (company_news w ticker) ;;
  Ok (PDict [("meta", Resolver.to_py resolved);
             ("sec", sec);
             ("prices", prices);
             ("news", news)]).

(** [stamp] is what [time.strftime("%Y%m%d-%H%M%S")] returns at the
    call.  The function returns the path written and the files
    after the write. *)
Definition persist_raw_json (fs : files) (stamp : string)
    (ticker : string) (data : pyval) (out_dir : string)
    (filename : option string) (with_timestamp : bool)
  : string * files :=
  let stamp := if with_timestamp then stamp else "" in
  let default :=
    String.append ticker
      (String.append "_raw"
        (String.append
          (if String.eqb stamp "" then "" else String.append "_" stamp)
          ".json")) in
  let base :=
    match filename with
    | Some f => if String.eqb f "" then default else f
    | None => default
    end in
  let path := path_join out_dir base in
  (path, write_file fs path (json_dump data)).

Definition load_raw_json (fs : files) (path : string) : result pyval :=
  match fs path with
  | Some j => Ok (json_load j)
  | None => Raise (FileNotFoundError path)
  end.

End WithLib.
End Hub.

(** ** The [json] text codec

    [json.loads] and [json.dumps] on text, as the agents call them on
    what the language model returns; they belong to the library and are
    taken as an interface. *)

Class JsonText := {
  (** [json.loads(s)]: the value, or the exception raised. *)
  json_loads : string -> result pyval;
  (** [json.dumps(v)] *)
  json_dumps : pyval -> string
}.

(** ** What the three agents share *)

Module AgentCommon.

Definition JSONDecodeError (m : string) := MkExn "JSONDecodeError" m.

(** [except json.JSONDecodeError] *)
Definition is_decode_error (e : exn) : bool :=
  String.eqb (exn_kind e) "JSONDecodeError".

(** [s.find(c)] for a character; [None] stands for [-1]. *)
Fixpoint find_char (c : ascii) (s : string) : option nat :=
  match s with
  | EmptyString => None
  | String a s' =>
      if Ascii.eqb a c then Some O else option_map S (find_char c s')
  end.

(** [s.rfind(c)] for a character; [None] stands for [-1]. *)
Fixpoint rfind_char (c : ascii) (s : string) : option nat :=
  match s with
  | EmptyString => None
  | String a s' =>
      match rfind_char c s' with
      | Some i => Some (S i)
      | None => if Ascii.eqb a c then Some O else None
      end
  end.

Definition lbrace : ascii := "{"%char.
Definition rbrace : ascii := "}"%char.

(** [_safe_parse_json] of [sec_agent.py], [_safe_json] of
    [stock_agent.py] and the inline parse of [news_agent.py]: the same
    statements. *)
Definition safe_parse_json {J : JsonText} (txt : string) (fallback : pyval)
  : result pyval :=
  match json_loads txt with
  | Ok v => Ok v
  | Raise e =>
      if is_decode_error e
      then
        match find_char lbrace txt, rfind_char rbrace txt with
        | Some start, Some stop =>
            if (start <? stop)%nat
            then Ok (try_except
                       (json_loads (substring start (stop + 1 - start) txt))
                       (fun _ => fallback))
            else Ok fallback
        | _, _ => Ok fallback
        end
      else Raise e
  end.

Definition is_none (v : pyval) : bool :=
  match v with PNone => true | _ => false end.

Definition is_list (v : pyval) : bool :=
  match v with PList _ => true | _ => false end.

(** [k in v] for a string [k]. *)
Definition contains (v : pyval) (k : string) : result bool :=
  match v with
  | PDict d => Ok (existsb (String.eqb k) (dict_keys d))
  | PList l | PTuple l => Ok (existsb (py_eq (PStr k)) l)
  | PStr s => Ok (is_some (String.index 0 k s))
  | _ => Raise (TypeError "argument is not iterable")
  end.

(** [v[k] = x] for a string [k]; the object after the assignment. *)
Definition set_item (v : pyval) (k : string) (x : pyval) : result pyval :=
  match v with
  | PDict d => Ok (PDict (dict_set k x d))
  | PList _ =>
      Raise (TypeError "list indices must be integers or slices, not str")
  | _ => Raise (TypeError "object does not support item assignment")
  end.

(** [v.setdefault(k, x)]; the object after the call. *)
Definition setdefault (v : pyval) (k : string) (x : pyval) : result pyval :=
  match v with
  | PDict d =>
      Ok (PDict (if existsb (String.eqb k) (dict_keys d) then d
                 else dict_set k x d))
  | _ => Raise (AttributeError "object has no attribute 'setdefault'")
  end.

(** [for k, template in schema.items(): if k not in parsed:
    parsed[k] = default(template)] *)
Fixpoint fill_missing (default : pyval -> pyval) (schema : dict)
    (parsed : pyval) : result pyval :=
  match schema with
  | [] => Ok parsed
  | (k, template) :: schema' =>
      present <- contains parsed k ;;
      parsed' <- (if present then Ok parsed
                  else set_item parsed k (default template)) ;;
      fill_missing default schema' parsed'
  end.

(** [a or b] *)
Definition py_or (a b : pyval) : pyval := if truthy a then a else b.

(** [a > b] *)
Definition py_gt (a b : pyval) : result bool := py_lt b a.

(** [len(v)] *)
Definition len (v : pyval) : result Z :=
  match v with
  | PList l | PTuple l => Ok (Z.of_nat (List.length l))
  | PDict d => Ok (Z.of_nat (List.length d))
  | PStr s => Ok (Z.of_nat (String.length s))
  | _ => Raise (TypeError "object has no len()")
  end.

(** The [repr] of a list of strings that hold no quote or escape. *)
Definition repr_strs (l : list string) : string :=
  String.append "["
    (String.append
       (String.concat ", "
          (map (fun k => String.append "'" (String.append k "'")) l))
       "]").

End AgentCommon.

(** ** sec_agent.py *)

Module SecAgent.
Import AgentCommon.

Definition SEC_JSON_SCHEMA : dict :=
  [("analyst_summary", PStr "2 short paragraphs for a CFA audience.");
   ("plain_summary", PStr "2–4 sentences for non-technical readers.");
   ("profitability",
     PList [PStr "Short bullet(s) on gross/operating margin quality and trends if implied."]);
   ("liquidity",
     PList [PStr "Short bullet(s) on current ratio and near-term cash coverage."]);
   ("solvency",
     PList [PStr "Short bullet(s) on leverage (debt/equity) and balance-sheet risk."]);
   ("red_flags",
     PList [PStr "Specific risks (e.g., high leverage, weak liquidity, margin compression)."]);
   ("green_flags",
     PList [PStr "Specific strengths (e.g., robust margins, strong cash, improving leverage)."]);
   ("verdict", PStr "One of: strong | stable | watch | fragile")].

Definition required_fields : list string :=
  ["revenue"; "gross_profit"; "operating_income"; "net_income";
   "cash"; "current_assets"; "current_liabilities"; "equity";
   "total_debt"; "gross_margin"; "operating_margin";
   "current_ratio"; "debt_to_equity"].

(** [_empty_payload()] *)
Definition empty_payload : pyval :=
  PDict [("analyst_summary", PStr ""); ("plain_summary", PStr "");
         ("profitability", PList []); ("liquidity", PList []);
         ("solvency", PList []); ("red_flags", PList []);
         ("green_flags", PList []); ("verdict", PStr "")].

(** [k not in sec_data or sec_data[k] is None] *)
Definition is_missing (sec_data : pyval) (k : string) : result bool :=
  present <- contains sec_data k ;;
  if present then v <- subscript sec_data k ;; Ok (is_none v)
  else Ok true.

(** [[] if isinstance(template, list) else ""] *)
Definition default_for (template : pyval) : pyval :=
  if is_list template then PList [] else PStr "".

(** [raw] is the outcome of [chain.invoke] for this call: the text the
    model returned, or the exception raised.  The prompt texts only
    reach the model; [ticker_hint] is part of them. *)
Definition analyze_sec_financials {J : JsonText} (raw : result string)
    (sec_data : pyval) (ticker_hint : option string) : result pyval :=
  missing <- SecFinancials.filterM (is_missing sec_data) required_fields ;;
  match missing with
  | _ :: _ =>
      Ok (PDict [("error",
                  PStr (String.append "Missing required SEC fields: "
                                      (repr_strs missing)))])
  | [] =>
      raw_text <- raw ;;
      parsed <- safe_parse_json raw_text empty_payload ;;
      parsed <- fill_missing default_for SEC_JSON_SCHEMA parsed ;;
      Ok (PDict [("metrics", sec_data);
                 ("analysis_json", parsed);
                 ("raw_model_text", PStr raw_text)])
  end.

End SecAgent.

(** ** stock_agent.py *)

Module StockAgent.
Import AgentCommon.

(** The literals [0.05], [0.20] and [0.35] as binary64. *)
Definition f_0_05 : float := 0x1.999999999999ap-5%float.
Definition f_0_20 : float := 0x1.999999999999ap-3%float.
Definition f_0_35 : float := 0x1.6666666666666p-2%float.

(** [a is not None and b is not None and a > b] *)
Definition above (a b : pyval) : result pyval :=
  if is_none a then Ok (PBool false)
  else if is_none b then Ok (PBool false)
  else r <- py_gt a b ;; Ok (PBool r).

(** ["Up" if (pct_change or 0) > 0.05 else ("Down" if (pct_change or 0)
    < -0.05 else "Flat")] *)
Definition trend_label (pct_change : pyval) : result string :=
  up <- py_gt (py_or pct_change (PInt 0)) (PFloat f_0_05) ;;
  if up then Ok "Up"
  else
    down <- py_lt (py_or pct_change (PInt 0)) (PFloat (- f_0_05)%float) ;;
    Ok (if down then "Down" else "Flat").

(** The [if sma20 is not None and sma50 is not None] statement. *)
Definition crossover (sma20 sma50 : pyval) : result pyval :=
  if negb (is_none sma20) && negb (is_none sma50)
  then
    gt <- py_gt sma20 sma50 ;;
    if gt then Ok (PStr "Bullish (20D above 50D)")
    else
      lt <- py_lt sma20 sma50 ;;
      Ok (PStr (if lt then "Bearish (20D below 50D)"
                else "Neutral (20D ~ 50D)"))
  else Ok PNone.

(** The [if vol is not None] statement. *)
Definition volatility_label (vol : pyval) : result pyval :=
  if negb (is_none vol)
  then
    low <- py_lt vol (PFloat f_0_20) ;;
    if low then Ok (PStr "Low")
    else
      moderate <- py_lt vol (PFloat f_0_35) ;;
      Ok (PStr (if moderate then "Moderate" else "High"))
  else Ok PNone.

(** [price_data.get("days") or (len(price_data.get("sample", [])) or
    None)] *)
Definition days_window (price_data : pyval) : result pyval :=
  days_key <- py_get price_data "days" PNone ;;
  if truthy days_key then Ok days_key
  else
    sample <- py_get price_data "sample" (PList []) ;;
    n <- len sample ;;
    Ok (py_or (PInt n) PNone).

Definition derive_signals (price_data : pyval) : result pyval :=
  latest <- py_get price_data "latest_close" PNone ;;
  sma20 <- py_get price_data "sma20" PNone ;;
  sma50 <- py_get price_data "sma50" PNone ;;
  pct_change <- py_get price_data "pct_change" PNone ;;
  vol <- py_get price_data "annualized_vol" PNone ;;
  trend <- trend_label pct_change ;;
  above_20 <- above latest sma20 ;;
  above_50 <- above latest sma50 ;;
  cross <- crossover sma20 sma50 ;;
  vol_label <- volatility_label vol ;;
  days <- days_window price_data ;;
  Ok (PDict [("trend_label", PStr trend);
             ("above_sma20", above_20);
             ("above_sma50", above_50);
             ("crossover", cross);
             ("volatility_label", vol_label);
             ("days_window", days)]).

Definition JSON_CONTRACT : dict :=
  [("analysis_technical",
     PStr "6-8 sentences for finance readers; discuss pct_change, SMAs (20D/50D), crossover, volatility label, and flags.");
   ("summary_plain",
     PStr "3-5 short sentences for non-experts, no jargon.");
   ("flags",
     PDict [("positives", PList [PStr "bullet list of positives"]);
            ("red_flags", PList [PStr "bullet list of risks"])])].

(** [_empty_payload()] *)
Definition empty_payload : pyval :=
  PDict [("analysis_technical", PStr ""); ("summary_plain", PStr "");
         ("flags", PDict [("positives", PList []);
                          ("red_flags", PList [])])].

(** [[] if isinstance(v, list) else ({} if isinstance(v, dict) else "")] *)
Definition default_for (template : pyval) : pyval :=
  match template with
  | PList _ => PList []
  | PDict _ => PDict []
  | _ => PStr ""
  end.

(** The target [d, c] of the comprehension over the sample. *)
Definition unpack_pair (v : pyval) : result (pyval * pyval) :=
  l <- FinnhubNews.iter_items v ;;
  match l with
  | [d; c] => Ok (d, c)
  | _ => Raise (ValueError "wrong number of values to unpack")
  end.

(** [{**price_data, "derived_signals": signals}] *)
Definition with_signals (price_data signals : pyval) : result pyval :=
  match price_data with
  | PDict d => Ok (PDict (dict_set "derived_signals" signals d))
  | _ => Raise (TypeError "argument after ** must be a mapping")
  end.

(** [raw] is the outcome of [chain.invoke] for this call. *)
Definition analyze_stock_price {J : JsonText} (raw : result string)
    (price_data : pyval) (ticker_hint : option string) : result pyval :=
  has_error <- (if negb (truthy price_data) then Ok true
                else contains price_data "error") ;;
  if has_error
  then
    e <- py_get price_data "error" (PStr "No price data provided") ;;
    Ok (PDict [("error", e)])
  else
    signals <- derive_signals price_data ;;
    recent <- py_get price_data "sample" (PList []) ;;
    rows <- FinnhubNews.iter_items recent ;;
    recent_compact <- mapM unpack_pair rows ;;
    raw_text <- raw ;;
    parsed <- safe_parse_json raw_text empty_payload ;;
    parsed <- fill_missing default_for JSON_CONTRACT parsed ;;
    technical <- py_get parsed "analysis_technical" (PStr "") ;;
    plain <- py_get parsed "summary_plain" (PStr "") ;;
    flags <- py_get parsed "flags"
               (PDict [("positives", PList []); ("red_flags", PList [])]) ;;
    metrics <- with_signals price_data signals ;;
    Ok (PDict [("analysis_technical", technical);
               ("summary_plain", plain);
               ("flags", flags);
               ("metrics", metrics);
               ("raw_model_text", PStr raw_text)]).

End StockAgent.

(** ** news_agent.py *)

Module NewsAgent.
Import AgentCommon.

Definition NEWS_ANALYSIS_JSON_SCHEMA : dict :=
  [("relevant_articles",
     PList [PDict [("headline", PStr "string");
                   ("source", PStr "string");
                   ("date", PStr "YYYY-MM-DD (or raw ISO)");
                   ("why_relevant", PStr "string")]]);
   ("themes",
     PList [PDict [("name", PStr "string");
                   ("article_count", PStr "int");
                   ("snippets", PList [PStr "string"])]]);
   ("sentiment", PStr "one of: positive | negative | mixed | neutral");
   ("risks", PList [PStr "string"]);
   ("opportunities", PList [PStr "string"]);
   ("pro_summary", PStr "1–3 sentences, for analysts");
   ("plain_summary", PStr "1–3 sentences, for regular readers")].

(** [_empty_payload()], and the literal [empty] of [analyze_news]. *)
Definition empty_payload : pyval :=
  PDict [("relevant_articles", PList []); ("themes", PList []);
         ("sentiment", PStr "neutral"); ("risks", PList []);
         ("opportunities", PList []); ("pro_summary", PStr "");
         ("plain_summary", PStr "")].

(** The condition [n.get("summary")] of the comprehension. *)
Definition has_summary (n : pyval) : result bool :=
  s <- py_get n "summary" PNone ;; Ok (truthy s).

(** The dict that the comprehension builds from an item. *)
Definition article (n : pyval) : result pyval :=
  headline <- py_get n "headline" (PStr "") ;;
  summary <- py_get n "summary" (PStr "") ;;
  source <- py_get n "source" (PStr "") ;;
  iso <- py_get n "datetime_iso" (PStr "") ;;
  date <- (if truthy iso then Ok iso else py_get n "date" (PStr "")) ;;
  Ok (PDict [("headline", headline); ("summary", summary);
             ("source", source); ("date", date)]).

(** [[article(n) for n in news_sample if n.get("summary")]] *)
Fixpoint articles (l : list pyval) : result (list pyval) :=
  match l with
  | [] => Ok []
  | n :: l' =>
      keep <- has_summary n ;;
      if keep
      then a <- article n ;; r <- articles l' ;; Ok (a :: r)
      else articles l'
  end.

(** [[] if isinstance(template, list) else ""] *)
Definition default_for (template : pyval) : pyval :=
  if is_list template then PList [] else PStr "".

(** [for k in schema.keys(): parsed.setdefault(k, default)] *)
Fixpoint set_defaults (schema : dict) (parsed : pyval) : result pyval :=
  match schema with
  | [] => Ok parsed
  | (k, template) :: schema' =>
      parsed' <- setdefault parsed k (default_for template) ;;
      set_defaults schema' parsed'
  end.

(** [raw] is the outcome of [chain.invoke] for this call. *)
Definition analyze_news {J : JsonText} (raw : result string)
    (news_sample : pyval) (target_company_hint : option string)
  : result pyval :=
  l <- FinnhubNews.iter_items news_sample ;;
  items <- articles l ;;
  match items with
  | [] =>
      Ok (PDict [("raw_articles", PList []);
                 ("analysis_json", empty_payload);
                 ("raw_model_text", PStr (json_dumps empty_payload))])
  | _ =>
      raw_text <- raw ;;
      parsed <- safe_parse_json raw_text empty_payload ;;
      parsed <- set_defaults NEWS_ANALYSIS_JSON_SCHEMA parsed ;;
      Ok (PDict [("raw_articles", PList items);
                 ("analysis_json", parsed);
                 ("raw_model_text", PStr raw_text)])
  end.

(** [_get_news_sample] *)
Definition get_news_sample (news : pyval) : pyval :=
  match news with
  | PDict d =>
      match dict_get "sample" d with
      | Some (PList l) => PList l
      | _ =>
          match dict_get "results" d with
          | Some (PList l) => PList l
          | _ => PList []
          end
      end
  | _ => PList []
  end.

End NewsAgent.

(** ** A reference interpretation of the library

    Used to run the embedding on concrete inputs.  It covers the inputs
    that the examples below use: ISO dates of the form YYYY-MM-DD, plain
    decimal literals, timestamps between the years 1 and 9999, paths
    without special components.  [log] and [pstdev] are computed in
    binary64 and approximate the library's correctly rounded results. *)

Module RefLib.

Definition digit (c : ascii) : option Z :=
  let n := Z.of_nat (nat_of_ascii c) in
  if (48 <=? n) && (n <=? 57) then Some (n - 48) else None.

Fixpoint digits (s : string) (acc : Z) : option Z :=
  match s with
  | EmptyString => Some acc
  | String c s' =>
      match digit c with
      | Some d => digits s' (acc * 10 + d)
      | None => None
      end
  end.

Definition parse_nat (s : string) : option Z :=
  match s with
  | EmptyString => None
  | _ => digits s 0
  end.

Definition parse_int (s : string) : option Z :=
  match s with
  | String "-" s' => option_map Z.opp (parse_nat s')
  | String "+" s' => parse_nat s'
  | _ => parse_nat s
  end.

Definition parse_float (s : string) : option float :=
  match parse_int s with
  | Some z => to_option (float_of_Z z)
  | None => None
  end.

Definition is_leap (y : Z) : bool :=
  ((y mod 4 =? 0) && negb (y mod 100 =? 0)) || (y mod 400 =? 0).

Definition days_in_month (y m : Z) : Z :=
  if m =? 2 then (if is_leap y then 29 else 28)
  else if (m =? 4) || (m =? 6) || (m =? 9) || (m =? 11) then 30
  else 31.

Definition days_before_year (y : Z) : Z :=
  let p := y - 1 in 365 * p + p / 4 - p / 100 + p / 400.

Fixpoint days_before_month (y : Z) (m : nat) : Z :=
  match m with
  | O => 0
  | S m' => days_before_month y m' + days_in_month y (Z.of_nat m)
  end.

Definition usec_per_day : Z := 86400000000.

(** Midnight of a calendar date, from [datetime.min]. *)
Definition date_usec (y m d : Z) : option N :=
  if (1 <=? y) && (y <=? 9999) && (1 <=? m) && (m <=? 12)
     && (1 <=? d) && (d <=? days_in_month y m)
  then Some (Z.to_N ((days_before_year y
                      + days_before_month y (Z.to_nat (m - 1))
                      + (d - 1)) * usec_per_day))
  else None.

Definition upper_ascii (c : ascii) : ascii :=
  let n := nat_of_ascii c in
  if ((97 <=? n) && (n <=? 122))%nat then ascii_of_nat (n - 32) else c.

(** [s.upper()] on ASCII text. *)
Fixpoint upper (s : string) : string :=
  match s with
  | EmptyString => EmptyString
  | String c s' => String (upper_ascii c) (upper s')
  end.

(** [str(v)] of a float that is a whole number below [10^16], of a
    zero, an infinity or NaN; other floats and the containers are
    outside the reference and give the empty text. *)
Definition str_of_other_ref (v : pyval) : string :=
  match v with
  | PFloat f =>
      match Z_of_float f with
      | Ok z =>
          if PrimFloat.eqb (try_except (float_of_Z z) (fun _ => nan)) f
             && (Z.abs z <? 10 ^ 16)
          then String.append
                 (if PrimFloat.ltb (1 / f) 0 then "-0" else str_of_Z z) ".0"
          else ""
      | Raise _ =>
          if PrimFloat.is_nan f then "nan"
          else if PrimFloat.ltb f 0 then "-inf" else "inf"
      end
  | _ => ""
  end.

Definition date_fromisoformat (s : string) : option N :=
  if (String.length s =? 10)%nat
     && String.eqb (substring 4 1 s) "-"
     && String.eqb (substring 7 1 s) "-"
  then
    match parse_nat (substring 0 4 s), parse_nat (substring 5 2 s),
          parse_nat (substring 8 2 s) with
    | Some y, Some m, Some d => date_usec y m d
    | _, _, _ => None
    end
  else None.

Definition two_digits (s : string) (i : nat) : option Z :=
  parse_nat (substring i 2 s).

(** The time of day [HH:MM:SS], in microseconds. *)
Definition time_usec (s : string) : option Z :=
  if (String.length s =? 8)%nat
     && String.eqb (substring 2 1 s) ":"
     && String.eqb (substring 5 1 s) ":"
  then
    match two_digits s 0, two_digits s 3, two_digits s 6 with
    | Some h, Some m, Some sec =>
        if (h <? 24) && (m <? 60) && (sec <? 60)
        then Some ((h * 3600 + m * 60 + sec) * 1000000)
        else None
    | _, _, _ => None
    end
  else None.

(** A UTC offset [+HH:MM] or [-HH:MM], in microseconds; [Z] is zero. *)
Definition offset_usec (s : string) : option Z :=
  if String.eqb s "Z" then Some 0
  else if (String.length s =? 6)%nat && String.eqb (substring 3 1 s) ":"
  then
    match two_digits s 1, two_digits s 4 with
    | Some h, Some m =>
        if (h <? 24) && (m <? 60)
        then
          let o := (h * 3600 + m * 60) * 1000000 in
          if String.eqb (substring 0 1 s) "+" then Some o
          else if String.eqb (substring 0 1 s) "-" then Some (- o)
          else None
        else None
    | _, _ => None
    end
  else None.

(** The texts [YYYY-MM-DD], [YYYY-MM-DDTHH:MM:SS] and the latter
    followed by a UTC offset. *)
Definition datetime_fromisoformat (s : string) : option datetime :=
  let n := String.length s in
  match date_fromisoformat (substring 0 10 s) with
  | None => None
  | Some day =>
      if (n =? 10)%nat then Some {| wall := day; utcoffset := None |}
      else if (19 <=? n)%nat
              && (String.eqb (substring 10 1 s) "T"
                  || String.eqb (substring 10 1 s) " ")
      then
        match time_usec (substring 11 8 s) with
        | None => None
        | Some t =>
            let w := (day + Z.to_N t)%N in
            if (n =? 19)%nat then Some {| wall := w; utcoffset := None |}
            else
              match offset_usec (substring 19 (n - 19) s) with
              | Some o => Some {| wall := w; utcoffset := Some o |}
              | None => None
              end
        end
      else None
  end.

Definition fsum (l : list float) : float :=
  fold_left PrimFloat.add l 0%float.

Definition flen (l : list float) : float :=
  try_except (float_of_Z (Z.of_nat (List.length l))) (fun _ => infinity).

Definition mean (l : list float) : float := (fsum l / flen l)%float.

Definition pstdev_ref (l : list float) : result float :=
  let m := mean l in
  Ok (PrimFloat.sqrt
        (fsum (map (fun x => (x - m) * (x - m))%float l) / flen l))%float.

Definition ln2 : float := 0x1.62e42fefa39efp-1%float.

(** [y + y^3/3 + y^5/5 + ...], [n] terms from the odd power [k]. *)
Fixpoint atanh_terms (n : nat) (y2 p k : float) : float :=
  match n with
  | O => 0%float
  | S n' => (p / k + atanh_terms n' y2 (p * y2) (k + 2))%float
  end.

Definition log_ref (x : float) : float :=
  if PrimFloat.is_nan x || PrimFloat.is_infinity x then x
  else
    let (m, e) := Z.frexp x in
    let y := ((m - 1) / (m + 1))%float in
    let ef := try_except (float_of_Z e) (fun _ => nan) in
    (ef * ln2 + 2 * atanh_terms 24 (y * y) y 1)%float.

Definition pad2 (z : Z) : string := zfill String.length 2 (str_of_Z z).

(** Civil date of a day count from 1970-01-01. *)
Definition civil_from_days (days : Z) : Z * Z * Z :=
  let z := days + 719468 in
  let era := z / 146097 in
  let doe := z - era * 146097 in
  let yoe := (doe - doe / 1460 + doe / 36524 - doe / 146096) / 365 in
  let doy := doe - (365 * yoe + yoe / 4 - yoe / 100) in
  let mp := (5 * doy + 2) / 153 in
  let d := doy - (153 * mp + 2) / 5 + 1 in
  let m := if mp <? 10 then mp + 3 else mp - 9 in
  let y := yoe + era * 400 + (if m <=? 2 then 1 else 0) in
  (y, m, d).

Definition strftime_utc (secs : Z) : option string :=
  if (-62135596800 <=? secs) && (secs <=? 253402300799)
  then
    let '(y, m, d) := civil_from_days (secs / 86400) in
    let r := secs mod 86400 in
    Some (String.append (zfill String.length 4 (str_of_Z y))
         (String.append "-" (String.append (pad2 m)
         (String.append "-" (String.append (pad2 d)
         (String.append " " (String.append (pad2 (r / 3600))
         (String.append ":" (String.append (pad2 (r mod 3600 / 60))
         (String.append ":" (pad2 (r mod 60))))))))))))
  else None.

(** Whole seconds of a float timestamp, after rounding half to even
    at the microsecond. *)
Definition float_secs (f : float) : option Z :=
  match Prim2SF f with
  | SpecFloat.S754_zero _ => Some 0
  | SpecFloat.S754_finite s m e =>
      let v := if s then Z.neg m else Z.pos m in
      if 0 <=? e then Some (v * 2 ^ e)
      else
        let n := v * 1000000 in
        let d := 2 ^ (- e) in
        let q := n / d in
        let r := n mod d in
        let us := if (d <? 2 * r) || ((2 * r =? d) && Z.odd q)
                  then q + 1 else q in
        Some (us / 1000000)
  | _ => None
  end.

Definition fromtimestamp_ref (n : num) : option string :=
  match n with
  | NInt z => strftime_utc z
  | NFloat f =>
      match float_secs f with
      | Some z => strftime_utc z
      | None => None
      end
  end.

Definition join_ref (a b : string) : string :=
  String.append a (String.append "/" b).

#[export] Instance ref : PyLib := {|
  fromisoformat := datetime_fromisoformat;
  str_upper := upper;
  str_len := String.length;
  str_len_ascii := fun s _ => eq_refl;
  str_of_other := str_of_other_ref;
  int_of_str := parse_int;
  float_of_str := parse_float;
  log := log_ref;
  pstdev := pstdev_ref;
  series_mean := mean;
  fromtimestamp_utc := fromtimestamp_ref;
  path_join := join_ref
|}.

End RefLib.


(** ** Example inputs *)

Module Examples.
Import Resolver.

Definition apple : pyval :=
  PDict [("cik_str", PInt 320193); ("ticker", PStr "AAPL");
         ("title", PStr "Apple Inc.")].

(** A world in which the registry answers and lists Apple only. *)
Definition apple_world : Hub.world :=
  {| Hub.registry := Some [apple];
     Hub.sec_fetch_json := fun _ => None;
     Hub.history := fun _ => Ok [];
     Hub.FINNHUB_API_KEY := "k";
     Hub.company_news := fun _ => None |}.

(** One annual fact entry with the given value. *)
Definition fact (v : Z) : pyval :=
  PDict [("end", PStr "2024-12-31"); ("val", PInt v); ("fy", PInt 2024);
         ("fp", PStr "FY"); ("form", PStr "10-K")].

(** A company-facts document that reports one USD fact per tag. *)
Definition facts_doc (tags : list (string * Z)) : pyval :=
  PDict [("facts",
    PDict [("us-gaap",
      PDict (map (fun tv =>
                    (fst tv,
                     PDict [("units", PDict [("USD", PList [fact (snd tv)])])]))
                 tags))])].

(** A filer with no current assets, no debt tag, and equity. *)
Definition no_debt_doc : pyval :=
  facts_doc [("AssetsCurrent", 0); ("LiabilitiesCurrent", 5);
             ("StockholdersEquity", 100)].

(** A filer whose only debt tag reports zero. *)
Definition zero_debt_doc : pyval :=
  facts_doc [("LongTermDebtCurrent", 0); ("StockholdersEquity", 100)].

(** Annual entries for the fiscal years 2023 and 2024. *)
Definition fy2023 : pyval :=
  PDict [("end", PStr "2023-12-31"); ("val", PInt 90); ("fy", PInt 2023);
         ("fp", PStr "FY"); ("form", PStr "10-K")].

Definition fy2024 : pyval :=
  PDict [("end", PStr "2024-12-31"); ("val", PInt 100); ("fy", PInt 2024);
         ("fp", PStr "FY"); ("form", PStr "10-K")].

(** An entry for 2024 whose end date carries a UTC offset. *)
Definition fy2024_utc : pyval :=
  PDict [("end", PStr "2024-12-31T00:00:00+00:00"); ("val", PInt 100);
         ("fy", PInt 2024); ("fp", PStr "FY"); ("form", PStr "10-K")].

(** The 2024 figure as restated by an amended filing. *)
Definition fy2024_amended : pyval :=
  PDict [("end", PStr "2024-12-31"); ("val", PInt 120); ("fy", PInt 2024);
         ("fp", PStr "FY"); ("form", PStr "10-K/A")].

(** Twenty-five news items with pairwise distinct timestamps, not in
    order. *)
Definition news25 : list pyval :=
  map (fun i =>
         PDict [("id", PInt (Z.of_nat i));
                ("datetime",
                  PInt (1700000000 + 3600 * ((Z.of_nat i * 7) mod 25)))])
      (seq 0 25).

(** Items with a timestamp, with one beyond the year 9999, and with
    none. *)
Definition mixed_news : list pyval :=
  [PDict [("headline", PStr "a"); ("datetime", PInt 1700000000)];
   PDict [("headline", PStr "b"); ("datetime", PInt 1000000000000000000)];
   PDict [("headline", PStr "c")]].

(** Items whose timestamps are an int, floats and a bool. *)
Definition float_news : list pyval :=
  [PDict [("id", PInt 1); ("datetime", PInt 1700000000)];
   PDict [("id", PInt 2); ("datetime", PFloat 1700000000.5)];
   PDict [("id", PInt 3); ("datetime", PBool true)];
   PDict [("id", PInt 4); ("datetime", PFloat (-2.5))];
   PDict [("id", PInt 5)]].

(** Items with the timestamps 1, NaN and 2. *)
Definition nan_news : list pyval :=
  [PDict [("id", PInt 1); ("datetime", PInt 1)];
   PDict [("id", PInt 2); ("datetime", PFloat nan)];
   PDict [("id", PInt 3); ("datetime", PInt 2)]].

(** One item whose timestamp is text. *)
Definition text_ts_news : list pyval :=
  [PDict [("headline", PStr "d"); ("datetime", PStr "yesterday")]].

Definition serve (doc : pyval) : string -> option pyval :=
  fun _ => Some doc.

(** The index entry of a day, counted from 1970-01-01. *)
Definition day_label (day : Z) : string :=
  let '(y, m, d) := RefLib.civil_from_days day in
  String.append (zfill String.length 4 (str_of_Z y))
    (String.append "-" (String.append (RefLib.pad2 m)
      (String.append "-" (RefLib.pad2 d)))).

(** A table with one row per close, on consecutive days. *)
Fixpoint table (day : Z) (closes : list float) : list PriceTrend.row :=
  match closes with
  | [] => []
  | c :: closes' => (day_label day, c) :: table (day + 1) closes'
  end.

(** Twenty closes, the first one negative. *)
Definition sign_change : list PriceTrend.row :=
  table 19723 ((-1)%float :: repeat 1%float 19).

(** [n] closes that rise by one from [base]. *)
Definition ramp (base : Z) (n : nat) : list float :=
  map (fun i => try_except (float_of_Z (base + Z.of_nat i)) (fun _ => nan))
      (seq 0 n).

(** Twenty-one rising closes and one missing value. *)
Definition rising : list PriceTrend.row :=
  table 19723 (ramp 100 10 ++ [nan] ++ ramp 110 11).

Definition apple_doc : pyval :=
  facts_doc [("Revenues", 1000); ("GrossProfit", 400);
             ("StockholdersEquity", 100); ("LongTermDebt", 50)].

(** A world in which every source answers. *)
Definition full_world : Hub.world :=
  {| Hub.registry := Some [apple];
     Hub.sec_fetch_json := fun _ => Some apple_doc;
     Hub.history := fun _ => Ok rising;
     Hub.FINNHUB_API_KEY := "k";
     Hub.company_news := fun _ => Some (PList mixed_news) |}.

(** No file written yet. *)
Definition no_files : Hub.files := fun _ => None.

End Examples.

(** ** A reference interpretation of the [json] text codec

    Used to run the agents on concrete model outputs.  It reads and
    prints the JSON texts made of objects, arrays, strings without
    escapes, integers, [true], [false] and [null]; any other text is
    rejected with [JSONDecodeError], and floats are outside what it
    prints. *)

Module RefJson.
Import AgentCommon.

Definition dq : ascii := ascii_of_nat 34.

Definition is_ws (c : ascii) : bool :=
  let n := nat_of_ascii c in
  ((n =? 32) || (n =? 10) || (n =? 13) || (n =? 9))%nat.

Fixpoint skip_ws (s : string) : string :=
  match s with
  | String c s' => if is_ws c then skip_ws s' else s
  | EmptyString => s
  end.

(** The characters up to the closing quote, and what follows it. *)
Fixpoint string_body (s : string) : option (string * string) :=
  match s with
  | EmptyString => None
  | String c s' =>
      if Ascii.eqb c dq then Some (EmptyString, s')
      else if Ascii.eqb c "\"%char || (nat_of_ascii c <? 32)%nat then None
      else match string_body s' with
           | Some (body, rest) => Some (String c body, rest)
           | None => None
           end
  end.

Fixpoint take_digits (s : string) : string * string :=
  match s with
  | String c s' =>
      match RefLib.digit c with
      | Some _ => let (ds, rest) := take_digits s' in (String c ds, rest)
      | None => (EmptyString, s)
      end
  | EmptyString => (EmptyString, s)
  end.

(** An integer literal: no leading zero, no fraction, no exponent. *)
Definition number (s : string) : option (Z * string) :=
  let (neg, s1) :=
    match s with
    | String "-" s' => (true, s')
    | _ => (false, s)
    end in
  let (ds, rest) := take_digits s1 in
  let well_formed :=
    match ds with
    | EmptyString => false
    | String "0" (String _ _) => false
    | _ => true
    end in
  let ends :=
    match rest with
    | String c _ =>
        negb (Ascii.eqb c "."%char || Ascii.eqb c "e"%char
              || Ascii.eqb c "E"%char)
    | EmptyString => true
    end in
  if well_formed && ends
  then match RefLib.parse_nat ds with
       | Some z => Some (if neg then - z else z, rest)
       | None => None
       end
  else None.

Definition literal (word : string) (v : pyval) (s : string)
  : option (pyval * string) :=
  if String.prefix word s
  then Some (v, substring (String.length word)
                          (String.length s - String.length word) s)
  else None.

Fixpoint value (fuel : nat) (s : string) : option (pyval * string) :=
  match fuel with
  | O => None
  | S fuel' =>
      match skip_ws s with
      | EmptyString => None
      | String c rest =>
          if Ascii.eqb c dq
          then match string_body rest with
               | Some (body, r) => Some (PStr body, r)
               | None => None
               end
          else if Ascii.eqb c "["%char
          then
            match skip_ws rest with
            | String "]" r => Some (PList [], r)
            | _ =>
                (fix items (n : nat) (s : string) (acc : list pyval)
                   : option (pyval * string) :=
                   match n with
                   | O => None
                   | S n' =>
                       match value fuel' s with
                       | Some (v, r) =>
                           match skip_ws r with
                           | String "," r' => items n' r' (v :: acc)
                           | String "]" r' =>
                               Some (PList (rev (v :: acc)), r')
                           | _ => None
                           end
                       | None => None
                       end
                   end) fuel' rest []
            end
          else if Ascii.eqb c lbrace
          then
            match skip_ws rest with
            | String "}" r => Some (PDict [], r)
            | _ =>
                (fix members (n : nat) (s : string) (acc : dict)
                   : option (pyval * string) :=
                   match n with
                   | O => None
                   | S n' =>
                       match skip_ws s with
                       | String q s1 =>
                           if Ascii.eqb q dq
                           then
                             match string_body s1 with
                             | Some (k, s2) =>
                                 match skip_ws s2 with
                                 | String ":" s3 =>
                                     match value fuel' s3 with
                                     | Some (v, r) =>
                                         match skip_ws r with
                                         | String "," r' =>
                                             members n' r' (dict_set k v acc)
                                         | String "}" r' =>
                                             Some (PDict (dict_set k v acc),
                                                   r')
                                         | _ => None
                                         end
                                     | None => None
                                     end
                                 | _ => None
                                 end
                             | None => None
                             end
                           else None
                       | EmptyString => None
                       end
                   end) fuel' rest []
            end
          else
            match literal "true" (PBool true) (String c rest),
                  literal "false" (PBool false) (String c rest),
                  literal "null" PNone (String c rest) with
            | Some r, _, _ | None, Some r, _ | None, None, Some r => Some r
            | None, None, None =>
                match number (String c rest) with
                | Some (z, r) => Some (PInt z, r)
                | None => None
                end
            end
      end
  end.

Definition loads (s : string) : result pyval :=
  match value (S (String.length s)) s with
  | Some (v, rest) =>
      match skip_ws rest with
      | EmptyString => Ok v
      | _ => Raise (JSONDecodeError "Extra data")
      end
  | None => Raise (JSONDecodeError "Expecting value")
  end.

Definition quoted (s : string) : string :=
  String dq (String.append s (String dq EmptyString)).

Fixpoint dumps (v : pyval) : string :=
  match v with
  | PNone => "null"
  | PBool b => if b then "true" else "false"
  | PInt z => str_of_Z z
  | PFloat _ => "NaN"
  | PStr s => quoted s
  | PList l | PTuple l =>
      String.append "[" (String.append (String.concat ", " (map dumps l)) "]")
  | PDict d =>
      String.append "{"
        (String.append
           (String.concat ", "
              (map (fun kv =>
                      String.append (quoted (fst kv))
                        (String.append ": " (dumps (snd kv)))) d))
           "}")
  end.

#[export] Instance ref : JsonText := {|
  json_loads := loads;
  json_dumps := dumps
|}.

End RefJson.

(** ** Example inputs of the agents *)

Module AgentExamples.

(** A model answer that wraps its JSON object in prose. *)
Definition chatty : string :=
  String.append "Here is the analysis: "
    (String.append
       (RefJson.dumps (PDict [("verdict", PStr "stable");
                              ("red_flags", PList [PStr "leverage"])]))
       " Hope this helps.").

(** The object inside [chatty], and its text without the outer
    braces. *)
Definition answer_object : pyval :=
  PDict [("verdict", PStr "stable");
         ("red_flags", PList [PStr "leverage"])].

Definition chatty_inner : string :=
  let text := RefJson.dumps answer_object in
  substring 1 (String.length text - 2) text.

(** Metrics in which every required field is bound to a number. *)
Definition complete_metrics : dict :=
  map (fun k => (k, PFloat 1)) SecAgent.required_fields.

(** A model call that fails. *)
Definition model_down : result string :=
  Raise (MkExn "RuntimeError" "model unavailable").

(** A model answer that holds no JSON at all. *)
Definition prose : string := "I cannot analyse this company.".

(** A model answer that is a JSON array. *)
Definition array_answer : string := "[1, 2]".

(** Filing facts in which every required field is present. *)
Definition healthy_doc : pyval :=
  Examples.facts_doc
    [("Revenues", 1000); ("GrossProfit", 400); ("OperatingIncomeLoss", 300);
     ("NetIncomeLoss", 200); ("AssetsCurrent", 500);
     ("LiabilitiesCurrent", 250); ("StockholdersEquity", 100);
     ("CashAndCashEquivalentsAtCarryingValue", 50); ("LongTermDebt", 50)].

(** News items as the sampler returns them, one without a summary. *)
Definition sampled_news : pyval :=
  PList [PDict [("headline", PStr "a"); ("summary", PStr "text a");
                ("source", PStr "wire"); ("datetime", PInt 1700000000);
                ("datetime_iso", PStr "2023-11-14 22:13:20")];
         PDict [("headline", PStr "b"); ("summary", PStr "");
                ("source", PStr "wire")];
         PDict [("headline", PStr "c"); ("summary", PStr "text c");
                ("date", PStr "2023-11-13")]].

(** Two registry records for the same symbol in different case. *)
Definition apple_twice : list pyval :=
  [PDict [("cik_str", PInt 789019); ("ticker", PStr "MSFT")];
   PDict [("cik_str", PInt 320193); ("ticker", PStr "aapl");
          ("title", PStr "Apple Inc.")];
   PDict [("cik_str", PInt 1); ("ticker", PStr "AAPL");
          ("title", PStr "Other")]].

(** A registry whose second record has no symbol. *)
Definition broken_registry : list pyval :=
  [PDict [("cik_str", PInt 789019); ("ticker", PStr "MSFT")];
   PDict [("cik_str", PInt 5)];
   Examples.apple].

(** A tag whose first unit group is an empty USD list. *)
Definition empty_usd_doc : pyval :=
  PDict [("facts",
    PDict [("us-gaap",
      PDict [("Revenues",
        PDict [("units",
          PDict [("USD", PList []);
                 ("EUR", PList [Examples.fact 7])])])])])].


(** A world in which the registry answers, the facts request fails
    and the history call raises. *)
Definition degraded_world : Hub.world :=
  {| Hub.registry := Some [Examples.apple];
     Hub.sec_fetch_json := fun _ => None;
     Hub.history := fun _ => Raise (MkExn "ConnectionError" "no route");
     Hub.FINNHUB_API_KEY := "";
     Hub.company_news := fun _ => None |}.

(** A store that already holds one document. *)
Definition one_file : Hub.files :=
  Hub.write_file Examples.no_files "reports/old.json" (Hub.JInt 7).

End AgentExamples.

(** ** Readings of results used in the statements below *)

Module Reading.

(** The float bound to a key of a result dict, if any. *)
Definition float_field (k : string) (r : pyval) : option float :=
  match field k r with
  | Some (PFloat x) => Some x
  | _ => None
  end.

(** A record has a text symbol that differs from the request also
    in upper case: the loop of the resolver passes it. *)
Definition no_match {L : PyLib} (ticker : string) (e : pyval) : Prop :=
  exists t, subscript e "ticker" = Ok (PStr t)
            /\ str_upper t <> str_upper ticker.

(** A record stops the resolver with an exception: it has no text
    symbol, or it carries the requested symbol and has no
    [cik_str]. *)
Definition broken {L : PyLib} (ticker : string) (e : pyval) : Prop :=
  (forall t, subscript e "ticker" <> Ok (PStr t))
  \/ (exists t, subscript e "ticker" = Ok (PStr t)
                 /\ str_upper t = str_upper ticker
                 /\ forall c, subscript e "cik_str" <> Ok c).

(** Two consecutive closes of the series are both non-zero. *)
Fixpoint has_usable_pair (vals : list float) : bool :=
  match vals with
  | a :: (b :: _) as rest =>
      (float_truthy a && float_truthy b) || has_usable_pair rest
  | _ => false
  end.

(** A metric as the price analyzer reports it: a float or [None]. *)
Definition float_or_none (v : pyval) : bool :=
  match v with PNone | PFloat _ => true | _ => false end.

(** A required field is absent from a result: unbound, or bound to
    [None]. *)
Definition absent (d : dict) (k : string) : bool :=
  negb (is_some (field k (PDict d))).

(** The news items that carry a truthy summary. *)
Definition keeps (n : pyval) : bool :=
  try_except (NewsAgent.has_summary n) (fun _ => false).

End Reading.

(** Decides the order facts of the selection keys. *)
Ltac key_order :=
  unfold SecFinancials.key_ltb; intros;
  repeat match goal with
         | H : context [Z.eqb ?x ?y] |- _ => destruct (Z.eqb_spec x y)
         | |- context [Z.eqb ?x ?y] => destruct (Z.eqb_spec x y)
         end;
  rewrite ?Z.ltb_lt, ?Z.ltb_ge in *; lia.

(** * Properties *)

(** ** Sorting *)

Section SortFacts.
Import PureSort.
Context {A K : Type}.
Variable ltb : K -> K -> bool.

Lemma insert_p_perm (x : K * A) (l : list (K * A)) :
  Permutation (insert_p ltb x l) (x :: l).
Proof.
  induction l as [|y l IH]; cbn; [reflexivity|].
  destruct (ltb (fst y) (fst x)); [|reflexivity].
  rewrite IH. apply perm_swap.
Qed.

Lemma isort_p_perm (l : list (K * A)) : Permutation (isort_p ltb l) l.
Proof.
  induction l as [|x l IH]; cbn; [reflexivity|].
  rewrite insert_p_perm. now apply perm_skip.
Qed.

Lemma map_snd_decorate (key : A -> K) (l : list A) :
  map snd (decorate key l) = l.
Proof.
  unfold decorate. rewrite map_map. cbn. apply map_id.
Qed.

Lemma sorted_desc_perm (key : A -> K) (l : list A) :
  Permutation (sorted_desc ltb key l) l.
Proof.
  unfold sorted_desc. rewrite <- Permutation_rev.
  rewrite isort_p_perm, <- Permutation_rev.
  now rewrite map_snd_decorate.
Qed.

Lemma sorted_desc_length (key : A -> K) (l : list A) :
  List.length (sorted_desc ltb key l) = List.length l.
Proof. apply Permutation_length, sorted_desc_perm. Qed.

(** The order facts that the keys of the pipeline satisfy. *)
Hypothesis ltb_asym : forall a b, ltb a b = true -> ltb b a = false.
Hypothesis le_trans :
  forall a b c, ltb b a = false -> ltb c b = false -> ltb c a = false.

Lemma insert_p_sorted (x : K * A) (l : list (K * A)) :
  StronglySorted (asc ltb) l -> StronglySorted (asc ltb) (insert_p ltb x l).
Proof.
  induction 1 as [|y l Hs IH Hy]; cbn.
  - repeat constructor.
  - destruct (ltb (fst y) (fst x)) eqn:E.
    + constructor; [exact IH|].
      rewrite Forall_forall in *. intros z Hz.
      apply (Permutation_in _ (insert_p_perm x l)) in Hz.
      destruct Hz as [<- | Hz]; [|now apply Hy].
      unfold asc. now apply ltb_asym.
    + constructor; [now constructor|].
      constructor; [exact E|].
      rewrite Forall_forall in *. intros z Hz. unfold asc.
      apply (le_trans _ (fst y)); [exact E | now apply Hy].
Qed.

Lemma isort_p_sorted (l : list (K * A)) :
  StronglySorted (asc ltb) (isort_p ltb l).
Proof.
  induction l as [|x l IH]; cbn; [constructor | now apply insert_p_sorted].
Qed.

Lemma StronglySorted_app_one {B} (R : B -> B -> Prop) (l : list B) (x : B) :
  StronglySorted R l -> Forall (fun y => R y x) l ->
  StronglySorted R (l ++ [x]).
Proof.
  induction 1 as [|y l Hs IH Hy]; intros Hx; cbn.
  - repeat constructor.
  - inversion Hx as [|? ? Hyx Hlx]; subst.
    constructor; [now apply IH|].
    apply Forall_app. split; [exact Hy | now repeat constructor].
Qed.

Lemma StronglySorted_rev {B} (R : B -> B -> Prop) (l : list B) :
  StronglySorted R l -> StronglySorted (fun a b => R b a) (rev l).
Proof.
  induction 1 as [|y l Hs IH Hy]; cbn; [constructor|].
  apply StronglySorted_app_one; [exact IH|].
  apply Forall_rev. exact Hy.
Qed.

Lemma StronglySorted_map {B C} (R : C -> C -> Prop) (f : B -> C)
    (l : list B) :
  StronglySorted (fun a b => R (f a) (f b)) l -> StronglySorted R (map f l).
Proof.
  induction 1 as [|y l Hs IH Hy]; cbn; constructor; [exact IH|].
  rewrite Forall_map. exact Hy.
Qed.

Lemma StronglySorted_weaken {B} (R R' : B -> B -> Prop) (P : B -> Prop)
    (l : list B) :
  (forall x y, P x -> P y -> R x y -> R' x y) ->
  Forall P l -> StronglySorted R l -> StronglySorted R' l.
Proof.
  intros HR HP Hs. induction Hs as [|y l Hs IH Hy]; [constructor|].
  inversion HP as [|? ? Py Pl]; subst.
  constructor; [now apply IH|].
  rewrite Forall_forall in *. intros z Hz. apply HR; auto.
Qed.

(** The result of the descending sort is in descending key order. *)
Lemma sorted_desc_sorted (key : A -> K) (l : list A) :
  StronglySorted (fun a b => ltb (key a) (key b) = false)
                 (sorted_desc ltb key l).
Proof.
  unfold sorted_desc. rewrite <- map_rev.
  apply StronglySorted_map.
  apply (StronglySorted_weaken (fun a b => asc ltb b a)
                               _ (fun x => fst x = key (snd x))).
  - intros x y Hx Hy. unfold asc. now rewrite Hx, Hy.
  - rewrite Forall_forall. intros x Hx.
    apply in_rev in Hx.
    apply (Permutation_in _ (isort_p_perm _)) in Hx.
    apply in_rev in Hx. unfold decorate in Hx.
    apply in_map_iff in Hx. destruct Hx as (a & <- & _). reflexivity.
  - apply StronglySorted_rev, isort_p_sorted.
Qed.

Lemma insert_p_not_nil (x : K * A) (l : list (K * A)) :
  insert_p ltb x l <> [].
Proof.
  destruct l as [|y l]; cbn; [discriminate|].
  destruct (ltb (fst y) (fst x)); discriminate.
Qed.

Lemma last_cons_cons {B} (x y : B) (l : list B) (d : B) :
  last (x :: y :: l) d = last (y :: l) d.
Proof. reflexivity. Qed.

Lemma last_cons_not_nil {B} (x : B) (l : list B) (d : B) :
  l <> [] -> last (x :: l) d = last l d.
Proof. destruct l; [congruence | reflexivity]. Qed.

(** Inserting into a sorted list changes its last element only when
    the new element exceeds it. *)
Lemma last_insert_p (x d : K * A) (s : list (K * A)) :
  StronglySorted (asc ltb) s -> s <> [] ->
  last (insert_p ltb x s) d = keep_max ltb x (last s d).
Proof.
  unfold keep_max.
  induction 1 as [|y s Hs IH Hy]; intros Hne; [congruence|].
  destruct s as [|z s].
  - cbn. destruct (ltb (fst y) (fst x)); reflexivity.
  - replace (insert_p ltb x (y :: z :: s))
      with (if ltb (fst y) (fst x) then y :: insert_p ltb x (z :: s)
            else x :: y :: z :: s) by reflexivity.
    rewrite (last_cons_cons y z s d).
    destruct (ltb (fst y) (fst x)) eqn:E.
    + rewrite last_cons_not_nil by apply insert_p_not_nil.
      apply IH. discriminate.
    + rewrite !last_cons_cons.
      assert (In (last (z :: s) d) (z :: s)) as Hin.
      { assert (z :: s <> []) as Hn by discriminate.
        destruct (exists_last Hn) as (s' & w & Hw).
        rewrite Hw, last_last. apply in_or_app. right. now left. }
      rewrite Forall_forall in Hy. specialize (Hy _ Hin). unfold asc in Hy.
      now rewrite (le_trans _ _ _ E Hy).
Qed.

Lemma isort_p_app (l t : list (K * A)) :
  isort_p ltb (l ++ t) = fold_right (insert_p ltb) (isort_p ltb t) l.
Proof.
  induction l as [|x l IH]; cbn; [reflexivity | now rewrite IH].
Qed.

Lemma last_fold_insert (d : K * A) (s l : list (K * A)) :
  StronglySorted (asc ltb) s -> s <> [] ->
  last (fold_right (insert_p ltb) s l) d
  = fold_right (keep_max ltb) (last s d) l
  /\ StronglySorted (asc ltb) (fold_right (insert_p ltb) s l)
  /\ fold_right (insert_p ltb) s l <> [].
Proof.
  intros Hs Hne. induction l as [|x l (IHl & IHs & IHn)]; cbn.
  - auto.
  - rewrite last_insert_p, IHl by assumption.
    repeat split; [now apply insert_p_sorted | apply insert_p_not_nil].
Qed.

Lemma hd_rev {B} (l : list B) (d : B) : hd d (rev l) = last l d.
Proof.
  destruct l as [|x l] using rev_ind; [reflexivity|].
  now rewrite rev_app_distr, last_last.
Qed.

Lemma last_map {B C} (f : B -> C) (l : list B) (d : B) :
  last (map f l) (f d) = f (last l d).
Proof.
  induction l as [|x l IH]; [reflexivity|].
  destruct l; [reflexivity|]. exact IH.
Qed.

Lemma first_max_decorate (key : A -> K) (a : A) (l : list A) :
  first_max ltb fst (key a, a) (decorate key l)
  = (key (first_max ltb key a l), first_max ltb key a l).
Proof.
  unfold first_max. revert a. induction l as [|y l IH]; intros a; cbn;
    [reflexivity|].
  destruct (ltb (key a) (key y)); apply IH.
Qed.

(** The head of the descending sort is the first maximum. *)
Lemma hd_sorted_desc (key : A -> K) (a d : A) (l : list A) :
  hd d (sorted_desc ltb key (a :: l)) = first_max ltb key a l.
Proof.
  unfold sorted_desc. rewrite hd_rev.
  change d with (snd (key d, d)). rewrite last_map.
  change (rev (decorate key (a :: l)))
    with (rev (decorate key l) ++ [(key a, a)]).
  rewrite isort_p_app.
  change (isort_p ltb [(key a, a)]) with [(key a, a)].
  destruct (last_fold_insert (key d, d) [(key a, a)]
              (rev (decorate key l))) as (-> & _).
  - repeat constructor.
  - discriminate.
  - cbn [last]. rewrite fold_left_rev_right.
    change (fold_left _ (decorate key l) (key a, a))
      with (first_max ltb fst (key a, a) (decorate key l)).
    now rewrite first_max_decorate.
Qed.

Hypothesis lt_le_trans :
  forall a b c, ltb a b = true -> ltb c b = false -> ltb a c = true.
Hypothesis le_lt_trans :
  forall a b c, ltb b a = false -> ltb b c = true -> ltb a c = true.

Lemma ltb_irrefl (a : K) : ltb a a = false.
Proof.
  destruct (ltb a a) eqn:E; [|reflexivity].
  now rewrite (ltb_asym _ _ E) in E.
Qed.

(** Everything before the first maximum is smaller, nothing after it is
    greater. *)
Lemma first_max_split {B} (key : B -> K) (cur : B) (l : list B) :
  exists pre post,
    cur :: l = pre ++ first_max ltb key cur l :: post
    /\ (forall x, In x pre ->
                  ltb (key x) (key (first_max ltb key cur l)) = true)
    /\ (forall x, In x post ->
                  ltb (key (first_max ltb key cur l)) (key x) = false).
Proof.
  revert cur. induction l as [|y l IH]; intros cur.
  - exists [], []. repeat split; intros x [].
  - replace (first_max ltb key cur (y :: l))
      with (first_max ltb key (if ltb (key cur) (key y) then y else cur) l)
      by reflexivity.
    destruct (ltb (key cur) (key y)) eqn:E.
    + destruct (IH y) as (pre & post & Heq & Hpre & Hpost).
      remember (first_max ltb key y l) as m eqn:Hm. clear Hm.
      exists (cur :: pre), post.
      split; [cbn; now rewrite Heq|]. split; [|exact Hpost].
      intros x [<- | Hx]; [|now apply Hpre].
      apply (lt_le_trans _ _ _ E).
      destruct pre as [|p pre]; cbn in Heq; injection Heq as Hy _.
      * rewrite Hy. apply ltb_irrefl.
      * apply ltb_asym, Hpre. left. now symmetry.
    + destruct (IH cur) as (pre & post & Heq & Hpre & Hpost).
      remember (first_max ltb key cur l) as m eqn:Hm. clear Hm.
      destruct pre as [|p pre]; cbn in Heq; injection Heq as Hc Hl.
      * exists [], (y :: post). subst m l.
        split; [reflexivity|]. split; [intros x []|].
        intros x [<- | Hx]; [exact E | now apply Hpost].
      * exists (p :: y :: pre), post. subst p l.
        split; [reflexivity|]. split; [|exact Hpost].
        intros x [<- | [<- | Hx]].
        -- apply Hpre. now left.
        -- apply (le_lt_trans _ (key cur)); [exact E|].
           apply Hpre. now left.
        -- apply Hpre. now right.
Qed.

End SortFacts.

(** [sorted] agrees with the pure sort when the keys are computed and
    compared without an exception. *)
Section SortSimulation.
Import PureSort.
Context {A K K' : Type}.
Variable lt : K -> K -> result bool.
Variable ltb : K' -> K' -> bool.
Variable f : K' -> K.
Hypothesis lt_ok : forall a b, lt (f a) (f b) = Ok (ltb a b).

Lemma insert_sim (x : K' * A) (l : list (K' * A)) :
  insert lt (relabel f x) (map (relabel f) l)
  = Ok (map (relabel f) (insert_p ltb x l)).
Proof.
  induction l as [|y l IH]; cbn; [reflexivity|].
  rewrite lt_ok. cbn. destruct (ltb (fst y) (fst x)); [|reflexivity].
  cbn in IH. rewrite IH. reflexivity.
Qed.

Lemma isort_sim (l : list (K' * A)) :
  isort lt (map (relabel f) l) = Ok (map (relabel f) (isort_p ltb l)).
Proof.
  induction l as [|x l IH]; cbn; [reflexivity|].
  cbn in IH. rewrite IH. cbn. apply insert_sim.
Qed.

Lemma sorted_sim (key' : A -> result K) (key : A -> K') (l : list A) :
  Forall (fun a => key' a = Ok (f (key a))) l ->
  sorted lt key' true l = Ok (sorted_desc ltb key l).
Proof.
  intros H. unfold sorted, sorted_desc.
  assert (mapM (fun a => bind (key' a) (fun k => Ok (k, a))) l
          = Ok (map (relabel f) (decorate key l))) as ->.
  { induction H as [|a l Ha Hl IH]; cbn; [reflexivity|].
    rewrite Ha. cbn. rewrite IH. reflexivity. }
  cbn. rewrite <- map_rev, isort_sim. cbn.
  rewrite map_map. reflexivity.
Qed.

End SortSimulation.

(** [sorted] agrees with the pure sort also when the keys are compared
    through a relation: every key that occurs is related to a pure key,
    and the comparison of related keys does not raise. *)
Section SortSimulationRel.
Import PureSort.
Context {A K K' : Type}.
Variable lt : K -> K -> result bool.
Variable ltb : K' -> K' -> bool.
Variable R : K -> K' -> Prop.
Hypothesis lt_ok :
  forall a b a' b', R a a' -> R b b' -> lt a b = Ok (ltb a' b').

Lemma insert_related (x : K * A) (x' : K' * A)
    (l : list (K * A)) (l' : list (K' * A)) :
  related R x x' -> Forall2 (related R) l l' ->
  exists r, insert lt x l = Ok r
            /\ Forall2 (related R) r (insert_p ltb x' l').
Proof.
  intros Hx H. induction H as [|y y' l l' Hy Hl IH]; cbn.
  - eexists. split; [reflexivity|]. constructor; [exact Hx | constructor].
  - rewrite (lt_ok _ _ _ _ (proj1 Hy) (proj1 Hx)). cbn.
    destruct (ltb (fst y') (fst x')).
    + destruct IH as [r [Hr Hrel]]. rewrite Hr. cbn.
      eexists. split; [reflexivity|]. constructor; assumption.
    + eexists. split; [reflexivity|].
      constructor; [exact Hx|]. constructor; assumption.
Qed.

Lemma isort_related (l : list (K * A)) (l' : list (K' * A)) :
  Forall2 (related R) l l' ->
  exists r, isort lt l = Ok r /\ Forall2 (related R) r (isort_p ltb l').
Proof.
  induction 1 as [|x x' l l' Hx Hl IH]; cbn.
  - exists []. split; [reflexivity | constructor].
  - destruct IH as [r [Hr Hrel]]. rewrite Hr. cbn.
    now apply insert_related.
Qed.

Lemma related_map_snd (r : list (K * A)) (r' : list (K' * A)) :
  Forall2 (related R) r r' -> map snd r = map snd r'.
Proof.
  induction 1 as [|x x' r r' Hx Hr IH]; [reflexivity|].
  cbn. now rewrite (proj2 Hx), IH.
Qed.

Lemma Forall2_rev_related (r : list (K * A)) (r' : list (K' * A)) :
  Forall2 (related R) r r' -> Forall2 (related R) (rev r) (rev r').
Proof.
  induction 1 as [|x x' r r' Hx Hr IH]; [constructor|].
  cbn. apply Forall2_app; [exact IH|]. constructor; [exact Hx | constructor].
Qed.

Lemma sorted_related (key' : A -> result K) (key : A -> K') (l : list A) :
  Forall (fun a => exists k, key' a = Ok k /\ R k (key a)) l ->
  sorted lt key' true l = Ok (sorted_desc ltb key l).
Proof.
  intros H. unfold sorted, sorted_desc.
  assert (exists dl,
            mapM (fun a => bind (key' a) (fun k => Ok (k, a))) l = Ok dl
            /\ Forall2 (related R) dl (decorate key l)) as [dl [-> Hdl]].
  { induction H as [|a l [k [Hk HR]] Hl IH]; cbn.
    - exists []. split; [reflexivity | constructor].
    - destruct IH as [dl [Hm Hrel]]. rewrite Hk. cbn. rewrite Hm. cbn.
      eexists. split; [reflexivity|].
      constructor; [split; [exact HR | reflexivity] | exact Hrel]. }
  cbn [bind].
  destruct (isort_related _ _ (Forall2_rev_related _ _ Hdl))
    as [r [Hr Hrel]].
  rewrite Hr. cbn [bind]. now rewrite (related_map_snd _ _ Hrel).
Qed.

End SortSimulationRel.

(** ** Comparisons of numbers *)

Section ExactFacts.
Import Exact SpecFloat.

Lemma digits2_pos_bounds (m : positive) :
  2 ^ (Z.pos (digits2_pos m) - 1) <= Z.pos m < 2 ^ Z.pos (digits2_pos m).
Proof.
  induction m as [m IH|m IH|]; cbn [digits2_pos].
  - rewrite Pos2Z.inj_succ.
    replace (Z.succ (Z.pos (digits2_pos m)) - 1)
      with (Z.succ (Z.pos (digits2_pos m) - 1)) by lia.
    rewrite !Z.pow_succ_r by lia. lia.
  - rewrite Pos2Z.inj_succ.
    replace (Z.succ (Z.pos (digits2_pos m)) - 1)
      with (Z.succ (Z.pos (digits2_pos m) - 1)) by lia.
    rewrite !Z.pow_succ_r by lia. lia.
  - cbn. lia.
Qed.

(** What validity says of a finite float. *)
Lemma valid_finite (s : bool) (m : positive) (e : Z) :
  valid_binary prec emax (S754_finite s m e) = true ->
  -1074 <= e
  /\ Z.pos m < 2 ^ 53
  /\ (-1074 < e -> 2 ^ 52 <= Z.pos m).
Proof.
  cbn [valid_binary]. unfold bounded, canonical_mantissa, fexp, emin.
  intros H. apply andb_prop in H. destruct H as [H _].
  apply Z.eqb_eq in H. change prec with 53 in H. change emax with 1024 in H.
  pose proof (digits2_pos_bounds m) as [Hlo Hhi].
  set (d := Z.pos (digits2_pos m)) in *.
  assert (0 < d) by (unfold d; lia).
  clearbody d.
  change (Z.max (d + e - 53) (-1074) = e) in H.
  split; [lia|]. split.
  - apply (Z.lt_le_trans _ _ _ Hhi). apply Z.pow_le_mono_r; lia.
  - intros He. assert (d = 53) as Hd by lia.
    rewrite Hd in Hlo. exact Hlo.
Qed.

Lemma scaled_lt (s1 s2 : bool) (m1 m2 : positive) (e1 e2 : Z) :
  valid_binary prec emax (S754_finite s1 m1 e1) = true ->
  valid_binary prec emax (S754_finite s2 m2 e2) = true ->
  e1 < e2 ->
  Z.pos m1 * 2 ^ (e1 + 1074) < Z.pos m2 * 2 ^ (e2 + 1074).
Proof.
  intros H1 H2 Hlt.
  apply valid_finite in H1, H2.
  destruct H1 as (He1 & Hm1 & _), H2 as (He2 & _ & Hm2).
  specialize (Hm2 ltac:(lia)).
  replace (e2 + 1074) with ((e1 + 1074) + (e2 - e1)) by lia.
  rewrite (Z.pow_add_r 2 (e1 + 1074) (e2 - e1)) by lia.
  assert (0 < 2 ^ (e1 + 1074)) as Ha by (apply Z.pow_pos_nonneg; lia).
  assert (2 ^ 1 <= 2 ^ (e2 - e1)) as Hb by (apply Z.pow_le_mono_r; lia).
  change (2 ^ 1) with 2 in Hb.
  change (2 ^ 53) with (2 * 2 ^ 52) in Hm1.
  remember (2 ^ 52) as c eqn:Hc. assert (0 < c) by (subst c; lia).
  clear Hc. set (a := 2 ^ (e1 + 1074)) in *. set (b := 2 ^ (e2 - e1)) in *.
  clearbody a b.
  assert (Z.pos m1 * a < (2 * c) * a)
    by (apply Z.mul_lt_mono_pos_r; lia).
  assert ((2 * c) * a <= (2 * Z.pos m2) * a)
    by (apply Z.mul_le_mono_nonneg_r; lia).
  assert (Z.pos m2 * (a * 2) <= Z.pos m2 * (a * b))
    by (apply Z.mul_le_mono_nonneg_l;
        [lia | apply Z.mul_le_mono_nonneg_l; lia]).
  lia.
Qed.

Lemma compare_scaled (x y k : Z) : 0 < k -> (x * k ?= y * k) = (x ?= y).
Proof.
  intros Hk. destruct (Z.compare_spec x y) as [->|H|H].
  - apply Z.compare_refl.
  - apply Z.compare_lt_iff. nia.
  - apply Z.compare_gt_iff. nia.
Qed.

Lemma SFcompare_exact (f1 f2 : spec_float) :
  valid_binary prec emax f1 = true ->
  valid_binary prec emax f2 = true ->
  f1 <> S754_nan -> f2 <> S754_nan ->
  SFcompare f1 f2 = Some (ext_compare (exact_sf f1) (exact_sf f2)).
Proof.
  intros V1 V2 N1 N2.
  destruct f1 as [s1|s1| |s1 m1 e1], f2 as [s2|s2| |s2 m2 e2];
    try congruence; cbn [SFcompare exact_sf ext_compare].
  - reflexivity.
  - now destruct s2.
  - destruct s2; cbn [signed]; f_equal; symmetry.
    + apply Z.compare_gt_iff.
      assert (0 < 2 ^ (e2 + 1074))
        by (apply Z.pow_pos_nonneg; [lia | apply valid_finite in V2; lia]).
      lia.
    + apply Z.compare_lt_iff.
      assert (0 < 2 ^ (e2 + 1074))
        by (apply Z.pow_pos_nonneg; [lia | apply valid_finite in V2; lia]).
      lia.
  - now destruct s1.
  - destruct s1, s2; reflexivity.
  - now destruct s1.
  - destruct s1; cbn [signed]; f_equal; symmetry.
    + apply Z.compare_lt_iff.
      assert (0 < 2 ^ (e1 + 1074))
        by (apply Z.pow_pos_nonneg; [lia | apply valid_finite in V1; lia]).
      lia.
    + apply Z.compare_gt_iff.
      assert (0 < 2 ^ (e1 + 1074))
        by (apply Z.pow_pos_nonneg; [lia | apply valid_finite in V1; lia]).
      lia.
  - now destruct s2.
  - assert (0 < 2 ^ (e1 + 1074)) as P1
        by (apply Z.pow_pos_nonneg; [lia | apply valid_finite in V1; lia]).
    assert (0 < 2 ^ (e2 + 1074)) as P2
        by (apply Z.pow_pos_nonneg; [lia | apply valid_finite in V2; lia]).
    f_equal. destruct s1, s2; cbn [signed].
    + destruct (Z.compare_spec e1 e2) as [->|H|H]; symmetry.
      * rewrite compare_scaled by exact P2.
        change (Z.neg m1 ?= Z.neg m2) with (CompOpp (Z.pos m1 ?= Z.pos m2)).
        reflexivity.
      * apply Z.compare_gt_iff.
        pose proof (scaled_lt _ _ _ _ _ _ V1 V2 H). lia.
      * apply Z.compare_lt_iff.
        pose proof (scaled_lt _ _ _ _ _ _ V2 V1 H). lia.
    + symmetry. apply Z.compare_lt_iff. lia.
    + symmetry. apply Z.compare_gt_iff. lia.
    + destruct (Z.compare_spec e1 e2) as [->|H|H]; symmetry.
      * rewrite compare_scaled by exact P2. reflexivity.
      * apply Z.compare_lt_iff. exact (scaled_lt _ _ _ _ _ _ V1 V2 H).
      * apply Z.compare_gt_iff. exact (scaled_lt _ _ _ _ _ _ V2 V1 H).
Qed.

Lemma not_nan_float (f : float) :
  PrimFloat.eqb f f = true -> Prim2SF f <> S754_nan.
Proof.
  rewrite FloatAxioms.eqb_spec. intros H E. rewrite E in H. discriminate.
Qed.

Lemma cmp_Z_float_exact (z : Z) (f : float) :
  PrimFloat.eqb f f = true ->
  cmp_Z_float z f
  = Some (ext_compare (Fin (z * 2 ^ 1074)) (exact_sf (Prim2SF f))).
Proof.
  intros Hn. pose proof (not_nan_float f Hn) as Hnn.
  pose proof (FloatAxioms.Prim2SF_valid f) as V.
  unfold cmp_Z_float.
  destruct (Prim2SF f) as [s|s| |s m e]; try congruence;
    cbn [exact_sf ext_compare].
  - f_equal. change 0 with (0 * 2 ^ 1074) at 2.
    symmetry. apply compare_scaled. lia.
  - now destruct s.
  - apply valid_finite in V. destruct V as (He & _ & _).
    f_equal. fold (signed s m).
    destruct (Z.leb_spec 0 e) as [H|H].
    + rewrite (Z.pow_add_r 2 e 1074) by lia. rewrite Z.mul_assoc.
      symmetry. apply compare_scaled. lia.
    + replace (2 ^ 1074) with (2 ^ (- e) * 2 ^ (e + 1074))
        by (rewrite <- Z.pow_add_r by lia; f_equal; lia).
      rewrite Z.mul_assoc. symmetry. apply compare_scaled.
      apply Z.pow_pos_nonneg; lia.
Qed.

Lemma ext_compare_antisym (a b : ext) :
  ext_compare b a = CompOpp (ext_compare a b).
Proof.
  destruct a, b; cbn; try reflexivity. apply Z.compare_antisym.
Qed.

(** The comparisons of numbers other than NaN are those of their
    exact values. *)
Lemma num_compare_exact (x y : num) :
  not_nan x = true -> not_nan y = true ->
  num_ltb x y = ext_ltb (exact x) (exact y)
  /\ num_eqb x y = ext_eqb (exact x) (exact y).
Proof.
  intros Hx Hy. unfold ext_ltb, ext_eqb.
  destruct x as [x|x], y as [y|y]; cbn [num_ltb num_eqb exact not_nan] in *.
  - cbn [ext_compare]. rewrite compare_scaled by lia.
    split; [apply Z.ltb_compare | apply Z.eqb_compare].
  - rewrite (cmp_Z_float_exact x y Hy). split; reflexivity.
  - rewrite (cmp_Z_float_exact y x Hx).
    rewrite (ext_compare_antisym (exact_sf (Prim2SF x))).
    destruct (ext_compare (exact_sf (Prim2SF x)) (Fin (y * 2 ^ 1074)));
      split; reflexivity.
  - rewrite FloatAxioms.ltb_spec, FloatAxioms.eqb_spec. unfold SFltb, SFeqb.
    rewrite (SFcompare_exact _ _ (FloatAxioms.Prim2SF_valid x)
               (FloatAxioms.Prim2SF_valid y)
               (not_nan_float x Hx) (not_nan_float y Hy)).
    split; reflexivity.
Qed.

Lemma ext_compare_eq (a b : ext) : ext_compare a b = Eq -> a = b.
Proof.
  destruct a, b; cbn; try discriminate; try reflexivity.
  intros H. apply Z.compare_eq in H. now subst.
Qed.

Lemma ext_ltb_asym (a b : ext) : ext_ltb a b = true -> ext_ltb b a = false.
Proof.
  unfold ext_ltb. rewrite (ext_compare_antisym a b).
  destruct (ext_compare a b); cbn; congruence.
Qed.

Lemma ext_le_trans (a b c : ext) :
  ext_ltb b a = false -> ext_ltb c b = false -> ext_ltb c a = false.
Proof.
  unfold ext_ltb.
  destruct a, b, c; cbn; try congruence.
  rewrite <- !Z.ltb_compare, !Z.ltb_ge. lia.
Qed.

(** Of two different exact values one is below the other. *)
Lemma ext_total (a b : ext) :
  ext_ltb a b = false -> a <> b -> ext_ltb b a = true.
Proof.
  unfold ext_ltb. rewrite (ext_compare_antisym a b).
  destruct (ext_compare a b) eqn:E; cbn; try congruence.
  intros _ H. now apply ext_compare_eq in E.
Qed.

End ExactFacts.

Section HubProperties.
Context {L : PyLib}.

(** An unresolved ticker stops the hub at [resolved["cik"]]. *)
Lemma collect_raw_data_unresolved (w : Hub.world) (ticker : string) :
  Resolver.resolve_ticker_to_cik (Hub.registry w) ticker = None ->
  Hub.collect_raw_data w ticker
  = Raise (TypeError "'NoneType' object is not subscriptable").
Proof.
  intros H. unfold Hub.collect_raw_data. rewrite H. reflexivity.
Qed.

(** With a resolved ticker the hub returns the four keys, unless the
    news sampler raises. *)
Lemma collect_raw_data_resolved (w : Hub.world) (ticker : string)
    (r : Resolver.resolved) (news : pyval) :
  Resolver.resolve_ticker_to_cik (Hub.registry w) ticker = Some r ->
  FinnhubNews.pull_finnhub_news (Hub.FINNHUB_API_KEY w)
                                (Hub.company_news w ticker) = Ok news ->
  exists meta sec prices,
    Hub.collect_raw_data w ticker
    = Ok (PDict [("meta", meta); ("sec", sec); ("prices", prices);
                 ("news", news)]).
Proof.
  intros Hr Hn. unfold Hub.collect_raw_data. rewrite Hr. cbn [bind
    Resolver.get_cik]. rewrite Hn. cbn [bind]. eauto.
Qed.

End HubProperties.

Section OnReferenceLibrary.
Existing Instance RefLib.ref.

(** C1. The hub is claimed to return the four-key bundle for every
    ticker, also when resolution yields nothing.  On a ticker that the
    registry does not list, the resolver returns [None] and the hub
    raises [TypeError] instead of returning a bundle. *)
Theorem collect_raw_data_raises_on_unknown_ticker :
  Resolver.resolve_ticker_to_cik
    (Hub.registry Examples.apple_world) "ZZZZ" = None
  /\ Hub.collect_raw_data Examples.apple_world "ZZZZ"
     = Raise (TypeError "'NoneType' object is not subscriptable").
Proof.
  split; reflexivity.
Qed.

(** The registry record of Apple resolves, in any letter case, to the
    identifier padded to ten digits. *)
Example resolve_aapl :
  Resolver.resolve_ticker_to_cik (Some [Examples.apple]) "aapl"
  = Some {| Resolver.r_ticker := "AAPL";
            Resolver.r_cik := "0000320193";
            Resolver.r_title := PStr "Apple Inc." |}.
Proof. reflexivity. Qed.

(** A filer that reports revenue under the first candidate tag only
    still gets a [revenue]. *)
Example revenue_from_first_tag :
  field "revenue"
    (SecFinancials.pull_sec_financials
       (Examples.serve
          (Examples.facts_doc
             [("RevenueFromContractWithCustomerExcludingAssessedTax", 1000)]))
       "0000320193")
  = Some (PFloat 1000).
Proof. vm_compute. reflexivity. Qed.

End OnReferenceLibrary.



(** ** Filing facts: ratios and total debt *)

Section SecProperties.
Context {L : PyLib}.
Import SecFinancials.

(** [gross_margin] is present exactly when [revenue] and [gross_profit]
    are present and [revenue] is not zero. *)
Lemma gross_margin_present (v : locals) :
  is_some (field "gross_margin" (financials v))
  = is_some (revenue v) && is_some (gross_profit v)
    && opt_truthy (revenue v).
Proof.
  unfold financials, field; cbn.
  destruct (revenue v) as [r|], (gross_profit v) as [g|]; cbn;
    try reflexivity; destruct (float_truthy r); reflexivity.
Qed.

(** The same for [operating_margin]. *)
Lemma operating_margin_present (v : locals) :
  is_some (field "operating_margin" (financials v))
  = is_some (revenue v) && is_some (operating_income v)
    && opt_truthy (revenue v).
Proof.
  unfold financials, field; cbn.
  destruct (revenue v) as [r|], (operating_income v) as [g|]; cbn;
    try reflexivity; destruct (float_truthy r); reflexivity.
Qed.

(** [current_ratio] also asks for a numerator that is not zero. *)
Lemma current_ratio_present (v : locals) :
  is_some (field "current_ratio" (financials v))
  = opt_truthy (current_assets v) && opt_truthy (current_liabilities v).
Proof.
  unfold financials, field; cbn.
  destruct (current_assets v) as [a|], (current_liabilities v) as [b|]; cbn;
    try reflexivity;
    try (destruct (float_truthy a); reflexivity).
  destruct (float_truthy a), (float_truthy b); reflexivity.
Qed.

(** [debt_to_equity] only asks for equity that is not zero. *)
Lemma debt_to_equity_present (v : locals) :
  is_some (field "debt_to_equity" (financials v)) = opt_truthy (equity v).
Proof.
  unfold financials, field; cbn.
  destruct (equity v) as [e|]; cbn; try reflexivity.
  destruct (float_truthy e); reflexivity.
Qed.

Lemma total_debt_field (v : locals) :
  field "total_debt" (financials v)
  = if float_truthy (total_debt v) then Some (PFloat (total_debt v))
    else None.
Proof.
  unfold financials, field; cbn.
  destruct (float_truthy (total_debt v)); reflexivity.
Qed.

Lemma pull_sec_financials_cases (fetch_json : string -> option pyval)
    (cik : string) :
  pull_sec_financials fetch_json cik
  = match locals_of fetch_json cik with
    | Some v => financials v
    | None => PDict []
    end.
Proof.
  unfold pull_sec_financials, locals_of.
  destruct (fetch_json (facts_url cik)) as [data|]; [|reflexivity].
  destruct (truthy data); reflexivity.
Qed.

(** C3, as amended.  [total_debt] is the sum of the debt components
    that are present when that sum is not zero, and is absent when the
    sum is zero; the sum of no component is zero, so with all four
    absent [total_debt] is absent. *)
Theorem total_debt_is_nonzero_sum (fetch_json : string -> option pyval)
    (cik : string) :
  let r := pull_sec_financials fetch_json cik in
  let comps := debt_components fetch_json cik in
  field "total_debt" r
  = (if float_truthy (py_sum comps) then Some (PFloat (py_sum comps))
     else None)
  /\ match comps with
     | [] => field "total_debt" r = None
     | _ => True
     end.
Proof.
  cbv zeta. rewrite pull_sec_financials_cases. unfold debt_components.
  destruct (locals_of fetch_json cik) as [v|] eqn:E.
  - rewrite total_debt_field.
    assert (total_debt v
            = py_sum (present [lt_debt v; current_portion_lt_debt v;
                               st_borrow v; commercial_paper v])) as Ht.
    { unfold locals_of in E.
      destruct (fetch_json (facts_url cik)); [|discriminate].
      destruct (truthy p); [|discriminate].
      injection E as <-. reflexivity. }
    rewrite Ht. split; [reflexivity|].
    destruct (present _); [reflexivity | exact I].
  - split; reflexivity.
Qed.

(** *** Tag selection *)

Lemma key_ltb_asym (a b : Z * Z) : key_ltb a b = true -> key_ltb b a = false.
Proof. key_order. Qed.

Lemma key_le_trans (a b c : Z * Z) :
  key_ltb b a = false -> key_ltb c b = false -> key_ltb c a = false.
Proof. key_order. Qed.

Lemma key_lt_le_trans (a b c : Z * Z) :
  key_ltb a b = true -> key_ltb c b = false -> key_ltb a c = true.
Proof. key_order. Qed.

Lemma key_le_lt_trans (a b c : Z * Z) :
  key_ltb b a = false -> key_ltb b c = true -> key_ltb a c = true.
Proof. key_order. Qed.

(** An end date that does not parse ranks as [datetime.min], which is
    naive and below or level with every other naive date. *)
Lemma parse_date_unparseable (d : dict) :
  match dict_get "end" d with
  | Some (PStr s) => fromisoformat s = None
  | _ => True
  end ->
  parse_date (PDict d) = datetime_min
  /\ aware datetime_min = false
  /\ forall x, aware (parse_date x) = false ->
                instant datetime_min <= instant (parse_date x).
Proof.
  intros H. split; [|split; [reflexivity|]].
  - unfold parse_date. destruct (dict_get "end" d) as [[]|]; try reflexivity.
    now rewrite H.
  - intros x Hx. unfold instant, aware in *.
    destruct (utcoffset (parse_date x)); [discriminate|]. cbn. lia.
Qed.

(** Keys whose dates are of one kind compare without an exception, by
    their ranks. *)
Lemma key_lt_same_kind (a b : datetime * Z) :
  aware (fst a) = aware (fst b) ->
  key_lt a b = Ok (key_ltb (rank a) (rank b)).
Proof.
  intros H. unfold key_lt, dt_eqb, dt_lt, key_ltb, rank. cbn [fst snd].
  rewrite H, Bool.eqb_reflx. cbn [andb].
  destruct (instant (fst a) =? instant (fst b)); reflexivity.
Qed.

(** Keys whose dates are of different kinds do not compare. *)
Lemma key_lt_mixed (a b : datetime * Z) :
  aware (fst a) <> aware (fst b) ->
  key_lt a b
  = Raise (TypeError
             "can't compare offset-naive and offset-aware datetimes").
Proof.
  intros H. unfold key_lt, dt_eqb, dt_lt.
  destruct (aware (fst a)), (aware (fst b)); try congruence; reflexivity.
Qed.

Lemma selectable_is_annual (v : pyval) :
  selectable v = true -> is_annual v = Ok (annual v).
Proof.
  unfold selectable, annual. destruct (is_annual v); [reflexivity|discriminate].
Qed.

Lemma selectable_sort_key (v : pyval) :
  selectable v = true ->
  exists k, sort_key v = Ok k /\ key_of v = rank k /\ fst k = parse_date v.
Proof.
  unfold selectable, key_of.
  destruct (is_annual v); [|discriminate].
  destruct (sort_key v) as [k|] eqn:E; [|discriminate].
  intros _. exists k. split; [reflexivity|]. split; [reflexivity|].
  unfold sort_key in E.
  destruct (py_get v "fy" (PInt 0)) as [fy|]; [|discriminate].
  cbn [bind] in E. destruct (py_int fy) as [y|]; [|discriminate].
  cbn [bind] in E. injection E as <-. reflexivity.
Qed.

Lemma filterM_is_annual (l : list pyval) :
  forallb selectable l = true ->
  filterM is_annual l = Ok (filter annual l).
Proof.
  induction l as [|v l IH]; cbn; [reflexivity|].
  intros H. apply andb_prop in H. destruct H as [Hv Hl].
  rewrite (selectable_is_annual v Hv), (IH Hl). cbn.
  destruct (annual v); reflexivity.
Qed.

Lemma candidates_selectable (l : list pyval) :
  forallb selectable l = true ->
  candidates l = Ok (candidates_p l)
  /\ forallb selectable (candidates_p l) = true.
Proof.
  intros H. unfold candidates, candidates_p.
  rewrite (filterM_is_annual l H). cbn. split; [reflexivity|].
  destruct (filter annual l) as [|a r] eqn:E; [exact H|].
  rewrite <- E. rewrite forallb_forall in *. intros x Hx.
  apply filter_In in Hx. now apply H.
Qed.

Lemma candidates_p_not_nil (l : list pyval) : l <> [] -> candidates_p l <> [].
Proof.
  unfold candidates_p. destruct (filter annual l); [auto | discriminate].
Qed.

(** The sort of entries whose dates are all of the kind [kind]. *)
Lemma sorted_same_kind (kind : bool) (l : list pyval) :
  forallb selectable l = true ->
  forallb (fun v => Bool.eqb (aware (parse_date v)) kind) l = true ->
  sorted key_lt sort_key true l
  = Ok (PureSort.sorted_desc key_ltb key_of l).
Proof.
  intros Hs Hk.
  apply (sorted_related key_lt key_ltb
           (fun k k' => aware (fst k) = kind /\ k' = rank k)).
  - intros a b a' b' [Ha ->] [Hb ->].
    apply key_lt_same_kind. congruence.
  - rewrite Forall_forall. rewrite forallb_forall in Hs, Hk.
    intros x Hx.
    destruct (selectable_sort_key x (Hs x Hx)) as [k [Hkey [Hrank Hfst]]].
    exists k. split; [exact Hkey|]. split; [|exact Hrank].
    rewrite Hfst. apply Bool.eqb_prop. now apply Hk.
Qed.

(** On selectable entries whose candidates have dates of one kind,
    the selection is the head of the pure descending sort of the
    candidates. *)
Lemma latest_annual_value_pure (l : list pyval) :
  forallb selectable l = true ->
  comparable (candidates_p l) = true ->
  latest_annual_value (PList l)
  = Ok (hd PNone (PureSort.sorted_desc key_ltb key_of (candidates_p l))).
Proof.
  intros H Hc. destruct (candidates_selectable l H) as [Hcand Hs].
  unfold latest_annual_value. rewrite Hcand. cbn [bind].
  assert (sorted key_lt sort_key true (candidates_p l)
          = Ok (PureSort.sorted_desc key_ltb key_of (candidates_p l)))
    as ->.
  { unfold comparable in Hc. apply orb_prop in Hc.
    destruct Hc as [Hn | Ha].
    - apply (sorted_same_kind false); [exact Hs|].
      rewrite forallb_forall in *. intros x Hx.
      specialize (Hn x Hx). now destruct (aware (parse_date x)).
    - apply (sorted_same_kind true); [exact Hs|].
      rewrite forallb_forall in *. intros x Hx.
      specialize (Ha x Hx). now destruct (aware (parse_date x)). }
  cbn [bind].
  destruct (PureSort.sorted_desc key_ltb key_of (candidates_p l));
    reflexivity.
Qed.

(** Two entries of which one has an aware and the other a naive end
    date do not sort: the selection raises. *)
Lemma mixed_dates_raise (a b : pyval) :
  selectable a = true -> selectable b = true ->
  annual a = annual b ->
  aware (parse_date a) <> aware (parse_date b) ->
  latest_annual_value (PList [a; b])
  = Raise (TypeError
             "can't compare offset-naive and offset-aware datetimes").
Proof.
  intros Ha Hb Hab Hmix.
  assert (forallb selectable [a; b] = true) as Hsel
    by (cbn; now rewrite Ha, Hb).
  destruct (candidates_selectable _ Hsel) as [Hcand _].
  assert (candidates_p [a; b] = [a; b]) as Hp.
  { unfold candidates_p. cbn [filter]. rewrite <- Hab.
    destruct (annual a); reflexivity. }
  unfold latest_annual_value. rewrite Hcand, Hp. cbn [bind].
  destruct (selectable_sort_key a Ha) as [ka [Hka [_ Hfa]]].
  destruct (selectable_sort_key b Hb) as [kb [Hkb [_ Hfb]]].
  unfold sorted. cbn [mapM bind]. rewrite Hka. cbn [bind].
  rewrite Hkb. cbn [bind rev app isort insert fst].
  rewrite key_lt_mixed by (rewrite Hfa, Hfb; exact Hmix).
  reflexivity.
Qed.

(** C4, as amended.  On a non-empty list of entries for which the
    annual test and the sort key are defined, and whose ranked entries
    have end dates of one kind (all naive or all aware), tag selection
    ranks the annual entries, or all entries when none is annual, and
    returns the first entry in input order among those that are maximal
    for the order by end date (an end date that does not parse counting
    as [datetime.min]) and then by fiscal year.  So of two annual
    entries of which one is older, the newer one is selected in either
    input order. *)
Theorem latest_annual_value_first_maximal (l : list pyval) :
  l <> [] ->
  forallb selectable l = true ->
  comparable (candidates_p l) = true ->
  exists e pre post,
    latest_annual_value (PList l) = Ok e
    /\ candidates_p l = pre ++ e :: post
    /\ (forall x, In x pre -> key_ltb (key_of x) (key_of e) = true)
    /\ (forall x, In x post -> key_ltb (key_of e) (key_of x) = false)
    /\ (forall a b,
          l = [a; b] \/ l = [b; a] ->
          annual a = true -> annual b = true ->
          key_ltb (key_of a) (key_of b) = true ->
          e = b).
Proof.
  intros Hne Hsel Hcmp.
  rewrite (latest_annual_value_pure l Hsel Hcmp).
  destruct (candidates_p l) as [|c cs] eqn:Ec;
    [now apply candidates_p_not_nil in Ec|].
  rewrite (hd_sorted_desc key_ltb key_ltb_asym key_le_trans).
  destruct (first_max_split key_ltb key_ltb_asym key_lt_le_trans
              key_le_lt_trans key_of c cs)
    as (pre & post & Heq & Hpre & Hpost).
  remember (PureSort.first_max key_ltb key_of c cs) as e eqn:He. clear He.
  exists e, pre, post. repeat split; try assumption.
  intros a b Hl Ha Hb Hab.
  assert (c :: cs = l) as Hcl.
  { rewrite <- Ec. unfold candidates_p.
    destruct Hl as [-> | ->]; cbn; rewrite Ha, Hb; reflexivity. }
  rewrite Heq in Hcl.
  destruct Hl as [-> | ->].
  - destruct pre as [|p [|q pre]]; cbn in Hcl.
    + injection Hcl as He Hp. subst e post.
      rewrite (Hpost b (or_introl eq_refl)) in Hab. discriminate.
    + now injection Hcl as _ He.
    + injection Hcl as _ _ Hnil. now destruct pre.
  - destruct pre as [|p [|q pre]]; cbn in Hcl.
    + now injection Hcl as He.
    + injection Hcl as Hp He _. subst p e.
      specialize (Hpre b (or_introl eq_refl)).
      rewrite (key_ltb_asym _ _ Hab) in Hpre. discriminate.
    + injection Hcl as _ _ Hnil. now destruct pre.
Qed.

End SecProperties.

Section SecOnReferenceLibrary.
Existing Instance RefLib.ref.
Import SecFinancials.

(** C2. Each ratio is claimed to be present exactly when its numerator
    is present and its denominator is present and not zero.  A filer
    that reports current assets of zero and current liabilities of five
    gets no [current_ratio], and a filer with equity and no debt tag
    gets no [total_debt] and a [debt_to_equity] of zero. *)
Theorem ratios_on_zero_numerators :
  let r := pull_sec_financials (Examples.serve Examples.no_debt_doc)
                               "0000320193" in
  field "current_assets" r = Some (PFloat 0)
  /\ field "current_liabilities" r = Some (PFloat 5)
  /\ field "current_ratio" r = None
  /\ debt_components (Examples.serve Examples.no_debt_doc) "0000320193" = []
  /\ field "total_debt" r = None
  /\ field "equity" r = Some (PFloat 100)
  /\ field "debt_to_equity" r = Some (PFloat 0).
Proof.
  vm_compute. repeat split.
Qed.

(** Against C3 as stated: one debt component is present with value
    zero, the sum of the present components is zero, and [total_debt]
    is absent rather than that sum. *)
Lemma total_debt_absent_on_zero_sum :
  let r := pull_sec_financials (Examples.serve Examples.zero_debt_doc)
                               "0000320193" in
  let comps := debt_components (Examples.serve Examples.zero_debt_doc)
                               "0000320193" in
  comps = [0%float]
  /\ field "total_debt" r <> Some (PFloat (py_sum comps)).
Proof.
  vm_compute. split; [reflexivity | discriminate].
Qed.

Lemma latest_annual_value_first_maximal_witness :
  exists e pre post,
    latest_annual_value (PList [Examples.fy2023; Examples.fy2024]) = Ok e
    /\ candidates_p [Examples.fy2023; Examples.fy2024] = pre ++ e :: post
    /\ (forall x, In x pre -> key_ltb (key_of x) (key_of e) = true)
    /\ (forall x, In x post -> key_ltb (key_of e) (key_of x) = false)
    /\ (forall a b,
          [Examples.fy2023; Examples.fy2024] = [a; b]
          \/ [Examples.fy2023; Examples.fy2024] = [b; a] ->
          annual a = true -> annual b = true ->
          key_ltb (key_of a) (key_of b) = true ->
          e = b).
Proof.
  apply (latest_annual_value_first_maximal
           [Examples.fy2023; Examples.fy2024]).
  - discriminate.
  - vm_compute. reflexivity.
  - vm_compute. reflexivity.
Defined.

(** The entries that end on 2023-12-31 and 2024-12-31, in both input
    orders. *)
Example latest_of_2023_and_2024 :
  latest_annual_value (PList [Examples.fy2023; Examples.fy2024])
  = Ok Examples.fy2024
  /\ latest_annual_value (PList [Examples.fy2024; Examples.fy2023])
     = Ok Examples.fy2024.
Proof. split; vm_compute; reflexivity. Qed.

(** An end date with a UTC offset next to one without: the selection
    raises, and the extractor reports the tag absent. *)
Example offset_and_naive_dates_raise :
  latest_annual_value (PList [Examples.fy2024_utc; Examples.fy2023])
  = Raise (TypeError
             "can't compare offset-naive and offset-aware datetimes")
  /\ get_us_gaap
       (PDict [("facts",
          PDict [("us-gaap",
            PDict [("Revenues",
              PDict [("units",
                PDict [("USD",
                  PList [Examples.fy2024_utc; Examples.fy2023])])])])])])
       "Revenues"
     = None.
Proof. split; vm_compute; reflexivity. Qed.

(** Against C4 as stated: two annual entries with the same end date and
    fiscal year are both maximal, and which of them is selected depends
    on the input order. *)
Lemma tied_entries_selected_by_position :
  Examples.fy2024 <> Examples.fy2024_amended
  /\ annual Examples.fy2024 = true
  /\ annual Examples.fy2024_amended = true
  /\ key_of Examples.fy2024 = key_of Examples.fy2024_amended
  /\ latest_annual_value
       (PList [Examples.fy2024; Examples.fy2024_amended])
     = Ok Examples.fy2024
  /\ latest_annual_value
       (PList [Examples.fy2024_amended; Examples.fy2024])
     = Ok Examples.fy2024_amended.
Proof.
  split; [discriminate|]. vm_compute. repeat split.
Qed.

End SecOnReferenceLibrary.


(** ** Price metrics *)

Section PriceProperties.
Context {L : PyLib}.
Import PriceTrend.

Lemma dropna_nil_metrics (hist : list row) :
  dropna hist = [] ->
  exists msg, price_metrics hist = Ok (error_shape msg)
              \/ price_metrics hist = Raise (IndexError msg).
Proof.
  intros H. destruct hist as [|r hist].
  - exists "No price data returned". left. reflexivity.
  - exists "list index out of range". right.
    unfold price_metrics. rewrite H. reflexivity.
Qed.

Lemma error_shape_keys (msg k : string) :
  In k metric_keys -> has_key k (error_shape msg) = false.
Proof.
  unfold metric_keys. cbn [In]. intros H.
  repeat (destruct H as [<- | H]; [reflexivity|]). destruct H.
Qed.

(** Whatever the [try] block raises comes back in the error shape. *)
Lemma raised_is_error_shape (outcome : result (list row)) (e : exn) :
  (h <- outcome ;; price_metrics h) = Raise e ->
  pull_price_trend_yf outcome = error_shape (exn_msg e).
Proof.
  unfold pull_price_trend_yf. intros ->. reflexivity.
Qed.

(** C5. When the fetched close series is empty, and whenever the fetch
    or the computation raises, the analyzer returns a record whose only
    field is [error]; none of the metric fields is set.  The analyzer
    is a total function: it has no raising outcome. *)
Theorem empty_or_failed_is_error_shape (outcome : result (list row)) :
  (exists h, outcome = Ok h /\ dropna h = [])
  \/ (exists e, (h <- outcome ;; price_metrics h) = Raise e) ->
  exists msg,
    pull_price_trend_yf outcome = PDict [("error", PStr msg)]
    /\ forall k, In k metric_keys ->
                 has_key k (pull_price_trend_yf outcome) = false.
Proof.
  intros [(h & -> & Hh) | (e & He)].
  - destruct (dropna_nil_metrics h Hh) as (msg & [Hm | Hm]);
      exists msg; unfold pull_price_trend_yf; cbn [bind];
      rewrite Hm; cbn [try_except exn_msg IndexError];
      (split; [reflexivity | apply error_shape_keys]).
  - exists (exn_msg e). rewrite (raised_is_error_shape _ _ He).
    split; [reflexivity | apply error_shape_keys].
Qed.

Lemma last_cons_default {A} (l : list A) (y x : A) :
  last (y :: l) x = last l y.
Proof.
  revert y x. induction l as [|z l IH]; intros y x; [reflexivity|].
  change (last (y :: z :: l) x) with (last (z :: l) x).
  rewrite (IH z x). symmetry. apply IH.
Qed.

Lemma last_error_cons {A} (x : A) (l : list A) :
  last_error (x :: l) = Some (last l x).
Proof.
  revert x. induction l as [|y l IH]; intros x; [reflexivity|].
  change (last_error (x :: y :: l)) with (last_error (y :: l)).
  rewrite IH, last_cons_default. reflexivity.
Qed.

(** The normal shape, when the volatility computation goes through. *)
Lemma pull_price_trend_yf_metrics (hist : list row) (d0 : string)
    (c0 : float) (rest : list row) (lr : list float) (vol : pyval) :
  dropna hist = (d0, c0) :: rest ->
  logrets (map snd (dropna hist)) = Ok lr ->
  annualized_vol lr = Ok vol ->
  let closes := dropna hist in
  let latest := snd (last rest (d0, c0)) in
  pull_price_trend_yf (Ok hist)
  = PDict [("latest_close", PFloat latest);
           ("oldest_close", PFloat c0);
           ("pct_change",
             if float_truthy c0 then PFloat (latest / c0 - 1)%float
             else PNone);
           ("sma20", sma 20 (map snd closes));
           ("sma50", sma 50 (map snd closes));
           ("annualized_vol", vol);
           ("sample",
             PList (map (fun r => PTuple [PStr (fst r); PFloat (snd r)])
                        (lastn 5 closes)))].
Proof.
  intros Hd Hl Hv. cbv zeta.
  unfold pull_price_trend_yf. cbn [bind].
  assert (price_metrics hist = metrics_of (dropna hist)) as ->.
  { destruct hist; [discriminate Hd | reflexivity]. }
  revert Hl. rewrite Hd. intros Hl.
  unfold metrics_of. rewrite last_error_cons, Hl.
  cbn [option_map of_option bind hd_error snd].
  rewrite Hv. reflexivity.
Qed.

(** C6, as amended.  For a non-empty close series on which the
    volatility computation raises nothing, [sma20] is present exactly
    when there are at least 20 observations and is then the mean of the
    last 20, likewise [sma50] with 50, and [pct_change] is absent
    exactly when the oldest close is zero. *)
Theorem sma_and_pct_change_presence (hist : list row) (d0 : string)
    (c0 : float) (rest : list row) (lr : list float) (vol : pyval) :
  dropna hist = (d0, c0) :: rest ->
  logrets (map snd (dropna hist)) = Ok lr ->
  annualized_vol lr = Ok vol ->
  let r := pull_price_trend_yf (Ok hist) in
  let vals := map snd (dropna hist) in
  field "sma20" r
  = (if (20 <=? List.length vals)%nat
     then Some (PFloat (series_mean (lastn 20 vals))) else None)
  /\ field "sma50" r
     = (if (50 <=? List.length vals)%nat
        then Some (PFloat (series_mean (lastn 50 vals))) else None)
  /\ is_some (field "pct_change" r) = negb (is_zero c0).
Proof.
  intros Hd Hl Hv. cbv zeta.
  rewrite (pull_price_trend_yf_metrics hist d0 c0 rest lr vol Hd Hl Hv).
  unfold field, sma. cbn [dict_get String.eqb Ascii.eqb Bool.eqb].
  repeat split.
  - destruct (20 <=? _)%nat; reflexivity.
  - destruct (50 <=? _)%nat; reflexivity.
  - unfold float_truthy. destruct (is_zero c0); reflexivity.
Qed.

End PriceProperties.

Section PriceOnReferenceLibrary.
Existing Instance RefLib.ref.
Import PriceTrend.

Lemma empty_or_failed_is_error_shape_witness :
  exists msg,
    pull_price_trend_yf (Ok [("2024-01-01", nan)])
    = PDict [("error", PStr msg)]
    /\ forall k, In k metric_keys ->
         has_key k (pull_price_trend_yf (Ok [("2024-01-01", nan)])) = false.
Proof.
  apply (empty_or_failed_is_error_shape (Ok [("2024-01-01", nan)])).
  left. exists [("2024-01-01", nan)]. split; reflexivity.
Defined.

Lemma sma_and_pct_change_presence_witness :
  let r := pull_price_trend_yf (Ok Examples.rising) in
  let vals := map snd (dropna Examples.rising) in
  field "sma20" r
  = (if (20 <=? List.length vals)%nat
     then Some (PFloat (series_mean (lastn 20 vals))) else None)
  /\ field "sma50" r
     = (if (50 <=? List.length vals)%nat
        then Some (PFloat (series_mean (lastn 50 vals))) else None)
  /\ is_some (field "pct_change" r) = negb (is_zero 100%float).
Proof.
  pose (lr := try_except (logrets (map snd (dropna Examples.rising)))
                         (fun _ => [])).
  apply (sma_and_pct_change_presence Examples.rising "2024-01-01"
           100%float (tl (dropna Examples.rising)) lr
           (try_except (annualized_vol lr) (fun _ => PNone)));
    vm_compute; reflexivity.
Defined.

(** Against C6 as stated: a series of twenty observations whose
    oldest close is not zero, for which neither [sma20] nor
    [pct_change] is present. *)
Lemma sma20_absent_on_twenty_closes :
  let r := pull_price_trend_yf (Ok Examples.sign_change) in
  List.length (dropna Examples.sign_change) = 20%nat
  /\ option_map snd (hd_error (dropna Examples.sign_change))
     = Some (-1)%float
  /\ is_zero (-1)%float = false
  /\ field "sma20" r = None
  /\ field "pct_change" r = None
  /\ r = error_shape "math domain error".
Proof.
  vm_compute. repeat split.
Qed.

End PriceOnReferenceLibrary.



(** ** News digest *)

Section DictFacts.

Lemma dict_get_set_same (k : string) (v : pyval) (d : dict) :
  dict_get k (dict_set k v d) = Some v.
Proof.
  induction d as [|[k' v'] d IH]; cbn.
  - now rewrite String.eqb_refl.
  - destruct (String.eqb_spec k k') as [<- | Hne]; cbn.
    + now rewrite String.eqb_refl.
    + destruct (String.eqb_spec k k'); [contradiction | exact IH].
Qed.

Lemma dict_get_set_other (k k' : string) (v : pyval) (d : dict) :
  k' <> k -> dict_get k' (dict_set k v d) = dict_get k' d.
Proof.
  intros Hne. induction d as [|[k0 v0] d IH]; cbn.
  - destruct (String.eqb_spec k' k); [contradiction | reflexivity].
  - destruct (String.eqb_spec k k0) as [<- | Hk]; cbn.
    + destruct (String.eqb_spec k' k); [contradiction | reflexivity].
    + destruct (String.eqb_spec k' k0); [reflexivity | exact IH].
Qed.

End DictFacts.

Section ListFacts.
Context {B : Type}.

Lemma StronglySorted_firstn (R : B -> B -> Prop) (n : nat) (l : list B) :
  StronglySorted R l -> StronglySorted R (firstn n l).
Proof.
  intros H. revert n. induction H as [|y l Hs IH Hy]; intros [|n]; cbn;
    try constructor.
  - apply IH.
  - rewrite Forall_forall in *. intros z Hz. apply Hy.
    rewrite <- (firstn_skipn n l). apply in_or_app. now left.
Qed.

Lemma StronglySorted_NoDup {C} (R : B -> B -> Prop) (f : B -> C)
    (l : list B) :
  StronglySorted R l -> NoDup (map f l) ->
  StronglySorted (fun a b => R a b /\ f a <> f b) l.
Proof.
  induction 1 as [|y l Hs IH Hy]; cbn; intros Hnd; [constructor|].
  inversion Hnd as [|? ? Hnotin Hnd']; subst.
  constructor; [now apply IH|].
  rewrite Forall_forall in *. intros z Hz. split; [now apply Hy|].
  intros Heq. apply Hnotin. rewrite Heq. now apply in_map.
Qed.

End ListFacts.

Section NewsProperties.
Context {L : PyLib}.
Import FinnhubNews.

Lemma enrich_enriched (it : pyval) : enriched it (enrich it).
Proof.
  unfold enriched, enrich. destruct it as [| | | | | | |d]; try reflexivity.
  destruct (to_iso _) as [iso|]; [|reflexivity].
  exists (dict_set "datetime_iso" (PStr iso) d).
  split; [reflexivity|]. split.
  - apply dict_get_set_same.
  - intros k Hk. now apply dict_get_set_other.
Qed.

(** A value that is not a number is not converted. *)
Lemma to_iso_non_numeric (ts : pyval) : num_of ts = None -> to_iso ts = None.
Proof. unfold to_iso. now intros ->. Qed.

Lemma ts_of_enrich (it : pyval) : ts_of (enrich it) = ts_of it.
Proof.
  unfold enrich. destruct it as [| | | | | | |d]; try reflexivity.
  destruct (to_iso _) as [iso|]; [|reflexivity].
  unfold ts_of, get_default. now rewrite dict_get_set_other.
Qed.

Lemma pull_finnhub_news_items (api_key : string) (x : pyval)
    (data : list pyval) :
  String.eqb api_key "" = false ->
  pull_finnhub_news api_key (Some (PList (x :: data)))
  = (s <- sorted py_lt timestamp true (x :: data) ;;
     Ok (PDict [("count", PInt (Z.of_nat (List.length (x :: data))));
                ("sample", PList (map enrich (firstn 20 s)))])).
Proof.
  intros Hk. unfold pull_finnhub_news. rewrite Hk. reflexivity.
Qed.

Lemma sorted_int_timestamps (data : list pyval) :
  forallb int_ts data = true ->
  sorted py_lt timestamp true data
  = Ok (PureSort.sorted_desc Z.ltb ts_of data).
Proof.
  intros H.
  apply (sorted_sim py_lt Z.ltb PInt (fun a b => eq_refl)).
  rewrite Forall_forall. rewrite forallb_forall in H.
  intros v Hv. specialize (H v Hv).
  unfold int_ts, ts_of, timestamp, py_get in *.
  destruct v as [| | | | | | |d]; try discriminate.
  destruct (get_default "datetime" (PInt 0) d); try discriminate.
  reflexivity.
Qed.

Lemma sorted_desc_by_timestamp (data : list pyval) :
  StronglySorted (fun a b => ts_of b <= ts_of a)
                 (PureSort.sorted_desc Z.ltb ts_of data).
Proof.
  apply (StronglySorted_weaken
           (fun a b => Z.ltb (ts_of a) (ts_of b) = false) _ (fun _ => True)).
  - intros x y _ _ H. now apply Z.ltb_ge.
  - rewrite Forall_forall. auto.
  - apply sorted_desc_sorted.
    + intros a b H. apply Z.ltb_lt in H. apply Z.ltb_ge. lia.
    + intros a b c H1 H2. apply Z.ltb_ge in H1, H2. apply Z.ltb_ge. lia.
Qed.

Lemma enriched_prefix_sorted (R : Z -> Z -> Prop) (n : nat)
    (s : list pyval) :
  StronglySorted (fun a b => R (ts_of a) (ts_of b)) s ->
  StronglySorted (fun a b => R (ts_of a) (ts_of b))
                 (map enrich (firstn n s)).
Proof.
  intros H. apply StronglySorted_map.
  apply (StronglySorted_weaken
           (fun a b => R (ts_of a) (ts_of b)) _ (fun _ => True)).
  - intros x y _ _. now rewrite !ts_of_enrich.
  - rewrite Forall_forall. auto.
  - now apply StronglySorted_firstn.
Qed.

(** C10. A successful answer that is an empty list is reported in the
    error shape, with the very result of a failed request. *)
Theorem empty_news_is_error_shape (api_key : string) :
  pull_finnhub_news api_key (Some (PList []))
  = Ok (PDict [("error",
                PStr (if String.eqb api_key ""
                      then "Missing FINNHUB_API_KEY"
                      else "Failed to get news"))])
  /\ pull_finnhub_news api_key (Some (PList []))
     = pull_finnhub_news api_key None.
Proof.
  unfold pull_finnhub_news.
  destruct (String.eqb api_key ""); split; reflexivity.
Qed.

(** *** Numeric timestamps *)

Lemma ts_num_enrich (it : pyval) : ts_num (enrich it) = ts_num it.
Proof.
  unfold enrich. destruct it as [| | | | | | |d]; try reflexivity.
  destruct (to_iso _) as [iso|]; [|reflexivity].
  unfold ts_num, get_default. now rewrite dict_get_set_other.
Qed.

(** The key of an item with a numeric timestamp. *)
Lemma num_ts_key (v : pyval) :
  num_ts v = true ->
  exists k, timestamp v = Ok k
            /\ num_of k = Some (ts_num v)
            /\ Exact.not_nan (ts_num v) = true.
Proof.
  unfold num_ts, ts_num, timestamp.
  destruct v as [| | | | | | |d]; try discriminate. cbn [py_get].
  destruct (num_of (get_default "datetime" (PInt 0) d)) as [n|] eqn:E;
    [|discriminate].
  intros H. eexists. split; [reflexivity|]. now split.
Qed.

Lemma py_lt_numbers (a b : pyval) (x y : num) :
  num_of a = Some x -> num_of b = Some y -> py_lt a b = Ok (num_ltb x y).
Proof.
  intros Ha Hb.
  destruct a; try discriminate Ha; destruct b; try discriminate Hb;
    cbn [num_of] in Ha, Hb; injection Ha as <-; injection Hb as <-;
    reflexivity.
Qed.

(** On numeric timestamps the sort of the sampler is the pure
    descending sort by exact value. *)
Lemma sorted_num_timestamps (data : list pyval) :
  forallb num_ts data = true ->
  sorted py_lt timestamp true data
  = Ok (PureSort.sorted_desc Exact.ext_ltb
          (fun v => Exact.exact (ts_num v)) data).
Proof.
  intros H.
  apply (sorted_related py_lt Exact.ext_ltb
           (fun k x => exists n, num_of k = Some n
                                 /\ Exact.not_nan n = true
                                 /\ x = Exact.exact n)).
  - intros a b a' b' (n & Hn & Nn & ->) (m & Hm & Nm & ->).
    rewrite (py_lt_numbers _ _ _ _ Hn Hm).
    now rewrite (proj1 (num_compare_exact n m Nn Nm)).
  - rewrite Forall_forall. rewrite forallb_forall in H.
    intros v Hv. destruct (num_ts_key v (H v Hv)) as (k & Hk & Hn & Nn).
    exists k. split; [exact Hk|]. now exists (ts_num v).
Qed.

Lemma sorted_desc_by_number (data : list pyval) :
  forallb num_ts data = true ->
  StronglySorted (fun a b => num_ltb (ts_num a) (ts_num b) = false)
    (PureSort.sorted_desc Exact.ext_ltb
       (fun v => Exact.exact (ts_num v)) data).
Proof.
  intros H.
  apply (StronglySorted_weaken
           (fun a b => Exact.ext_ltb (Exact.exact (ts_num a))
                                     (Exact.exact (ts_num b)) = false)
           _ (fun v => num_ts v = true)).
  - intros x y Hx Hy Hxy.
    destruct (num_ts_key x Hx) as (_ & _ & _ & Nx).
    destruct (num_ts_key y Hy) as (_ & _ & _ & Ny).
    now rewrite (proj1 (num_compare_exact _ _ Nx Ny)).
  - rewrite Forall_forall. rewrite forallb_forall in H.
    intros x Hx. apply H.
    now apply (Permutation_in _ (sorted_desc_perm _ _ _)) in Hx.
  - apply sorted_desc_sorted; [apply ext_ltb_asym | apply ext_le_trans].
Qed.

Lemma enriched_prefix_sorted_num (R : num -> num -> Prop) (n : nat)
    (s : list pyval) :
  StronglySorted (fun a b => R (ts_num a) (ts_num b)) s ->
  StronglySorted (fun a b => R (ts_num a) (ts_num b))
                 (map enrich (firstn n s)).
Proof.
  intros H. apply StronglySorted_map.
  apply (StronglySorted_weaken
           (fun a b => R (ts_num a) (ts_num b)) _ (fun _ => True)).
  - intros x y _ _. now rewrite !ts_num_enrich.
  - rewrite Forall_forall. auto.
  - now apply StronglySorted_firstn.
Qed.

Lemma ext_eqb_refl (a : Exact.ext) : Exact.ext_eqb a a = true.
Proof.
  unfold Exact.ext_eqb. destruct a; cbn; try reflexivity.
  now rewrite Z.compare_refl.
Qed.

(** Timestamps that differ pairwise have exact values that differ
    pairwise. *)
Lemma distinct_ts_NoDup (l : list pyval) :
  forallb num_ts l = true ->
  distinct_ts l = true ->
  NoDup (map (fun v => Exact.exact (ts_num v)) l).
Proof.
  induction l as [|a l IH]; cbn [forallb distinct_ts map];
    [constructor|].
  intros Hn Hd. apply andb_prop in Hn, Hd.
  destruct Hn as [Ha Hl], Hd as [Hda Hdl].
  constructor; [|now apply IH].
  intros Hin. apply in_map_iff in Hin. destruct Hin as (b & Hb & Hbl).
  rewrite forallb_forall in Hda, Hl.
  specialize (Hda b Hbl). apply negb_true_iff in Hda.
  destruct (num_ts_key a Ha) as (_ & _ & _ & Na).
  destruct (num_ts_key b (Hl b Hbl)) as (_ & _ & _ & Nb).
  rewrite (proj2 (num_compare_exact _ _ Na Nb)), Hb, ext_eqb_refl in Hda.
  discriminate.
Qed.

(** C7, as amended.  For a fetched list that is not empty and whose
    items have a numeric timestamp (an int, a bool or a float other
    than NaN), or none, a missing timestamp counting as 0, the
    digest's sample is the items in descending timestamp order cut to
    the first 20, each passed through the timestamp conversion, and
    [count] is the number of items fetched; with pairwise different
    timestamps the order is strict, and 25 items give a sample of 20.
    The empty list is reported in the error shape. *)
Theorem news_sample_sorted_and_truncated (api_key : string)
    (data : list pyval) :
  String.eqb api_key "" = false ->
  data <> [] ->
  forallb num_ts data = true ->
  exists s,
    Permutation s data
    /\ StronglySorted (fun a b => num_ltb (ts_num a) (ts_num b) = false) s
    /\ pull_finnhub_news api_key (Some (PList data))
       = Ok (PDict [("count", PInt (Z.of_nat (List.length data)));
                    ("sample", PList (map enrich (firstn 20 s)))])
    /\ List.length (map enrich (firstn 20 s))
       = Nat.min 20 (List.length data)
    /\ StronglySorted (fun a b => num_ltb (ts_num a) (ts_num b) = false)
                      (map enrich (firstn 20 s))
    /\ (distinct_ts data = true ->
        StronglySorted (fun a b => num_ltb (ts_num b) (ts_num a) = true)
                       (map enrich (firstn 20 s))).
Proof.
  intros Hk Hne Hnum.
  set (key := fun v => Exact.exact (ts_num v)).
  exists (PureSort.sorted_desc Exact.ext_ltb key data).
  pose proof (sorted_desc_perm Exact.ext_ltb key data) as Hperm.
  pose proof (sorted_desc_by_number data Hnum) as Hsorted.
  split; [exact Hperm|]. split; [exact Hsorted|]. split; [|split; [|split]].
  - destruct data as [|x data]; [congruence|].
    rewrite (pull_finnhub_news_items _ _ _ Hk).
    now rewrite (sorted_num_timestamps _ Hnum).
  - rewrite length_map, length_firstn. f_equal.
    now apply Permutation_length.
  - now apply (enriched_prefix_sorted_num (fun x y => num_ltb x y = false)).
  - intros Hd.
    apply (enriched_prefix_sorted_num (fun x y => num_ltb y x = true)).
    assert (Forall (fun v => num_ts v = true)
              (PureSort.sorted_desc Exact.ext_ltb key data)) as Hall.
    { rewrite Forall_forall. rewrite forallb_forall in Hnum.
      intros x Hx. apply Hnum.
      now apply (Permutation_in _ Hperm) in Hx. }
    apply (StronglySorted_weaken
             (fun a b => num_ltb (ts_num a) (ts_num b) = false
                         /\ key a <> key b)
             _ (fun v => num_ts v = true)); [|exact Hall|].
    + intros x y Hx Hy [Hxy Hneq].
      destruct (num_ts_key x Hx) as (_ & _ & _ & Nx).
      destruct (num_ts_key y Hy) as (_ & _ & _ & Ny).
      rewrite (proj1 (num_compare_exact _ _ Ny Nx)).
      rewrite (proj1 (num_compare_exact _ _ Nx Ny)) in Hxy.
      now apply ext_total.
    + apply StronglySorted_NoDup; [exact Hsorted|].
      apply (Permutation_NoDup (l := map key data));
        [|now apply distinct_ts_NoDup].
      apply Permutation_map. now symmetry.
Qed.

(** C8. Every retained item is in the sample, at its place.  An item
    whose timestamp is not converted, because it is not a number or
    because the conversion raises, is returned as it is; an item whose
    timestamp is converted differs only in the binding of
    [datetime_iso]. *)
Theorem retained_items_only_gain_iso (api_key : string)
    (fetched : option pyval) (count : pyval) (sample : list pyval) :
  pull_finnhub_news api_key fetched
  = Ok (PDict [("count", count); ("sample", PList sample)]) ->
  exists data l s,
    fetched = Some data
    /\ iter_items data = Ok l
    /\ sorted py_lt timestamp true l = Ok s
    /\ Forall2 enriched (firstn 20 s) sample
    /\ forall ts, num_of ts = None -> to_iso ts = None.
Proof.
  unfold pull_finnhub_news.
  destruct (String.eqb api_key ""); [discriminate|].
  destruct fetched as [data|]; [|discriminate].
  destruct (negb (truthy data) || (is_dict data && truthy (error_field data)));
    [discriminate|].
  destruct (iter_items data) as [l|] eqn:El; [|discriminate].
  cbn [bind].
  destruct (sorted py_lt timestamp true l) as [s|] eqn:Es; [|discriminate].
  cbn [bind]. remember (firstn 20 s) as r eqn:Er.
  intros H. injection H as _ Hs.
  exists data, l, s. rewrite <- Er.
  split; [reflexivity|]. split; [exact El|]. split; [exact Es|].
  split; [|apply to_iso_non_numeric].
  rewrite <- Hs. clear.
  induction r as [|it r IH]; cbn; constructor;
    [apply enrich_enriched | exact IH].
Qed.

End NewsProperties.

Section NewsOnReferenceLibrary.
Existing Instance RefLib.ref.
Import FinnhubNews.

Lemma news_sample_sorted_and_truncated_witness :
  exists s,
    Permutation s Examples.float_news
    /\ StronglySorted (fun a b => num_ltb (ts_num a) (ts_num b) = false) s
    /\ pull_finnhub_news "k" (Some (PList Examples.float_news))
       = Ok (PDict [("count",
                     PInt (Z.of_nat (List.length Examples.float_news)));
                    ("sample", PList (map enrich (firstn 20 s)))])
    /\ List.length (map enrich (firstn 20 s))
       = Nat.min 20 (List.length Examples.float_news)
    /\ StronglySorted (fun a b => num_ltb (ts_num a) (ts_num b) = false)
                      (map enrich (firstn 20 s))
    /\ (distinct_ts Examples.float_news = true ->
        StronglySorted (fun a b => num_ltb (ts_num b) (ts_num a) = true)
                       (map enrich (firstn 20 s))).
Proof.
  apply (news_sample_sorted_and_truncated "k" Examples.float_news).
  - reflexivity.
  - discriminate.
  - vm_compute. reflexivity.
Defined.

(** Against C7 as stated: a fetched list that is empty gives no digest,
    so neither a [count] of zero nor an empty [sample]; the result is
    the error shape. *)
Lemma empty_news_list_has_no_digest :
  exists r,
    pull_finnhub_news "k" (Some (PList [])) = Ok r
    /\ field "count" r = None
    /\ field "sample" r = None
    /\ r = PDict [("error", PStr "Failed to get news")].
Proof.
  eexists. split; [reflexivity|]. repeat split.
Qed.

(** Timestamps that are an int, floats and a bool, and a missing one:
    the items come back by descending value. *)
Example mixed_numeric_timestamps :
  exists sample,
    pull_finnhub_news "k" (Some (PList Examples.float_news))
    = Ok (PDict [("count", PInt 5); ("sample", PList sample)])
    /\ map (fun v => try_except (py_get v "id" PNone) (fun _ => PNone))
           sample
       = [PInt 2; PInt 1; PInt 3; PInt 5; PInt 4]
    /\ distinct_ts Examples.float_news = true.
Proof.
  eexists. split; [vm_compute; reflexivity|].
  split; vm_compute; reflexivity.
Qed.

(** Twenty-five items with distinct timestamps: twenty come back and
    the count is twenty-five. *)
Example news25_digest :
  exists sample,
    pull_finnhub_news "k" (Some (PList Examples.news25))
    = Ok (PDict [("count", PInt 25); ("sample", PList sample)])
    /\ List.length sample = 20%nat
    /\ map ts_of sample
       = map (fun i => 1700086400 - 3600 * Z.of_nat i) (seq 0 20).
Proof.
  eexists. split; [vm_compute; reflexivity|].
  split; vm_compute; reflexivity.
Qed.

Lemma retained_items_only_gain_iso_witness :
  exists data l s,
    Some (PList Examples.mixed_news) = Some data
    /\ iter_items data = Ok l
    /\ sorted py_lt timestamp true l = Ok s
    /\ Forall2 enriched (firstn 20 s)
         [PDict [("headline", PStr "b");
                 ("datetime", PInt 1000000000000000000)];
          PDict [("headline", PStr "a"); ("datetime", PInt 1700000000);
                 ("datetime_iso", PStr "2023-11-14 22:13:20")];
          PDict [("headline", PStr "c");
                 ("datetime_iso", PStr "1970-01-01 00:00:00")]]
    /\ forall ts, num_of ts = None -> to_iso ts = None.
Proof.
  apply (retained_items_only_gain_iso "k" (Some (PList Examples.mixed_news))
           (PInt 3)).
  vm_compute. reflexivity.
Defined.

(** A NaN timestamp is neither below nor above any number: the items
    with the timestamps 1, NaN and 2 come back in this order, the
    older one before the newer one. *)
Example nan_timestamp_breaks_order :
  exists sample,
    pull_finnhub_news "k" (Some (PList Examples.nan_news))
    = Ok (PDict [("count", PInt 3); ("sample", PList sample)])
    /\ map (fun v => try_except (py_get v "id" PNone) (fun _ => PNone))
           sample
       = [PInt 1; PInt 2; PInt 3]
    /\ forallb num_ts Examples.nan_news = false.
Proof.
  eexists. split; [vm_compute; reflexivity|].
  split; vm_compute; reflexivity.
Qed.

(** Text and integer timestamps do not compare: the sort raises and
    the sampler returns nothing. *)
Example mixed_timestamp_types_raise :
  pull_finnhub_news "k"
    (Some (PList (Examples.text_ts_news ++ Examples.mixed_news)))
  = Raise (TypeError "'<' not supported between instances").
Proof. vm_compute. reflexivity. Qed.

(** An item whose timestamp is text is returned as it is. *)
Example text_timestamp_is_kept :
  pull_finnhub_news "k" (Some (PList Examples.text_ts_news))
  = Ok (PDict [("count", PInt 1);
               ("sample", PList Examples.text_ts_news)]).
Proof. vm_compute. reflexivity. Qed.

End NewsOnReferenceLibrary.


(** ** Persistence *)

Section JsonFacts.
Import Hub.

Lemma load_dump (v : pyval) : json_load (json_dump v) = tuples_to_lists v.
Proof.
  induction v as [| | | | |l IH|l IH|d IH] using pyval_induction;
    cbn; try reflexivity.
  - f_equal. rewrite map_map. apply map_ext_Forall. exact IH.
  - f_equal. rewrite map_map. apply map_ext_Forall. exact IH.
  - f_equal. rewrite map_map. apply map_ext_Forall.
    rewrite Forall_forall in *. intros [k v] Hkv. cbn.
    f_equal. exact (IH _ Hkv).
Qed.

Lemma tuples_to_lists_id (v : pyval) :
  tuple_free v = true -> tuples_to_lists v = v.
Proof.
  induction v as [| | | | |l IH|l IH|d IH] using pyval_induction;
    cbn; try reflexivity; try discriminate; intros H.
  - f_equal. rewrite <- (map_id l) at 2. apply map_ext_Forall.
    rewrite forallb_forall in H. rewrite Forall_forall in *.
    intros x Hx. apply IH; auto.
  - f_equal. rewrite <- (map_id d) at 2. apply map_ext_Forall.
    rewrite forallb_forall in H. rewrite Forall_forall in *.
    intros [k v] Hkv. cbn. f_equal. apply (IH _ Hkv). exact (H _ Hkv).
Qed.

Lemma json_exact_tuple_free (v : pyval) :
  json_exact v = true -> tuple_free v = true.
Proof.
  induction v as [| | | | |l IH|l IH|d IH] using pyval_induction;
    cbn; try reflexivity; try discriminate; intros H.
  - rewrite forallb_forall in *. rewrite Forall_forall in IH.
    intros x Hx. apply IH; auto.
  - apply andb_prop in H. destruct H as [_ H].
    rewrite forallb_forall in *. rewrite Forall_forall in IH.
    intros kv Hkv. apply (IH _ Hkv). exact (H _ Hkv).
Qed.

Lemma dict_get_distinct (k : string) (v : pyval) (d : dict) :
  distinct (dict_keys d) = true -> In (k, v) d -> dict_get k d = Some v.
Proof.
  induction d as [|[k' v'] d IH]; cbn; [intros _ []|].
  intros H Hin. apply andb_prop in H. destruct H as [Hk Hd].
  destruct Hin as [Heq | Hin].
  - injection Heq as -> ->. now rewrite String.eqb_refl.
  - destruct (String.eqb_spec k k') as [-> | Hne]; [|now apply IH].
    exfalso. apply negb_true_iff in Hk.
    assert (existsb (String.eqb k') (dict_keys d) = true) as Hex.
    { apply existsb_exists. exists k'. split; [|apply String.eqb_refl].
      unfold dict_keys. change k' with (fst (k', v)). now apply in_map. }
    unfold dict_keys in *. rewrite Hex in Hk. discriminate.
Qed.

(** A value of the exact class equals itself under [==]. *)
Lemma py_eq_refl (v : pyval) : json_exact v = true -> py_eq v v = true.
Proof.
  induction v as [|b|z|f|s|l IH|l IH|d IH] using pyval_induction;
    cbn; try reflexivity; try discriminate; intros H.
  - destruct b; reflexivity.
  - apply Z.eqb_refl.
  - exact H.
  - apply String.eqb_refl.
  - rewrite forallb_forall in H.
    induction IH as [|x l Hx Hl IHl]; [reflexivity|].
    cbn [list_eqb]. rewrite Hx by (apply H; now left). cbn.
    apply IHl. intros y Hy. apply H. now right.
  - apply andb_prop in H. destruct H as [Hd Hv].
    rewrite Nat.eqb_refl. cbn. unfold sub_dict.
    rewrite forallb_forall in *. rewrite Forall_forall in IH.
    intros [k v] Hin. cbn [fst snd].
    rewrite (dict_get_distinct k v d Hd Hin).
    exact (IH _ Hin (Hv _ Hin)).
Qed.

End JsonFacts.

Section HubRoundTrip.
Context {L : PyLib}.
Import Hub.

Lemma load_after_write (fs : files) (path : string) (j : json) :
  load_raw_json (write_file fs path j) path = Ok (json_load j).
Proof.
  unfold load_raw_json, write_file. now rewrite String.eqb_refl.
Qed.

(** C9, as amended.  Reading back what the persistence helper wrote
    yields the value with every tuple replaced by the list of its
    elements and nothing else changed.  For a value that holds no
    tuple and no NaN the value read back is the original and compares
    equal to it. *)
Theorem persist_then_load (fs : files) (stamp ticker : string)
    (data : pyval) (out_dir : string) (filename : option string)
    (with_timestamp : bool) :
  let written :=
    persist_raw_json fs stamp ticker data out_dir filename with_timestamp in
  load_raw_json (snd written) (fst written) = Ok (tuples_to_lists data)
  /\ (json_exact data = true ->
      load_raw_json (snd written) (fst written) = Ok data
      /\ py_eq data data = true).
Proof.
  cbv zeta. unfold persist_raw_json. cbn [fst snd].
  rewrite load_after_write, load_dump. split; [reflexivity|].
  intros H. split; [|now apply py_eq_refl].
  now rewrite tuples_to_lists_id by now apply json_exact_tuple_free.
Qed.

End HubRoundTrip.

Section HubOnReferenceLibrary.
Existing Instance RefLib.ref.
Import Hub.

Lemma persist_then_load_witness :
  let data := Resolver.to_py (Resolver.resolve_ticker_to_cik
                                (Some [Examples.apple]) "aapl") in
  let written :=
    persist_raw_json Examples.no_files "20240105-101500" "AAPL" data
                     "reports" None true in
  load_raw_json (snd written) (fst written) = Ok (tuples_to_lists data)
  /\ load_raw_json (snd written) (fst written) = Ok data
  /\ py_eq data data = true.
Proof.
  cbv zeta.
  destruct (persist_then_load Examples.no_files "20240105-101500" "AAPL"
              (Resolver.to_py (Resolver.resolve_ticker_to_cik
                                 (Some [Examples.apple]) "aapl"))
              "reports" None true) as [H1 H2].
  split; [exact H1|]. split; apply H2; reflexivity.
Defined.

(** Against C9 as stated: the bundle collected for a ticker with price
    history holds the sample as tuples; what is read back holds lists
    and does not compare equal to the bundle. *)
Lemma bundle_round_trip_differs :
  exists bundle back,
    collect_raw_data Examples.full_world "AAPL" = Ok bundle
    /\ (let written :=
          persist_raw_json Examples.no_files "20240105-101500" "AAPL"
                           bundle "reports" None true in
        load_raw_json (snd written) (fst written) = Ok back)
    /\ py_eq back bundle = false.
Proof.
  destruct (collect_raw_data Examples.full_world "AAPL") as [bundle|e] eqn:E;
    [|vm_compute in E; discriminate].
  exists bundle, (tuples_to_lists bundle).
  split; [reflexivity|]. split.
  - cbv zeta. unfold persist_raw_json. cbn [fst snd].
    now rewrite load_after_write, load_dump.
  - vm_compute in E. injection E as <-. vm_compute. reflexivity.
Qed.

End HubOnReferenceLibrary.


(** * Further properties of the pipeline *)

(** ** Resolver *)

Section ResolverFacts.
Context {L : PyLib}.
Import Resolver Reading.

Lemma length_append_str (a b : string) :
  String.length (String.append a b) = (String.length a + String.length b)%nat.
Proof.
  induction a as [|c a IH]; cbn; [reflexivity | now rewrite IH].
Qed.

Lemma repeat_char_length (c : ascii) (n : nat) :
  String.length (repeat_char c n) = n.
Proof.
  induction n as [|n IH]; cbn; [reflexivity | now rewrite IH].
Qed.

Lemma is_ascii_append (a b : string) :
  is_ascii (String.append a b) = is_ascii a && is_ascii b.
Proof.
  induction a as [|c a IH]; [reflexivity|].
  cbn [String.append is_ascii]. rewrite IH. apply andb_assoc.
Qed.

Lemma is_ascii_zeros (n : nat) : is_ascii (repeat_char "0"%char n) = true.
Proof. induction n as [|n IH]; [reflexivity | exact IH]. Qed.

Lemma is_ascii_digits (d : Decimal.uint) :
  is_ascii (NilEmpty.string_of_uint d) = true.
Proof. induction d; [reflexivity | exact IHd ..]. Qed.

Lemma is_ascii_uint (d : Decimal.uint) :
  is_ascii (NilZero.string_of_uint d) = true.
Proof. destruct d; [reflexivity | apply is_ascii_digits ..]. Qed.

(** The decimal text of an int is ASCII. *)
Lemma is_ascii_str_of_Z (z : Z) : is_ascii (str_of_Z z) = true.
Proof.
  unfold str_of_Z, NilZero.string_of_int.
  destruct (Z.to_int z); [|cbn [is_ascii]]; apply is_ascii_uint.
Qed.

(** [zfill] pads ASCII text to the width and never cuts. *)
Lemma zfill_length (width : nat) (s : string) :
  is_ascii s = true ->
  str_len (zfill str_len width s) = Nat.max width (String.length s).
Proof.
  intros Hs. unfold zfill. rewrite (str_len_ascii s Hs).
  destruct s as [|c s].
  - rewrite str_len_ascii by apply is_ascii_zeros.
    rewrite repeat_char_length. cbn. lia.
  - cbn [is_ascii] in Hs. apply andb_prop in Hs. destruct Hs as [Hc Hs].
    destruct (Ascii.eqb c "-" || Ascii.eqb c "+")%bool.
    + rewrite str_len_ascii
        by (cbn [is_ascii]; now rewrite Hc, is_ascii_append, is_ascii_zeros).
      cbn [String.length].
      rewrite length_append_str, repeat_char_length. cbn [String.length]. lia.
    + rewrite str_len_ascii
        by (rewrite is_ascii_append, is_ascii_zeros; cbn [is_ascii];
            now rewrite Hc, Hs).
      rewrite length_append_str, repeat_char_length. cbn [String.length]. lia.
Qed.

(** *** One record *)

Lemma try_entry_no_match (ticker : string) (e : pyval) :
  no_match ticker e -> try_entry ticker e = Ok None.
Proof.
  intros [t [Ht Hne]]. unfold try_entry. rewrite Ht. cbn [bind py_upper].
  destruct (String.eqb_spec (str_upper t) (str_upper ticker));
    [contradiction | reflexivity].
Qed.

Lemma try_entry_none (ticker : string) (e : pyval) :
  try_entry ticker e = Ok None -> no_match ticker e.
Proof.
  unfold try_entry, no_match.
  destruct (subscript e "ticker") as [v|]; [|discriminate]. cbn [bind].
  destruct v as [| | | |t| | |]; try discriminate. cbn [py_upper bind].
  destruct (String.eqb_spec (str_upper t) (str_upper ticker)).
  - destruct (subscript e "cik_str"); [|discriminate]. cbn [bind].
    destruct (py_get e "title" (PStr "Unknown")); discriminate.
  - intros _. now exists t.
Qed.

(** A record that carries the symbol: it is an object with a text
    symbol and a [cik_str], and the resolution is built from it. *)
Lemma try_entry_some (ticker : string) (e : pyval) (r : resolved) :
  try_entry ticker e = Ok (Some r) ->
  exists d t c,
    e = PDict d
    /\ dict_get "ticker" d = Some (PStr t)
    /\ str_upper t = str_upper ticker
    /\ dict_get "cik_str" d = Some c
    /\ r = {| r_ticker := str_upper ticker;
              r_cik := zfill str_len 10 (py_str c);
              r_title := get_default "title" (PStr "Unknown") d |}.
Proof.
  unfold try_entry.
  destruct e as [| | | | | | |d]; try discriminate.
  cbn [subscript].
  destruct (dict_get "ticker" d) as [v|] eqn:Et; [|discriminate].
  cbn [of_option bind].
  destruct v as [| | | |t| | |]; try discriminate. cbn [py_upper bind].
  destruct (String.eqb_spec (str_upper t) (str_upper ticker)) as [Hu|];
    [|discriminate].
  destruct (dict_get "cik_str" d) as [c|] eqn:Ec; [|discriminate].
  cbn [of_option bind py_get]. intros H. injection H as <-.
  exists d, t, c. repeat split; assumption.
Qed.

Lemma try_entry_broken (ticker : string) (e : pyval) :
  broken ticker e -> exists ex, try_entry ticker e = Raise ex.
Proof.
  unfold try_entry. intros [H | [t [Ht [Hu Hc]]]].
  - destruct (subscript e "ticker") as [v|ex]; [|eexists; reflexivity].
    cbn [bind]. destruct v; try (eexists; reflexivity).
    now exfalso; apply (H s).
  - rewrite Ht. cbn [bind py_upper]. rewrite Hu, String.eqb_refl.
    destruct (subscript e "cik_str") as [c|ex]; [|eexists; reflexivity].
    now exfalso; apply (Hc c).
Qed.

Lemma try_entry_raise (ticker : string) (e : pyval) (ex : exn) :
  try_entry ticker e = Raise ex -> broken ticker e.
Proof.
  unfold try_entry, broken.
  destruct (subscript e "ticker") as [v|] eqn:Ev;
    [|intros _; left; intros t; discriminate].
  cbn [bind].
  destruct v as [| | | |t| | |];
    try (intros _; left; intros t' Ht'; discriminate).
  cbn [py_upper bind].
  destruct (String.eqb_spec (str_upper t) (str_upper ticker)) as [Hu|];
    [|discriminate].
  destruct (subscript e "cik_str") as [c|] eqn:Ec.
  - cbn [bind]. destruct e as [| | | | | | |d]; try discriminate.
  - intros _. right. exists t. split; [reflexivity|]. split; [exact Hu|].
    intros c. discriminate.
Qed.

(** *** The loop *)

Lemma scan_passes (ticker : string) (pre rest : list pyval) :
  Forall (no_match ticker) pre ->
  scan ticker (pre ++ rest) = scan ticker rest.
Proof.
  induction 1 as [|x pre Hx Hpre IH]; [reflexivity|].
  cbn [app scan]. now rewrite (try_entry_no_match _ _ Hx).
Qed.

(** The three ways in which the loop ends. *)
Lemma scan_spec (ticker : string) (entries : list pyval) :
  match scan ticker entries with
  | Ok None => Forall (no_match ticker) entries
  | Ok (Some r) =>
      exists pre e post,
        entries = pre ++ e :: post
        /\ Forall (no_match ticker) pre
        /\ try_entry ticker e = Ok (Some r)
  | Raise ex =>
      exists pre e post,
        entries = pre ++ e :: post
        /\ Forall (no_match ticker) pre
        /\ try_entry ticker e = Raise ex
  end.
Proof.
  induction entries as [|x entries IH]; cbn [scan]; [constructor|].
  destruct (try_entry ticker x) as [[r|]|ex] eqn:Ex; cbn [bind].
  - exists [], x, entries. repeat split; [constructor | exact Ex].
  - apply try_entry_none in Ex.
    destruct (scan ticker entries) as [[r|]|ex].
    + destruct IH as (pre & e & post & -> & Hpre & He).
      exists (x :: pre), e, post. repeat split; [|exact He].
      now constructor.
    + now constructor.
    + destruct IH as (pre & e & post & -> & Hpre & He).
      exists (x :: pre), e, post. repeat split; [|exact He].
      now constructor.
  - exists [], x, entries. repeat split; [constructor | exact Ex].
Qed.

(** X1. A resolved ticker comes from the first registry record whose
    symbol equals the request in upper case, every record before it
    having a text symbol that differs.  The returned symbol is the
    request in upper case; the identifier is the text of the record's
    [cik_str] padded with zeros to ten characters, a longer number
    being kept whole; and the title is the record's [title] member, or
    [Unknown] when it has none. *)
Theorem resolved_is_first_match (entries : list pyval)
    (ticker : string) (r : resolved) :
  resolve_ticker_to_cik (Some entries) ticker = Some r ->
  exists pre e post t c,
    entries = pre ++ PDict e :: post
    /\ Forall (no_match ticker) pre
    /\ dict_get "ticker" e = Some (PStr t)
    /\ str_upper t = str_upper ticker
    /\ dict_get "cik_str" e = Some c
    /\ r_ticker r = str_upper ticker
    /\ r_cik r = zfill str_len 10 (py_str c)
    /\ r_title r = get_default "title" (PStr "Unknown") e
    /\ (forall z, c = PInt z ->
          r_cik r = zfill str_len 10 (str_of_Z z)
          /\ str_len (r_cik r)
             = Nat.max 10 (String.length (str_of_Z z))).
Proof.
  unfold resolve_ticker_to_cik. pose proof (scan_spec ticker entries) as H.
  destruct (scan ticker entries) as [[r'|]|ex]; try discriminate.
  cbn [try_except]. intros E. injection E as ->.
  destruct H as (pre & x & post & -> & Hpre & Hx).
  destruct (try_entry_some _ _ _ Hx) as (d & t & c & -> & Ht & Hu & Hc & ->).
  exists pre, d, post, t, c. cbn [r_ticker r_cik r_title].
  repeat split; try assumption; subst c; cbn [py_str]; try reflexivity.
  apply zfill_length, is_ascii_str_of_Z.
Qed.

(** X2. Resolution yields nothing exactly when the registry could not
    be read, or every record has a text symbol that differs from the
    request in upper case, or the first record that is not such a one
    stops the loop with an exception: it has no text symbol, or it
    carries the symbol and has no [cik_str]. *)
Theorem unresolved_iff_no_match (registry : option (list pyval))
    (ticker : string) :
  resolve_ticker_to_cik registry ticker = None
  <-> match registry with
      | None => True
      | Some entries =>
          Forall (no_match ticker) entries
          \/ exists pre bad post,
               entries = pre ++ bad :: post
               /\ Forall (no_match ticker) pre
               /\ broken ticker bad
      end.
Proof.
  unfold resolve_ticker_to_cik. destruct registry as [entries|];
    [|split; auto].
  split.
  - pose proof (scan_spec ticker entries) as H.
    destruct (scan ticker entries) as [[r|]|ex]; [discriminate| |]; intros _.
    + now left.
    + right. destruct H as (pre & e & post & -> & Hpre & He).
      exists pre, e, post. repeat split; [exact Hpre|].
      exact (try_entry_raise _ _ _ He).
  - intros [H | (pre & bad & post & -> & Hpre & Hbad)].
    + rewrite <- (app_nil_r entries), (scan_passes _ _ _ H). reflexivity.
    + rewrite (scan_passes _ _ _ Hpre). cbn [scan].
      destruct (try_entry_broken _ _ Hbad) as [ex ->]. reflexivity.
Qed.

End ResolverFacts.

(** ** Filing facts *)

Section SecFacts.
Context {L : PyLib}.
Import SecFinancials Reading.

Lemma total_debt_of_locals (fetch_json : string -> option pyval)
    (cik : string) (v : locals) :
  locals_of fetch_json cik = Some v ->
  total_debt v = py_sum (debt_components fetch_json cik).
Proof.
  intros E. unfold debt_components. rewrite E.
  unfold locals_of in E.
  destruct (fetch_json (facts_url cik)) as [data|]; [|discriminate].
  destruct (truthy data); [|discriminate].
  injection E as <-. reflexivity.
Qed.

(** X3. The extractor returns either the empty dict, when the facts
    could not be fetched, or a dict with exactly the thirteen keys that
    the SEC agent requires, in the same order. *)
Theorem sec_result_keys (fetch_json : string -> option pyval)
    (cik : string) :
  exists d,
    pull_sec_financials fetch_json cik = PDict d
    /\ dict_keys d
       = if is_some (locals_of fetch_json cik)
         then SecAgent.required_fields else [].
Proof.
  rewrite pull_sec_financials_cases.
  destruct (locals_of fetch_json cik) as [v|]; eexists; split;
    reflexivity.
Qed.

(** X4. Every ratio in a result is determined by the fields that the
    same result reports: the two margins and the current ratio are the
    quotient of the reported operands, present exactly under the
    conditions tested on them, and [debt_to_equity] is the sum of the
    debt components over the reported equity. *)
Theorem ratios_follow_reported_fields (fetch_json : string -> option pyval)
    (cik : string) :
  let r := pull_sec_financials fetch_json cik in
  field "gross_margin" r
  = match float_field "revenue" r, float_field "gross_profit" r with
    | Some rev, Some gp =>
        if float_truthy rev then Some (PFloat (gp / rev)) else None
    | _, _ => None
    end
  /\ field "operating_margin" r
     = match float_field "revenue" r, float_field "operating_income" r with
       | Some rev, Some oi =>
           if float_truthy rev then Some (PFloat (oi / rev)) else None
       | _, _ => None
       end
  /\ field "current_ratio" r
     = match float_field "current_assets" r,
             float_field "current_liabilities" r with
       | Some ca, Some cl =>
           if float_truthy ca && float_truthy cl
           then Some (PFloat (ca / cl)) else None
       | _, _ => None
       end
  /\ field "debt_to_equity" r
     = match float_field "equity" r with
       | Some e =>
           if float_truthy e
           then Some (PFloat (py_sum (debt_components fetch_json cik) / e))
           else None
       | None => None
       end.
Proof.
  cbv zeta. rewrite pull_sec_financials_cases.
  destruct (locals_of fetch_json cik) as [v|] eqn:E;
    [|repeat split; reflexivity].
  rewrite <- (total_debt_of_locals _ _ _ E).
  unfold financials, float_field, field; cbn.
  repeat split.
  - destruct (revenue v) as [x|], (gross_profit v) as [y|]; cbn;
      try reflexivity; destruct (float_truthy x); reflexivity.
  - destruct (revenue v) as [x|], (operating_income v) as [y|]; cbn;
      try reflexivity; destruct (float_truthy x); reflexivity.
  - destruct (current_assets v) as [x|], (current_liabilities v) as [y|];
      cbn; try reflexivity;
      try (destruct (float_truthy x); reflexivity).
    destruct (float_truthy x), (float_truthy y); reflexivity.
  - destruct (equity v) as [x|]; cbn; try reflexivity.
    destruct (float_truthy x); reflexivity.
Qed.

Lemma get_us_gaap_without_facts (d : dict) (tag : string) :
  dict_get "facts" d = None -> get_us_gaap (PDict d) tag = None.
Proof.
  intros H. unfold get_us_gaap, get_us_gaap_body, subscript.
  rewrite H. reflexivity.
Qed.

(** X5. A fetched document that is a non-empty object without a
    [facts] member gives the thirteen keys, each bound to [None]; only
    a failed or empty fetch gives the empty dict. *)
Theorem document_without_facts (fetch_json : string -> option pyval)
    (cik : string) (d : dict) :
  fetch_json (facts_url cik) = Some (PDict d) ->
  d <> [] ->
  dict_get "facts" d = None ->
  pull_sec_financials fetch_json cik
  = PDict (map (fun k => (k, PNone)) SecAgent.required_fields).
Proof.
  intros Hf Hd Hn. unfold pull_sec_financials. rewrite Hf.
  destruct d as [|kv d']; [congruence|]. cbn [truthy].
  unfold extract, financials.
  rewrite !(get_us_gaap_without_facts _ _ Hn). reflexivity.
Qed.

(** X6. A tag whose units begin with an empty USD list is reported
    absent whatever other unit groups follow: the fallback takes the
    first unit group of the document, which is that empty list. *)
Theorem empty_usd_list_hides_other_units (facts : pyval) (tag : string)
    (tag_data rest : dict) :
  (f <- subscript facts "facts" ;;
   gaap <- subscript f "us-gaap" ;;
   subscript gaap tag) = Ok (PDict tag_data) ->
  dict_get "units" tag_data = Some (PDict (("USD", PList []) :: rest)) ->
  get_us_gaap facts tag = None.
Proof.
  intros Hpath Hunits. unfold get_us_gaap, get_us_gaap_body.
  destruct (subscript facts "facts") as [f|]; [|discriminate].
  cbn [bind] in *.
  destruct (subscript f "us-gaap") as [gaap|]; [|discriminate].
  cbn [bind] in *. rewrite Hpath. cbn [bind py_get].
  unfold get_default. rewrite Hunits. reflexivity.
Qed.

End SecFacts.

Section FactsOnReferenceLibrary.
Existing Instance RefLib.ref.
Import Resolver SecFinancials Reading.

Lemma resolved_is_first_match_witness :
  exists pre e post t c,
    AgentExamples.apple_twice = pre ++ PDict e :: post
    /\ Forall (no_match "AaPl") pre
    /\ dict_get "ticker" e = Some (PStr t)
    /\ str_upper t = str_upper "AaPl"
    /\ dict_get "cik_str" e = Some c
    /\ "AAPL" = str_upper "AaPl"
    /\ "0000320193" = zfill str_len 10 (py_str c)
    /\ PStr "Apple Inc." = get_default "title" (PStr "Unknown") e
    /\ (forall z, c = PInt z ->
          "0000320193" = zfill str_len 10 (str_of_Z z)
          /\ str_len "0000320193"
             = Nat.max 10 (String.length (str_of_Z z))).
Proof.
  apply (resolved_is_first_match AgentExamples.apple_twice "AaPl"
           {| r_ticker := "AAPL"; r_cik := "0000320193";
              r_title := PStr "Apple Inc." |}).
  reflexivity.
Defined.

(** A record without a symbol stops the resolution, although a later
    record carries the symbol. *)
Example record_without_symbol_stops_resolution :
  resolve_ticker_to_cik (Some AgentExamples.broken_registry) "AAPL" = None
  /\ resolve_ticker_to_cik (Some (tl (tl AgentExamples.broken_registry)))
                           "AAPL"
     <> None.
Proof. split; [reflexivity | discriminate]. Qed.

Lemma document_without_facts_witness :
  pull_sec_financials (Examples.serve (PDict [("cik", PInt 320193)]))
                      "0000320193"
  = PDict (map (fun k => (k, PNone)) SecAgent.required_fields).
Proof.
  apply (document_without_facts _ _ [("cik", PInt 320193)]).
  - reflexivity.
  - discriminate.
  - reflexivity.
Defined.

Lemma empty_usd_list_hides_other_units_witness :
  get_us_gaap AgentExamples.empty_usd_doc "Revenues" = None.
Proof.
  eapply (empty_usd_list_hides_other_units AgentExamples.empty_usd_doc
            "Revenues"
            [("units", PDict [("USD", PList []);
                              ("EUR", PList [Examples.fact 7])])]);
    reflexivity.
Defined.

End FactsOnReferenceLibrary.

(** ** Stability of the sort *)

Section Stability.
Import PureSort.
Context {A K : Type}.
Variable ltb : K -> K -> bool.
Variable p : K -> bool.
Hypothesis p_level : forall x y, p x = true -> p y = true -> ltb y x = false.





End Stability.

(** ** The sort as the code calls it *)

Section MonadicSort.
Context {A K : Type}.
Variable lt : K -> K -> result bool.

Lemma insert_perm (x : K * A) (l r : list (K * A)) :
  insert lt x l = Ok r -> Permutation r (x :: l).
Proof.
  revert r. induction l as [|y l IH]; cbn; intros r H.
  - injection H as <-. reflexivity.
  - destruct (lt (fst y) (fst x)) as [[|]|]; cbn in H; try discriminate.
    + destruct (insert lt x l) as [r'|]; cbn in H; [|discriminate].
      injection H as <-. rewrite (IH r' eq_refl). apply perm_swap.
    + injection H as <-. reflexivity.
Qed.

Lemma isort_perm (l r : list (K * A)) :
  isort lt l = Ok r -> Permutation r l.
Proof.
  revert r. induction l as [|x l IH]; cbn; intros r H.
  - injection H as <-. reflexivity.
  - destruct (isort lt l) as [r'|]; cbn in H; [|discriminate].
    rewrite (insert_perm _ _ _ H). apply perm_skip. now apply IH.
Qed.

Lemma mapM_decorated (key : A -> result K) (l : list A)
    (dl : list (K * A)) :
  mapM (fun a => bind (key a) (fun k => Ok (k, a))) l = Ok dl ->
  map snd dl = l.
Proof.
  revert dl. induction l as [|a l IH]; cbn; intros dl H.
  - injection H as <-. reflexivity.
  - destruct (key a) as [k|]; cbn in H; [|discriminate].
    destruct (mapM _ l) as [dl'|]; cbn in H; [|discriminate].
    injection H as <-. cbn. now rewrite (IH dl' eq_refl).
Qed.

(** Whenever [sorted] returns, it returns a rearrangement of its
    input. *)
Lemma sorted_perm (key : A -> result K) (reverse : bool) (l s : list A) :
  sorted lt key reverse l = Ok s -> Permutation s l.
Proof.
  unfold sorted.
  destruct (mapM _ l) as [dl|] eqn:E; cbn; [|discriminate].
  apply mapM_decorated in E. destruct reverse.
  - destruct (isort lt (rev dl)) as [r|] eqn:Er; cbn; [|discriminate].
    intros H. injection H as <-.
    rewrite <- Permutation_rev, (isort_perm _ _ Er), <- E.
    apply Permutation_map. symmetry. apply Permutation_rev.
  - destruct (isort lt dl) as [r|] eqn:Er; cbn; [|discriminate].
    intros H. injection H as <-.
    rewrite (isort_perm _ _ Er), <- E. reflexivity.
Qed.

End MonadicSort.

(** ** News sampler *)

Section NewsFacts.
Context {L : PyLib}.
Import FinnhubNews.

Lemma length_list_ascii (s : string) :
  List.length (list_ascii_of_string s) = String.length s.
Proof.
  induction s as [|c s IH]; cbn; [reflexivity | now rewrite IH].
Qed.

Lemma iter_items_len (data : pyval) (l : list pyval) :
  iter_items data = Ok l -> py_len data = Z.of_nat (List.length l).
Proof.
  destruct data; cbn; try discriminate; intros H; injection H as <-;
    rewrite ?length_map, ?length_list_ascii; reflexivity.
Qed.

Lemma iter_items_truthy (data : pyval) (l : list pyval) :
  iter_items data = Ok l -> truthy data = true -> l <> [].
Proof.
  destruct data as [| | | |s|l0|l0|d]; cbn; try discriminate;
    intros H; injection H as <-.
  - destruct s; cbn; [discriminate | intros _; discriminate].
  - destruct l0; [discriminate | intros _; discriminate].
  - destruct l0; [discriminate | intros _; discriminate].
  - destruct d; [discriminate | intros _; discriminate].
Qed.

(** X7. Whenever the sampler returns, it returns either a record whose
    only key is [error] or a digest with the keys [count] and
    [sample]; the sample never has more than 20 items nor more items
    than [count], and [count] is at least one. *)
Theorem news_result_shape (api_key : string) (fetched : option pyval)
    (r : pyval) :
  pull_finnhub_news api_key fetched = Ok r ->
  (exists e, r = PDict [("error", e)])
  \/ (exists n sample,
        r = PDict [("count", PInt n); ("sample", PList sample)]
        /\ (List.length sample <= 20)%nat
        /\ Z.of_nat (List.length sample) <= n
        /\ 0 < n).
Proof.
  unfold pull_finnhub_news.
  destruct (String.eqb api_key "");
    [intros H; injection H as <-; left; eauto|].
  set (data := match fetched with Some v => v | None => PNone end).
  destruct (negb (truthy data) || (is_dict data && truthy (error_field data)))
    eqn:Eg; [intros H; injection H as <-; left; eauto|].
  apply orb_false_elim in Eg. destruct Eg as [Ht _].
  apply negb_false_iff in Ht.
  destruct (iter_items data) as [l|] eqn:El; [|discriminate]. cbn [bind].
  destruct (sorted py_lt timestamp true l) as [s|] eqn:Es; [|discriminate].
  cbn [bind]. remember (firstn 20 s) as kept eqn:Ek.
  intros H. injection H as <-. right.
  exists (py_len data), (map enrich kept). split; [reflexivity|].
  pose proof (Permutation_length (sorted_perm _ _ _ _ _ Es)) as Hlen.
  pose proof (iter_items_truthy _ _ El Ht) as Hne.
  rewrite (iter_items_len _ _ El), length_map, Ek, length_firstn.
  destruct l; [congruence|]. cbn [List.length] in *. lia.
Qed.

(** X8. When the answer of the news source is a JSON object: an object
    with a truthy [error] member, and the empty object, are reported in
    the error shape with that member (or [None]) as the message; any
    other object makes the sampler raise [AttributeError], because the
    sort key is taken on the object's keys. *)
Theorem news_object_answer (api_key : string) (d : dict) :
  String.eqb api_key "" = false ->
  pull_finnhub_news api_key (Some (PDict d))
  = if match d with [] => true | _ => truthy (get_default "error" PNone d) end
    then Ok (PDict [("error", get_default "error" PNone d)])
    else Raise (AttributeError "object has no attribute 'get'").
Proof.
  intros Hk. unfold pull_finnhub_news. rewrite Hk.
  destruct d as [|kv d]; [reflexivity|].
  cbn [truthy negb orb is_dict andb error_field].
  destruct (truthy (get_default "error" PNone (kv :: d))); reflexivity.
Qed.

Lemma StronglySorted_app_inv {B} (R : B -> B -> Prop) (l1 l2 : list B) :
  StronglySorted R (l1 ++ l2) ->
  forall a b, In a l1 -> In b l2 -> R a b.
Proof.
  induction l1 as [|x l1 IH]; cbn; intros H a b Ha Hb; [destruct Ha|].
  inversion H as [|? ? Hs Hx]; subst.
  destruct Ha as [<- | Ha]; [|now apply IH].
  rewrite Forall_forall in Hx. apply Hx. apply in_or_app. now right.
Qed.

(** X9. With integer timestamps the items kept in the sample are the
    most recent ones: the fetched items split into the kept and the
    dropped ones, and no dropped item is more recent than a kept
    one. *)
Theorem kept_items_are_most_recent (api_key : string) (data : list pyval) :
  String.eqb api_key "" = false ->
  data <> [] ->
  forallb int_ts data = true ->
  exists kept dropped,
    Permutation (kept ++ dropped) data
    /\ pull_finnhub_news api_key (Some (PList data))
       = Ok (PDict [("count", PInt (Z.of_nat (List.length data)));
                    ("sample", PList (map enrich kept))])
    /\ List.length kept = Nat.min 20 (List.length data)
    /\ forall a b, In a kept -> In b dropped -> ts_of b <= ts_of a.
Proof.
  intros Hk Hne Hint.
  set (s := PureSort.sorted_desc Z.ltb ts_of data).
  exists (firstn 20 s), (skipn 20 s).
  pose proof (sorted_desc_perm Z.ltb ts_of data) as Hperm.
  rewrite firstn_skipn. repeat split.
  - exact Hperm.
  - destruct data as [|x data]; [congruence|].
    rewrite (pull_finnhub_news_items _ _ _ Hk).
    now rewrite (sorted_int_timestamps _ Hint).
  - rewrite length_firstn. f_equal. now apply Permutation_length.
  - apply (StronglySorted_app_inv (fun a b => ts_of b <= ts_of a)).
    rewrite firstn_skipn. apply sorted_desc_by_timestamp.
Qed.


End NewsFacts.

Section NewsFactsOnReferenceLibrary.
Existing Instance RefLib.ref.
Import FinnhubNews.

Lemma news_result_shape_witness :
  let r := try_except
             (pull_finnhub_news "k" (Some (PList Examples.mixed_news)))
             (fun _ => PNone) in
  (exists e, r = PDict [("error", e)])
  \/ (exists n sample,
        r = PDict [("count", PInt n); ("sample", PList sample)]
        /\ (List.length sample <= 20)%nat
        /\ Z.of_nat (List.length sample) <= n
        /\ 0 < n).
Proof.
  cbv zeta.
  apply (news_result_shape "k" (Some (PList Examples.mixed_news))).
  vm_compute. reflexivity.
Defined.

Lemma news_object_answer_witness :
  pull_finnhub_news "k" (Some (PDict [("s", PStr "no_data")]))
  = Raise (AttributeError "object has no attribute 'get'")
  /\ pull_finnhub_news "k" (Some (PDict [("error", PStr "limit")]))
     = Ok (PDict [("error", PStr "limit")])
  /\ pull_finnhub_news "k" (Some (PDict []))
     = Ok (PDict [("error", PNone)]).
Proof.
  split; [|split].
  - apply (news_object_answer "k" [("s", PStr "no_data")]). reflexivity.
  - apply (news_object_answer "k" [("error", PStr "limit")]). reflexivity.
  - apply (news_object_answer "k" []). reflexivity.
Defined.

Lemma kept_items_are_most_recent_witness :
  exists kept dropped,
    Permutation (kept ++ dropped) Examples.news25
    /\ pull_finnhub_news "k" (Some (PList Examples.news25))
       = Ok (PDict [("count",
                     PInt (Z.of_nat (List.length Examples.news25)));
                    ("sample", PList (map enrich kept))])
    /\ List.length kept = Nat.min 20 (List.length Examples.news25)
    /\ forall a b, In a kept -> In b dropped -> ts_of b <= ts_of a.
Proof.
  apply (kept_items_are_most_recent "k" Examples.news25).
  - reflexivity.
  - discriminate.
  - vm_compute. reflexivity.
Defined.


End NewsFactsOnReferenceLibrary.

(** ** Price analyzer *)

Section PriceFacts.
Context {L : PyLib}.
Import PriceTrend Reading.

(** X11. The analyzer returns either a record whose only key is
    [error], or a record with exactly the seven metric keys in which
    [latest_close] and [oldest_close] are numbers; there is no mixed
    shape. *)
Theorem price_result_shape (outcome : result (list row)) :
  (exists msg, pull_price_trend_yf outcome = PDict [("error", PStr msg)])
  \/ (exists d latest oldest,
        pull_price_trend_yf outcome = PDict d
        /\ dict_keys d = metric_keys
        /\ dict_get "latest_close" d = Some (PFloat latest)
        /\ dict_get "oldest_close" d = Some (PFloat oldest)).
Proof.
  unfold pull_price_trend_yf.
  destruct outcome as [h|e]; [|left; eexists; reflexivity]. cbn [bind].
  destruct h as [|r0 h]; [left; eexists; reflexivity|].
  unfold price_metrics, metrics_of.
  destruct (last_error _) as [[dl cl]|]; [|left; eexists; reflexivity].
  destruct (hd_error _) as [[d0 c0]|]; [|left; eexists; reflexivity].
  cbn [option_map of_option bind snd].
  destruct (logrets _) as [lr|]; [|left; eexists; reflexivity].
  cbn [bind].
  destruct (annualized_vol lr) as [vol|]; [|left; eexists; reflexivity].
  right. eexists. exists cl, c0. repeat split.
Qed.

Lemma lastn_length {B} (n : nat) (l : list B) :
  List.length (lastn n l) = Nat.min n (List.length l).
Proof. unfold lastn. rewrite length_skipn. lia. Qed.

Lemma last_skipn {B} (m : nat) (l : list B) (d : B) :
  (m < List.length l)%nat -> last (skipn m l) d = last l d.
Proof.
  revert l. induction m as [|m IH]; intros l H; [reflexivity|].
  destruct l as [|x l]; [cbn in H; lia|]. cbn [skipn].
  cbn in H. rewrite IH by lia.
  symmetry. apply last_cons_not_nil. destruct l; [cbn in H; lia|discriminate].
Qed.

Lemma last_lastn {B} (n : nat) (l : list B) (d : B) :
  (0 < n)%nat -> l <> [] -> last (lastn n l) d = last l d.
Proof.
  intros Hn Hl. unfold lastn. apply last_skipn.
  destruct l; [congruence|]. cbn [List.length]. lia.
Qed.

(** X12. In the normal shape the sample holds the last five rows of
    the close series, or all of them when there are fewer, as
    (date, close) pairs in order; its last pair carries
    [latest_close], and [oldest_close] is the first close. *)
Theorem sample_is_tail_of_series (hist : list row) (d0 : string)
    (c0 : float) (rest : list row) (lr : list float) (vol : pyval) :
  dropna hist = (d0, c0) :: rest ->
  logrets (map snd (dropna hist)) = Ok lr ->
  annualized_vol lr = Ok vol ->
  let r := pull_price_trend_yf (Ok hist) in
  let closes := dropna hist in
  exists sample latest,
    field "sample" r = Some (PList sample)
    /\ sample = map (fun x => PTuple [PStr (fst x); PFloat (snd x)])
                    (lastn 5 closes)
    /\ List.length sample = Nat.min 5 (List.length closes)
    /\ float_field "latest_close" r = Some latest
    /\ last sample PNone
       = PTuple [PStr (fst (last closes (d0, c0))); PFloat latest]
    /\ float_field "oldest_close" r = Some c0.
Proof.
  intros Hd Hl Hv. cbv zeta.
  rewrite (pull_price_trend_yf_metrics hist d0 c0 rest lr vol Hd Hl Hv).
  eexists. exists (snd (last rest (d0, c0))).
  split; [reflexivity|]. split; [reflexivity|].
  split; [now rewrite length_map, lastn_length|].
  split; [reflexivity|]. split; [|reflexivity].
  replace (last rest (d0, c0)) with (last (dropna hist) (d0, c0))
    by (rewrite Hd; apply last_cons_default).
  assert (dropna hist <> []) as Hne by (rewrite Hd; discriminate).
  rewrite <- (last_lastn 5 (dropna hist) (d0, c0)) by (lia || exact Hne).
  assert (lastn 5 (dropna hist) <> []) as Hne5.
  { intros E. apply (f_equal (@List.length _)) in E.
    rewrite lastn_length, Hd in E. cbn in E. lia. }
  destruct (lastn 5 (dropna hist)) as [|x t]; [congruence|].
  clear. revert x. induction t as [|y t IH]; intros x; [reflexivity|].
  change (last (map ?f (x :: y :: t)) PNone)
    with (last (map f (y :: t)) PNone).
  rewrite IH. reflexivity.
Qed.

(** Log returns exist exactly when two consecutive closes are both
    non-zero. *)
Lemma logrets_from_empty (prev : float) (rest lr : list float) :
  logrets_from prev rest = Ok lr ->
  match lr with [] => true | _ => false end
  = negb (has_usable_pair (prev :: rest)).
Proof.
  revert prev lr. induction rest as [|v rest IH]; intros prev lr.
  - cbn. intros H. injection H as <-. reflexivity.
  - cbn [logrets_from has_usable_pair].
    destruct (float_truthy prev && float_truthy v) eqn:E.
    + destruct (py_log _) as [r|]; [|discriminate]. cbn [bind].
      destruct (logrets_from v rest) as [rs|]; [|discriminate]. cbn [bind].
      intros H. injection H as <-. reflexivity.
    + intros H. rewrite (IH _ _ H). reflexivity.
Qed.

(** X13. In the normal shape [annualized_vol] is a number exactly when
    the close series has two consecutive non-zero closes; otherwise it
    is [None]. *)
Theorem volatility_needs_a_usable_pair (hist : list row) (d0 : string)
    (c0 : float) (rest : list row) (lr : list float) (vol : pyval) :
  dropna hist = (d0, c0) :: rest ->
  logrets (map snd (dropna hist)) = Ok lr ->
  annualized_vol lr = Ok vol ->
  is_some (float_field "annualized_vol" (pull_price_trend_yf (Ok hist)))
  = has_usable_pair (map snd (dropna hist)).
Proof.
  intros Hd Hl Hv.
  rewrite (pull_price_trend_yf_metrics hist d0 c0 rest lr vol Hd Hl Hv).
  revert Hl. rewrite Hd. cbn [map snd logrets]. intros Hl.
  apply logrets_from_empty in Hl.
  apply (f_equal negb) in Hl. rewrite negb_involutive in Hl.
  rewrite <- Hl. clear Hl.
  unfold annualized_vol in Hv. destruct lr as [|x lr].
  - injection Hv as <-. reflexivity.
  - destruct (pstdev _) as [sd|]; [|discriminate].
    cbn in Hv. injection Hv as <-. reflexivity.
Qed.

End PriceFacts.

Section PriceFactsOnReferenceLibrary.
Existing Instance RefLib.ref.
Import PriceTrend Reading.

Lemma sample_is_tail_of_series_witness :
  let r := pull_price_trend_yf (Ok Examples.rising) in
  let closes := dropna Examples.rising in
  exists sample latest,
    field "sample" r = Some (PList sample)
    /\ sample = map (fun x => PTuple [PStr (fst x); PFloat (snd x)])
                    (lastn 5 closes)
    /\ List.length sample = Nat.min 5 (List.length closes)
    /\ float_field "latest_close" r = Some latest
    /\ last sample PNone
       = PTuple [PStr (fst (last closes ("2024-01-01", 100%float)));
                 PFloat latest]
    /\ float_field "oldest_close" r = Some 100%float.
Proof.
  pose (lr := try_except (logrets (map snd (dropna Examples.rising)))
                         (fun _ => [])).
  apply (sample_is_tail_of_series Examples.rising "2024-01-01"
           100%float (tl (dropna Examples.rising)) lr
           (try_except (annualized_vol lr) (fun _ => PNone)));
    vm_compute; reflexivity.
Defined.

Lemma volatility_needs_a_usable_pair_witness :
  is_some (float_field "annualized_vol"
             (pull_price_trend_yf (Ok Examples.rising)))
  = has_usable_pair (map snd (dropna Examples.rising)).
Proof.
  pose (lr := try_except (logrets (map snd (dropna Examples.rising)))
                         (fun _ => [])).
  apply (volatility_needs_a_usable_pair Examples.rising "2024-01-01"
           100%float (tl (dropna Examples.rising)) lr
           (try_except (annualized_vol lr) (fun _ => PNone)));
    vm_compute; reflexivity.
Defined.

End PriceFactsOnReferenceLibrary.

(** ** Aggregation and persistence *)

Section HubFacts.
Context {L : PyLib}.
Import Hub.

Lemma pull_sec_financials_is_dict (fetch_json : string -> option pyval)
    (cik : string) :
  exists d, SecFinancials.pull_sec_financials fetch_json cik = PDict d.
Proof.
  rewrite pull_sec_financials_cases.
  destruct (SecFinancials.locals_of fetch_json cik); eexists; reflexivity.
Qed.

Lemma pull_price_trend_yf_is_dict (outcome : result (list PriceTrend.row)) :
  exists d, PriceTrend.pull_price_trend_yf outcome = PDict d.
Proof.
  unfold PriceTrend.pull_price_trend_yf.
  destruct outcome as [h|e]; [|eexists; reflexivity]. cbn [bind].
  destruct h as [|r0 h]; [eexists; reflexivity|].
  unfold PriceTrend.price_metrics, PriceTrend.metrics_of.
  destruct (last_error _) as [[dl cl]|]; [|eexists; reflexivity].
  destruct (hd_error _) as [[d0 c0]|]; [|eexists; reflexivity].
  cbn [option_map of_option bind snd].
  destruct (PriceTrend.logrets _) as [lr|]; [|eexists; reflexivity].
  cbn [bind].
  destruct (PriceTrend.annualized_vol lr) as [vol|]; eexists; reflexivity.
Qed.

(** X14. For a ticker that the registry resolves, the outcome of the
    aggregation is decided by the news sampler alone: whatever the SEC
    and price sources do, their sections are dicts in the bundle, the
    bundle has the four keys [meta], [sec], [prices], [news] in that
    order, and the call raises exactly when the news sampler raises,
    with the same exception. *)
Theorem failures_of_sec_and_prices_are_absorbed (w : world)
    (ticker : string) (r : Resolver.resolved) :
  Resolver.resolve_ticker_to_cik (registry w) ticker = Some r ->
  exists sec prices,
    SecFinancials.pull_sec_financials (sec_fetch_json w) (Resolver.r_cik r)
    = PDict sec
    /\ PriceTrend.pull_price_trend_yf (history w ticker) = PDict prices
    /\ (forall news,
          FinnhubNews.pull_finnhub_news (FINNHUB_API_KEY w)
            (company_news w ticker) = Ok news ->
          collect_raw_data w ticker
          = Ok (PDict [("meta", Resolver.to_py (Some r));
                       ("sec", PDict sec);
                       ("prices", PDict prices);
                       ("news", news)]))
    /\ (forall e,
          FinnhubNews.pull_finnhub_news (FINNHUB_API_KEY w)
            (company_news w ticker) = Raise e ->
          collect_raw_data w ticker = Raise e).
Proof.
  intros Hr.
  destruct (pull_sec_financials_is_dict (sec_fetch_json w) (Resolver.r_cik r))
    as [sec Hs].
  destruct (pull_price_trend_yf_is_dict (history w ticker)) as [prices Hp].
  exists sec, prices. split; [exact Hs|]. split; [exact Hp|].
  unfold collect_raw_data. rewrite Hr. cbn [Resolver.get_cik bind].
  rewrite Hs, Hp.
  split; intros x Hx; rewrite Hx; reflexivity.
Qed.

(** X16. The path written does not depend on the data or on the
    store, and of two writes under the same names the later one
    replaces the earlier: the path then reads as the second bundle. *)
Theorem later_write_replaces_earlier (fs : files) (stamp ticker : string)
    (d1 d2 : pyval) (out_dir : string) (filename : option string)
    (with_timestamp : bool) :
  let w1 := persist_raw_json fs stamp ticker d1 out_dir filename
                             with_timestamp in
  let w2 := persist_raw_json (snd w1) stamp ticker d2 out_dir filename
                             with_timestamp in
  fst w2 = fst w1
  /\ load_raw_json (snd w2) (fst w1) = Ok (tuples_to_lists d2).
Proof.
  cbv zeta. split; [reflexivity|].
  unfold persist_raw_json. cbn [fst snd].
  rewrite load_after_write. f_equal. apply load_dump.
Qed.

Lemma tuples_to_lists_tuple_free (v : pyval) :
  tuple_free (tuples_to_lists v) = true.
Proof.
  induction v as [| | | | |l IH|l IH|d IH] using pyval_induction;
    try reflexivity.
  - cbn. rewrite forallb_forall. intros x Hx.
    apply in_map_iff in Hx. destruct Hx as [y [<- Hy]].
    rewrite Forall_forall in IH. now apply IH.
  - cbn. rewrite forallb_forall. intros x Hx.
    apply in_map_iff in Hx. destruct Hx as [y [<- Hy]].
    rewrite Forall_forall in IH. now apply IH.
  - cbn. rewrite forallb_forall. intros x Hx.
    apply in_map_iff in Hx. destruct Hx as [y [<- Hy]]. cbn [snd].
    rewrite Forall_forall in IH. now apply (IH y).
Qed.

Lemma json_load_tuple_free (j : json) : tuple_free (json_load j) = true.
Proof.
  revert j. fix IH 1. intros [| | | | |l|o]; try reflexivity.
  - cbn. induction l as [|x l IHl]; [reflexivity|].
    cbn. rewrite (IH x). exact IHl.
  - cbn. induction o as [|[k x] o IHo]; [reflexivity|].
    cbn. rewrite (IH x). exact IHo.
Qed.

(** X17. What has been read back from a file survives every further
    round trip unchanged: written again, under any names and into any
    store, it is read back exactly. *)
Theorem reread_bundle_round_trips (fs fs2 : files)
    (stamp ticker out_dir : string) (filename : option string)
    (with_timestamp : bool) (path : string) (back : pyval) :
  load_raw_json fs path = Ok back ->
  let written := persist_raw_json fs2 stamp ticker back out_dir filename
                                  with_timestamp in
  load_raw_json (snd written) (fst written) = Ok back.
Proof.
  intros Hb. cbv zeta. unfold persist_raw_json. cbn [fst snd].
  rewrite load_after_write. f_equal. rewrite load_dump.
  apply tuples_to_lists_id.
  unfold load_raw_json in Hb.
  destruct (fs path) as [j|]; [|discriminate]. injection Hb as <-.
  apply json_load_tuple_free.
Qed.

End HubFacts.

Section HubFactsOnReferenceLibrary.
Existing Instance RefLib.ref.
Import Hub.

Lemma failures_of_sec_and_prices_are_absorbed_witness :
  exists sec prices,
    SecFinancials.pull_sec_financials
      (sec_fetch_json AgentExamples.degraded_world) "0000320193"
    = PDict sec
    /\ PriceTrend.pull_price_trend_yf
         (history AgentExamples.degraded_world "aapl") = PDict prices
    /\ (forall news,
          FinnhubNews.pull_finnhub_news
            (FINNHUB_API_KEY AgentExamples.degraded_world)
            (company_news AgentExamples.degraded_world "aapl") = Ok news ->
          collect_raw_data AgentExamples.degraded_world "aapl"
          = Ok (PDict [("meta",
                        PDict [("ticker", PStr "AAPL");
                               ("cik", PStr "0000320193");
                               ("title", PStr "Apple Inc.")]);
                       ("sec", PDict sec);
                       ("prices", PDict prices);
                       ("news", news)]))
    /\ (forall e,
          FinnhubNews.pull_finnhub_news
            (FINNHUB_API_KEY AgentExamples.degraded_world)
            (company_news AgentExamples.degraded_world "aapl") = Raise e ->
          collect_raw_data AgentExamples.degraded_world "aapl" = Raise e).
Proof.
  apply (failures_of_sec_and_prices_are_absorbed
           AgentExamples.degraded_world "aapl"
           {| Resolver.r_ticker := "AAPL"; Resolver.r_cik := "0000320193";
              Resolver.r_title := PStr "Apple Inc." |}).
  reflexivity.
Defined.

Lemma reread_bundle_round_trips_witness :
  let written := persist_raw_json Examples.no_files "" "X" (PInt 7)
                                  "out" (Some "again.json") false in
  load_raw_json (snd written) (fst written) = Ok (PInt 7).
Proof.
  cbv zeta.
  apply (reread_bundle_round_trips AgentExamples.one_file Examples.no_files
           "" "X" "out" (Some "again.json") false "reports/old.json"
           (PInt 7)).
  reflexivity.
Defined.

End HubFactsOnReferenceLibrary.

(** ** The agents *)

Section ParseFacts.
Context {J : JsonText}.
Import AgentCommon.

Lemma find_char_append (c : ascii) (a b : string) :
  find_char c (String.append a b)
  = match find_char c a with
    | Some i => Some i
    | None => option_map (Nat.add (String.length a)) (find_char c b)
    end.
Proof.
  induction a as [|x a IH]; cbn.
  - destruct (find_char c b); reflexivity.
  - destruct (Ascii.eqb x c); [reflexivity|]. rewrite IH.
    destruct (find_char c a); [reflexivity|].
    destruct (find_char c b); reflexivity.
Qed.

Lemma rfind_char_append (c : ascii) (a b : string) :
  rfind_char c (String.append a b)
  = match rfind_char c b with
    | Some i => Some (String.length a + i)%nat
    | None => rfind_char c a
    end.
Proof.
  induction a as [|x a IH]; cbn.
  - destruct (rfind_char c b); reflexivity.
  - rewrite IH. destruct (rfind_char c b); reflexivity.
Qed.

Lemma substring_skip (a b : string) (n : nat) :
  substring (String.length a) n (String.append a b) = substring 0 n b.
Proof. induction a as [|x a IH]; [reflexivity | exact IH]. Qed.

Lemma substring_prefix (a b : string) :
  substring 0 (String.length a) (String.append a b) = a.
Proof.
  induction a as [|x a IH]; cbn.
  - destruct b; reflexivity.
  - now rewrite IH.
Qed.

(** X18. Brace snipping: when the whole answer is not JSON, what lies
    before its first opening brace and after its last closing brace is
    discarded, and the result is what the text between them (braces
    included) parses to, or the fallback when that text does not parse
    either. *)
Theorem brace_snipping (pre mid suf : string) (fallback : pyval) (e : exn) :
  find_char lbrace pre = None ->
  rfind_char rbrace suf = None ->
  let body := String lbrace (String.append mid (String rbrace "")) in
  let txt := String.append pre (String.append body suf) in
  json_loads txt = Raise e ->
  is_decode_error e = true ->
  safe_parse_json txt fallback
  = Ok (try_except (json_loads body) (fun _ => fallback)).
Proof.
  intros Hpre Hsuf body txt Hl He.
  unfold safe_parse_json. rewrite Hl, He.
  assert (find_char lbrace txt = Some (String.length pre)) as ->.
  { unfold txt. rewrite find_char_append, Hpre. cbn.
    f_equal. lia. }
  assert (rfind_char rbrace txt
          = Some (String.length pre + S (String.length mid))%nat) as ->.
  { unfold txt, body. rewrite rfind_char_append.
    cbn [String.append rfind_char].
    rewrite rfind_char_append, Hsuf, rfind_char_append. cbn.
    f_equal. lia. }
  replace (String.length pre <? String.length pre + S (String.length mid))%nat
    with true by (symmetry; apply Nat.ltb_lt; lia).
  replace (String.length pre + S (String.length mid) + 1 - String.length pre)%nat
    with (String.length body)
    by (unfold body; cbn; rewrite length_append_str; cbn; lia).
  unfold txt. rewrite substring_skip, substring_prefix. reflexivity.
Qed.

(** X19. After a decode error on the whole answer the parse helper
    always returns normally, and it returns the fallback whenever the
    answer has no opening brace, no closing brace, or its last closing
    brace does not come after its first opening brace. *)
Theorem unparsable_answer_falls_back (txt : string) (fallback : pyval)
    (e : exn) :
  json_loads txt = Raise e ->
  is_decode_error e = true ->
  exists v,
    safe_parse_json txt fallback = Ok v
    /\ (match find_char lbrace txt, rfind_char rbrace txt with
        | Some start, Some stop => (stop <= start)%nat
        | _, _ => True
        end -> v = fallback).
Proof.
  intros Hl He. unfold safe_parse_json. rewrite Hl, He.
  destruct (find_char lbrace txt) as [start|];
    [|eexists; split; reflexivity].
  destruct (rfind_char rbrace txt) as [stop|];
    [|eexists; split; reflexivity].
  destruct (Nat.ltb_spec start stop) as [Hlt|Hge].
  - eexists. split; [reflexivity|]. intros H. lia.
  - eexists. split; reflexivity.
Qed.

End ParseFacts.

Section SecAgentFacts.
Context {J : JsonText} {L : PyLib}.
Import AgentCommon SecAgent Reading.

Lemma existsb_keys (k : string) (d : dict) :
  existsb (String.eqb k) (dict_keys d) = is_some (dict_get k d).
Proof.
  induction d as [|[k' v] d IH]; [reflexivity|]. cbn.
  destruct (String.eqb k k'); [reflexivity | exact IH].
Qed.

Lemma is_missing_dict (d : dict) (k : string) :
  is_missing (PDict d) k = Ok (absent d k).
Proof.
  unfold is_missing, contains, absent, field. rewrite existsb_keys.
  cbn [bind subscript].
  destruct (dict_get k d) as [v|]; [|reflexivity].
  destruct v; reflexivity.
Qed.

Lemma filterM_pure {A} (f : A -> result bool) (g : A -> bool) (l : list A) :
  (forall x, f x = Ok (g x)) ->
  SecFinancials.filterM f l = Ok (filter g l).
Proof.
  intros H. induction l as [|a l IH]; [reflexivity|].
  cbn. rewrite H, IH. cbn. destruct (g a); reflexivity.
Qed.

Lemma missing_fields (d : dict) :
  SecFinancials.filterM (is_missing (PDict d)) required_fields
  = Ok (filter (absent d) required_fields).
Proof. apply filterM_pure. intros k. apply is_missing_dict. Qed.

(** The test of the required fields, for metrics that are a dict. *)
Lemma analyze_sec_financials_required (raw : result string) (d : dict)
    (ticker_hint : option string) :
  analyze_sec_financials raw (PDict d) ticker_hint
  = match filter (absent d) required_fields with
    | [] =>
        raw_text <- raw ;;
        parsed <- safe_parse_json raw_text empty_payload ;;
        parsed <- fill_missing default_for SEC_JSON_SCHEMA parsed ;;
        Ok (PDict [("metrics", PDict d);
                   ("analysis_json", parsed);
                   ("raw_model_text", PStr raw_text)])
    | missing =>
        Ok (PDict [("error",
                    PStr (String.append "Missing required SEC fields: "
                                        (repr_strs missing)))])
    end.
Proof.
  unfold analyze_sec_financials. rewrite missing_fields. cbn [bind].
  destruct (filter (absent d) required_fields); reflexivity.
Qed.

(** X20. When a required field is absent from the metrics, the SEC
    agent returns the error shape without consulting the model: the
    message lists exactly the absent fields, in the order of the
    required list, whatever the model call would have done. *)
Theorem missing_fields_are_reported (raw : result string) (d : dict)
    (ticker_hint : option string) :
  filter (absent d) required_fields <> [] ->
  analyze_sec_financials raw (PDict d) ticker_hint
  = Ok (PDict [("error",
                PStr (String.append "Missing required SEC fields: "
                        (repr_strs (filter (absent d) required_fields))))]).
Proof.
  intros Hne. rewrite analyze_sec_financials_required.
  destruct (filter (absent d) required_fields); [congruence | reflexivity].
Qed.

(** X21. A filer whose debt components sum to zero, and a filer whose
    facts could not be fetched, are never analysed: on the extractor's
    result the SEC agent returns the missing-fields error, and
    [total_debt] is among the fields it lists. *)
Theorem debt_free_filer_is_not_analysed (raw : result string)
    (fetch_json : string -> option pyval) (cik : string)
    (ticker_hint : option string) :
  float_truthy (SecFinancials.py_sum
                  (SecFinancials.debt_components fetch_json cik)) = false ->
  exists d missing,
    SecFinancials.pull_sec_financials fetch_json cik = PDict d
    /\ missing = filter (absent d) required_fields
    /\ In "total_debt" missing
    /\ analyze_sec_financials raw
         (SecFinancials.pull_sec_financials fetch_json cik) ticker_hint
       = Ok (PDict [("error",
                     PStr (String.append "Missing required SEC fields: "
                                         (repr_strs missing)))]).
Proof.
  intros Hz.
  assert (exists d, SecFinancials.pull_sec_financials fetch_json cik = PDict d
                    /\ absent d "total_debt" = true) as [d [Hd Ha]].
  { rewrite pull_sec_financials_cases.
    destruct (SecFinancials.locals_of fetch_json cik) as [v|] eqn:E.
    - eexists. split; [reflexivity|].
      unfold absent, field. cbn.
      rewrite (total_debt_of_locals _ _ _ E), Hz. reflexivity.
    - exists []. split; reflexivity. }
  assert (In "total_debt" (filter (absent d) required_fields)) as Hin.
  { apply filter_In. split; [|exact Ha]. cbn. tauto. }
  exists d, (filter (absent d) required_fields).
  split; [exact Hd|]. split; [reflexivity|]. split; [exact Hin|].
  rewrite Hd, analyze_sec_financials_required.
  destruct (filter (absent d) required_fields); [destruct Hin | reflexivity].
Qed.

End SecAgentFacts.

Section FillFacts.
Import AgentCommon.

(** Filling an object with the defaults of a schema keeps what the
    object holds, binds every key of the schema, and adds nothing but
    defaults of the schema. *)
Lemma fill_missing_dict (default : pyval -> pyval) (schema p : dict) :
  exists p',
    fill_missing default schema (PDict p) = Ok (PDict p')
    /\ (forall k v, dict_get k p = Some v -> dict_get k p' = Some v)
    /\ (forall k, In k (dict_keys schema) -> is_some (dict_get k p') = true)
    /\ (forall k v, dict_get k p = None -> dict_get k p' = Some v ->
         exists t, In (k, t) schema /\ v = default t).
Proof.
  revert p. induction schema as [|[k0 t0] schema IH]; intros p.
  - exists p. split; [reflexivity|]. split; [auto|].
    split; [intros k []|]. intros k v H1 H2. congruence.
  - cbn [fill_missing contains bind]. rewrite existsb_keys.
    destruct (dict_get k0 p) as [v0|] eqn:E0; cbn [is_some bind].
    + destruct (IH p) as [p' [Hf [Hkeep [Hkeys Hnew]]]].
      exists p'. split; [exact Hf|]. split; [exact Hkeep|]. split.
      * intros k [<- | Hk]; [|now apply Hkeys].
        cbn [fst]. now rewrite (Hkeep _ _ E0).
      * intros k v H1 H2. destruct (Hnew k v H1 H2) as [t [Ht ->]].
        exists t. split; [now right | reflexivity].
    + cbn [set_item bind].
      destruct (IH (dict_set k0 (default t0) p))
        as [p' [Hf [Hkeep [Hkeys Hnew]]]].
      exists p'. split; [exact Hf|]. split; [|split].
      * intros k v Hk. apply Hkeep.
        rewrite dict_get_set_other; [exact Hk | congruence].
      * intros k [<- | Hk]; [|now apply Hkeys].
        cbn [fst]. now rewrite (Hkeep _ _ (dict_get_set_same _ _ _)).
      * intros k v H1 H2. destruct (String.eqb_spec k k0) as [-> | Hne].
        -- exists t0. split; [now left|].
           rewrite (Hkeep _ _ (dict_get_set_same _ _ _)) in H2. congruence.
        -- rewrite <- (dict_get_set_other k0 k (default t0) p Hne) in H1.
           destruct (Hnew k v H1 H2) as [t [Ht ->]].
           exists t. split; [now right | reflexivity].
Qed.


(** An array that lacks a key of the schema cannot be filled. *)
Lemma fill_missing_list (default : pyval -> pyval) (schema : dict)
    (l : list pyval) (k : string) :
  In k (dict_keys schema) ->
  existsb (py_eq (PStr k)) l = false ->
  fill_missing default schema (PList l)
  = Raise (TypeError "list indices must be integers or slices, not str").
Proof.
  intros Hin Hk. induction schema as [|[k0 t0] schema IH]; [destruct Hin|].
  cbn [fill_missing contains bind].
  destruct (existsb (py_eq (PStr k0)) l) eqn:E0; cbn [bind].
  - apply IH. destruct Hin as [H | H]; [|exact H].
    cbn in H. subst. congruence.
  - reflexivity.
Qed.

End FillFacts.

Section SecAgentResults.
Context {J : JsonText}.
Import AgentCommon SecAgent Reading.

(** X22. When every required field is present and the model's answer
    parses to an object, the SEC agent returns the metrics unchanged
    and the raw text, and an analysis object that keeps every member
    of the model's object, binds all eight keys of the schema, and
    holds beyond the model's members only empty lists and empty
    strings. *)
Theorem sec_analysis_is_completed (raw_text : string) (d p : dict)
    (ticker_hint : option string) :
  filter (absent d) required_fields = [] ->
  safe_parse_json raw_text empty_payload = Ok (PDict p) ->
  exists p',
    analyze_sec_financials (Ok raw_text) (PDict d) ticker_hint
    = Ok (PDict [("metrics", PDict d);
                 ("analysis_json", PDict p');
                 ("raw_model_text", PStr raw_text)])
    /\ (forall k v, dict_get k p = Some v -> dict_get k p' = Some v)
    /\ (forall k, In k (dict_keys SEC_JSON_SCHEMA) ->
         is_some (dict_get k p') = true)
    /\ (forall k v, dict_get k p = None -> dict_get k p' = Some v ->
         In k (dict_keys SEC_JSON_SCHEMA) /\ (v = PList [] \/ v = PStr "")).
Proof.
  intros Hall Hp.
  destruct (fill_missing_dict default_for SEC_JSON_SCHEMA p)
    as [p' [Hf [Hkeep [Hkeys Hnew]]]].
  exists p'. split; [|split; [exact Hkeep | split; [exact Hkeys|]]].
  - rewrite analyze_sec_financials_required, Hall. cbn [bind].
    rewrite Hp. cbn [bind]. rewrite Hf. reflexivity.
  - intros k v H1 H2. destruct (Hnew k v H1 H2) as [t [Ht ->]]. split.
    + unfold dict_keys. apply in_map_iff. exists (k, t). now split.
    + unfold default_for. destruct (is_list t); [now left | now right].
Qed.

(** X23. When every required field is present and the model's answer
    parses to a JSON array that lacks one of the schema's keys as an
    element, the SEC agent raises [TypeError]: the missing key is
    assigned by name into a list. *)
Theorem array_answer_raises (raw_text : string) (d : dict)
    (l : list pyval) (k : string) (ticker_hint : option string) :
  filter (absent d) required_fields = [] ->
  safe_parse_json raw_text empty_payload = Ok (PList l) ->
  In k (dict_keys SEC_JSON_SCHEMA) ->
  existsb (py_eq (PStr k)) l = false ->
  analyze_sec_financials (Ok raw_text) (PDict d) ticker_hint
  = Raise (TypeError "list indices must be integers or slices, not str").
Proof.
  intros Hall Hp Hin Hk.
  rewrite analyze_sec_financials_required, Hall. cbn [bind].
  rewrite Hp. cbn [bind].
  now rewrite (fill_missing_list default_for SEC_JSON_SCHEMA l k Hin Hk).
Qed.

End SecAgentResults.

Section StockAgentFacts.
Context {J : JsonText}.
Import AgentCommon StockAgent Reading.

Lemma zero_is_flat :
  py_gt (PInt 0) (PFloat f_0_05) = Ok false
  /\ py_lt (PInt 0) (PFloat (- f_0_05)%float) = Ok false.
Proof. split; vm_compute; reflexivity. Qed.

Lemma trend_label_total (pct : pyval) :
  float_or_none pct = true ->
  exists t, trend_label pct = Ok t /\ In t ["Up"; "Down"; "Flat"].
Proof.
  destruct zero_is_flat as [Hup Hdown].
  assert (exists t, trend_label (PInt 0) = Ok t
                    /\ In t ["Up"; "Down"; "Flat"]) as Hzero.
  { exists "Flat". unfold trend_label, py_or. cbn [truthy Z.eqb negb].
    rewrite Hup. cbn [bind]. rewrite Hdown. cbn. tauto. }
  destruct pct as [| | |x| | | |]; try discriminate; intros _.
  - unfold trend_label, py_or in *. exact Hzero.
  - unfold trend_label, py_or in *. cbn [truthy].
    destruct (float_truthy x); [|exact Hzero].
    unfold py_gt. cbn [py_lt num_of num_ltb bind].
    destruct (PrimFloat.ltb f_0_05 x); [exists "Up"; cbn; tauto|].
    destruct (PrimFloat.ltb x (- f_0_05)%float);
      [exists "Down" | exists "Flat"]; cbn; tauto.
Qed.

Lemma above_total (a b : pyval) :
  float_or_none a = true -> float_or_none b = true ->
  exists r, above a b = Ok (PBool r) /\ (b = PNone -> r = false).
Proof.
  destruct a as [| | |x| | | |]; try discriminate;
    destruct b as [| | |y| | | |]; try discriminate; intros _ _;
    try (exists false; split; reflexivity).
  exists (PrimFloat.ltb y x). split; [reflexivity | discriminate].
Qed.

Lemma crossover_total (a b : pyval) :
  float_or_none a = true -> float_or_none b = true ->
  exists c, crossover a b = Ok c /\ (b = PNone -> c = PNone).
Proof.
  destruct a as [| | |x| | | |]; try discriminate;
    destruct b as [| | |y| | | |]; try discriminate; intros _ _;
    try (exists PNone; split; reflexivity).
  unfold crossover, py_gt. cbn [is_none negb andb py_lt num_of num_ltb bind].
  destruct (PrimFloat.ltb y x);
    [eexists; split; [reflexivity | discriminate]|].
  destruct (PrimFloat.ltb x y); eexists; split; reflexivity || discriminate.
Qed.

Lemma volatility_label_total (vol : pyval) :
  float_or_none vol = true ->
  exists v, volatility_label vol = Ok v /\ is_none v = is_none vol.
Proof.
  destruct vol as [| | |x| | | |]; try discriminate; intros _;
    [exists PNone; split; reflexivity|].
  unfold volatility_label. cbn [is_none negb py_lt num_of num_ltb bind].
  destruct (PrimFloat.ltb x f_0_20); [eexists; split; reflexivity|].
  destruct (PrimFloat.ltb x f_0_35); eexists; split; reflexivity.
Qed.

(** The signals of a record whose metrics are floats or [None]. *)
Lemma derive_signals_on_metrics (d : dict) (sample : list pyval) :
  (forall k, In k ["latest_close"; "sma20"; "sma50"; "pct_change";
                   "annualized_vol"] ->
             float_or_none (get_default k PNone d) = true) ->
  dict_get "days" d = None ->
  get_default "sample" (PList []) d = PList sample ->
  exists trend a20 a50 cross vlabel,
    derive_signals (PDict d)
    = Ok (PDict [("trend_label", PStr trend);
                 ("above_sma20", PBool a20);
                 ("above_sma50", PBool a50);
                 ("crossover", cross);
                 ("volatility_label", vlabel);
                 ("days_window",
                   py_or (PInt (Z.of_nat (List.length sample))) PNone)])
    /\ In trend ["Up"; "Down"; "Flat"]
    /\ (get_default "sma50" PNone d = PNone -> cross = PNone /\ a50 = false)
    /\ is_none vlabel = is_none (get_default "annualized_vol" PNone d).
Proof.
  intros Hm Hdays Hsample.
  assert (float_or_none (get_default "latest_close" PNone d) = true) as H1
    by (apply Hm; cbn; tauto).
  assert (float_or_none (get_default "sma20" PNone d) = true) as H2
    by (apply Hm; cbn; tauto).
  assert (float_or_none (get_default "sma50" PNone d) = true) as H3
    by (apply Hm; cbn; tauto).
  assert (float_or_none (get_default "pct_change" PNone d) = true) as H4
    by (apply Hm; cbn; tauto).
  assert (float_or_none (get_default "annualized_vol" PNone d) = true) as H5
    by (apply Hm; cbn; tauto).
  destruct (trend_label_total _ H4) as [t [Ht Hin]].
  destruct (above_total _ _ H1 H2) as [a20 [Ha20 _]].
  destruct (above_total _ _ H1 H3) as [a50 [Ha50 Hn50]].
  destruct (crossover_total _ _ H2 H3) as [c [Hc Hcn]].
  destruct (volatility_label_total _ H5) as [v [Hv Hvn]].
  exists t, a20, a50, c, v. split; [|split; [exact Hin | split]].
  - unfold derive_signals. cbn [py_get bind].
    rewrite Ht. cbn [bind]. rewrite Ha20. cbn [bind].
    rewrite Ha50. cbn [bind]. rewrite Hc. cbn [bind].
    rewrite Hv. cbn [bind].
    unfold days_window. cbn [py_get bind].
    unfold get_default at 1. rewrite Hdays. cbn [truthy].
    rewrite Hsample. reflexivity.
  - intros E. split; [now apply Hcn | now apply Hn50].
  - exact Hvn.
Qed.

End StockAgentFacts.

Section StockAgentResults.
Context {J : JsonText} {L : PyLib}.
Import AgentCommon StockAgent Reading PriceTrend.

Lemma annualized_vol_float_or_none (lr : list float) (vol : pyval) :
  annualized_vol lr = Ok vol -> float_or_none vol = true.
Proof.
  unfold annualized_vol. destruct lr as [|x lr].
  - intros H. injection H as <-. reflexivity.
  - destruct (pstdev _) as [sd|]; [|discriminate].
    cbn. intros H. injection H as <-. reflexivity.
Qed.

(** X24. On the normal shape of the price analyzer the signal helper
    never raises.  The trend label is one of three words;
    [days_window] is the length of the sample, so at most 5, whatever
    the length of the series; and with fewer than 50 closes there is
    no crossover and the close is not reported above the 50-day
    average. *)
Theorem signals_of_analyzer_output (hist : list row) (d0 : string)
    (c0 : float) (rest : list row) (lr : list float) (vol : pyval) :
  dropna hist = (d0, c0) :: rest ->
  logrets (map snd (dropna hist)) = Ok lr ->
  annualized_vol lr = Ok vol ->
  exists trend a20 a50 cross vlabel,
    derive_signals (pull_price_trend_yf (Ok hist))
    = Ok (PDict [("trend_label", PStr trend);
                 ("above_sma20", PBool a20);
                 ("above_sma50", PBool a50);
                 ("crossover", cross);
                 ("volatility_label", vlabel);
                 ("days_window",
                   PInt (Z.of_nat
                           (Nat.min 5 (List.length (dropna hist)))))])
    /\ In trend ["Up"; "Down"; "Flat"]
    /\ ((List.length (dropna hist) < 50)%nat ->
        cross = PNone /\ a50 = false)
    /\ is_none vlabel = is_none vol.
Proof.
  intros Hd Hl Hv.
  rewrite (pull_price_trend_yf_metrics hist d0 c0 rest lr vol Hd Hl Hv).
  match goal with
  | |- context [derive_signals (PDict ?d)] =>
      destruct (derive_signals_on_metrics d
                  (map (fun r : row => PTuple [PStr (fst r); PFloat (snd r)])
                       (lastn 5 (dropna hist))))
        as [t [a20 [a50 [c [v [Hs [Hin [H50 Hvn]]]]]]]]
  end.
  - intros k Hk. cbn [In] in Hk.
    destruct Hk as [<-|[<-|[<-|[<-|[<-|[]]]]]];
      lazy beta iota zeta
           delta [get_default dict_get String.eqb Ascii.eqb Bool.eqb andb].
    + reflexivity.
    + unfold sma. destruct (_ <=? _)%nat; reflexivity.
    + unfold sma. destruct (_ <=? _)%nat; reflexivity.
    + destruct (float_truthy c0); reflexivity.
    + exact (annualized_vol_float_or_none _ _ Hv).
  - reflexivity.
  - reflexivity.
  - exists t, a20, a50, c, v. split; [|split; [exact Hin | split]].
    + rewrite Hs. do 7 f_equal.
      rewrite length_map, lastn_length, Hd. cbn [List.length].
      unfold py_or, truthy.
      destruct (Z.eqb_spec (Z.of_nat (Nat.min 5 (S (List.length rest)))) 0);
        [lia | reflexivity].
    + intros Hlt. apply H50.
      lazy beta iota zeta
           delta [get_default dict_get String.eqb Ascii.eqb Bool.eqb andb].
      unfold sma. rewrite length_map.
      destruct (_ <=? _)%nat eqn:E; [|reflexivity].
      apply Nat.leb_le in E.
      exfalso. exact (Nat.lt_irrefl _ (Nat.lt_le_trans _ _ _ Hlt E)).
    + exact Hvn.
Qed.

(** X25. Empty price data and price data with an [error] key are
    answered in the error shape without consulting the model: the
    message is the value of that key, or the fixed text when the data
    is empty. *)
Theorem price_error_is_passed_through (raw : result string) (d : dict)
    (ticker_hint : option string) :
  d = [] \/ is_some (dict_get "error" d) = true ->
  analyze_stock_price raw (PDict d) ticker_hint
  = Ok (PDict [("error",
                get_default "error" (PStr "No price data provided") d)]).
Proof.
  intros H. unfold analyze_stock_price.
  destruct d as [|kv d']; [reflexivity|].
  cbn [truthy negb contains]. rewrite existsb_keys.
  destruct H as [H | H]; [discriminate|]. rewrite H. reflexivity.
Qed.


End StockAgentResults.

Section NewsAgentFacts.
Context {J : JsonText} {L : PyLib}.
Import AgentCommon NewsAgent Reading.

Lemma summary_kept (d : dict) :
  truthy (get_default "summary" PNone d) = true ->
  get_default "summary" (PStr "") d = get_default "summary" PNone d.
Proof.
  unfold get_default. destruct (dict_get "summary" d); [reflexivity|].
  discriminate.
Qed.

Lemma article_dict (d : dict) :
  article (PDict d)
  = Ok (PDict [("headline", get_default "headline" (PStr "") d);
               ("summary", get_default "summary" (PStr "") d);
               ("source", get_default "source" (PStr "") d);
               ("date",
                 if truthy (get_default "datetime_iso" (PStr "") d)
                 then get_default "datetime_iso" (PStr "") d
                 else get_default "date" (PStr "") d)]).
Proof.
  unfold article. cbn [py_get bind].
  destruct (truthy (get_default "datetime_iso" (PStr "") d)); reflexivity.
Qed.

Lemma articles_spec (l items : list pyval) :
  articles l = Ok items ->
  mapM article (filter keeps l) = Ok items
  /\ Forall (fun a => exists h s src dt,
                a = PDict [("headline", h); ("summary", s);
                           ("source", src); ("date", dt)]
                /\ truthy s = true) items.
Proof.
  revert items. induction l as [|n l IH]; intros items.
  - cbn. intros H. injection H as <-. split; [reflexivity | constructor].
  - cbn [articles filter]. unfold keeps at 1.
    destruct n as [| | | | | | |d]; try discriminate.
    cbn [has_summary py_get bind try_except].
    destruct (truthy (get_default "summary" PNone d)) eqn:Et.
    + cbn [mapM]. rewrite article_dict. cbn [bind].
      destruct (articles l) as [r|]; [|discriminate]. cbn [bind].
      intros H. injection H as <-.
      destruct (IH r eq_refl) as [Hm Hf]. rewrite Hm. cbn [bind].
      split; [reflexivity|]. constructor; [|exact Hf].
      do 4 eexists. split; [reflexivity|].
      now rewrite summary_kept.
    + apply IH.
Qed.

(** X27. Whenever the news agent returns on a list of items, its
    result has the three keys [raw_articles], [analysis_json] and
    [raw_model_text]; the raw articles are built from exactly the
    items with a truthy summary, in their order, and each of them has
    the four keys [headline], [summary], [source], [date] with a
    truthy summary. *)
Theorem raw_articles_are_summarised_items (raw : result string)
    (l : list pyval) (target_company_hint : option string) (r : pyval) :
  analyze_news raw (PList l) target_company_hint = Ok r ->
  exists arts analysis text,
    r = PDict [("raw_articles", PList arts);
               ("analysis_json", analysis);
               ("raw_model_text", PStr text)]
    /\ mapM article (filter keeps l) = Ok arts
    /\ Forall (fun a => exists h s src dt,
                  a = PDict [("headline", h); ("summary", s);
                             ("source", src); ("date", dt)]
                  /\ truthy s = true) arts.
Proof.
  unfold analyze_news. cbn [FinnhubNews.iter_items bind].
  destruct (articles l) as [items|] eqn:Ea; [|discriminate]. cbn [bind].
  destruct (articles_spec _ _ Ea) as [Hm Hf].
  destruct items as [|a items].
  - intros H. injection H as <-. do 3 eexists.
    split; [reflexivity|]. split; [exact Hm | constructor].
  - destruct raw as [raw_text|]; [|discriminate]. cbn [bind].
    destruct (safe_parse_json _ _) as [parsed|]; [|discriminate].
    cbn [bind].
    destruct (set_defaults _ _) as [parsed'|]; [|discriminate].
    cbn [bind]. intros H. injection H as <-. do 3 eexists.
    split; [reflexivity|]. split; [exact Hm | exact Hf].
Qed.

Lemma articles_none (ds : list dict) :
  forallb (fun d => negb (truthy (get_default "summary" PNone d))) ds = true ->
  articles (map PDict ds) = Ok [].
Proof.
  induction ds as [|d ds IH]; [reflexivity|].
  cbn [forallb map articles has_summary py_get bind]. intros H.
  apply andb_prop in H. destruct H as [H1 H2].
  apply negb_true_iff in H1. rewrite H1. now apply IH.
Qed.

(** X28. When no item carries a truthy summary (the empty list
    included) the news agent returns the neutral empty analysis and its
    printed text, whatever the model call would have done, a raised
    exception included. *)
Theorem news_without_summaries_skips_model (raw : result string)
    (ds : list dict) (target_company_hint : option string) :
  forallb (fun d => negb (truthy (get_default "summary" PNone d))) ds = true ->
  analyze_news raw (PList (map PDict ds)) target_company_hint
  = Ok (PDict [("raw_articles", PList []);
               ("analysis_json", empty_payload);
               ("raw_model_text", PStr (json_dumps empty_payload))]).
Proof.
  intros H. unfold analyze_news. cbn [FinnhubNews.iter_items bind].
  now rewrite (articles_none _ H).
Qed.

(** X29. What the sample reader takes from a result of the news
    sampler: the empty list from the error shape, and from a digest
    exactly its sample, which has at most 20 items. *)
Theorem news_sample_of_sampler_result (api_key : string)
    (fetched : option pyval) (r : pyval) :
  FinnhubNews.pull_finnhub_news api_key fetched = Ok r ->
  (exists e, r = PDict [("error", e)] /\ get_news_sample r = PList [])
  \/ (exists n sample,
        r = PDict [("count", PInt n); ("sample", PList sample)]
        /\ get_news_sample r = PList sample
        /\ (List.length sample <= 20)%nat).
Proof.
  unfold FinnhubNews.pull_finnhub_news.
  destruct (String.eqb api_key "");
    [intros H; injection H as <-; left; eexists; split; reflexivity|].
  set (data := match fetched with Some v => v | None => PNone end).
  destruct (negb (truthy data)
            || (FinnhubNews.is_dict data
                && truthy (FinnhubNews.error_field data)));
    [intros H; injection H as <-; left; eexists; split; reflexivity|].
  destruct (FinnhubNews.iter_items data) as [l|]; [|discriminate].
  cbn [bind].
  destruct (sorted py_lt FinnhubNews.timestamp true l) as [s|];
    [|discriminate].
  cbn [bind]. remember (firstn 20 s) as kept eqn:Ek.
  intros H. injection H as <-. right.
  exists (FinnhubNews.py_len data), (map FinnhubNews.enrich kept).
  split; [reflexivity|]. split; [reflexivity|].
  rewrite length_map, Ek, length_firstn. lia.
Qed.

End NewsAgentFacts.

Section AgentsOnReferenceLibrary.
Existing Instance RefLib.ref.
Existing Instance RefJson.ref.
Import AgentCommon Reading.

Lemma brace_snipping_witness :
  let body := String lbrace
                (String.append AgentExamples.chatty_inner
                               (String rbrace "")) in
  let txt := String.append "Here is the analysis: "
               (String.append body " Hope this helps.") in
  txt = AgentExamples.chatty
  /\ safe_parse_json txt SecAgent.empty_payload
     = Ok (try_except (json_loads body) (fun _ => SecAgent.empty_payload))
  /\ try_except (json_loads body) (fun _ => SecAgent.empty_payload)
     = AgentExamples.answer_object.
Proof.
  cbv zeta. split; [vm_compute; reflexivity|].
  split; [|vm_compute; reflexivity].
  apply (brace_snipping "Here is the analysis: " AgentExamples.chatty_inner
           " Hope this helps." SecAgent.empty_payload
           (JSONDecodeError "Expecting value"));
    vm_compute; reflexivity.
Defined.

Lemma unparsable_answer_falls_back_witness :
  exists v,
    safe_parse_json AgentExamples.prose SecAgent.empty_payload = Ok v
    /\ (match find_char lbrace AgentExamples.prose,
              rfind_char rbrace AgentExamples.prose with
        | Some start, Some stop => (stop <= start)%nat
        | _, _ => True
        end -> v = SecAgent.empty_payload).
Proof.
  apply (unparsable_answer_falls_back AgentExamples.prose
           SecAgent.empty_payload (JSONDecodeError "Expecting value"));
    vm_compute; reflexivity.
Defined.

Lemma missing_fields_are_reported_witness :
  SecAgent.analyze_sec_financials AgentExamples.model_down
    (PDict [("revenue", PFloat 1)]) None
  = Ok (PDict [("error",
                PStr (String.append "Missing required SEC fields: "
                        (repr_strs
                           (filter (absent [("revenue", PFloat 1)])
                                   SecAgent.required_fields))))]).
Proof.
  apply (missing_fields_are_reported AgentExamples.model_down
           [("revenue", PFloat 1)] None).
  vm_compute. discriminate.
Defined.

Lemma debt_free_filer_is_not_analysed_witness :
  exists d missing,
    SecFinancials.pull_sec_financials
      (Examples.serve Examples.no_debt_doc) "0000320193" = PDict d
    /\ missing = filter (absent d) SecAgent.required_fields
    /\ In "total_debt" missing
    /\ SecAgent.analyze_sec_financials AgentExamples.model_down
         (SecFinancials.pull_sec_financials
            (Examples.serve Examples.no_debt_doc) "0000320193") None
       = Ok (PDict [("error",
                     PStr (String.append "Missing required SEC fields: "
                                         (repr_strs missing)))]).
Proof.
  apply (debt_free_filer_is_not_analysed AgentExamples.model_down
           (Examples.serve Examples.no_debt_doc) "0000320193" None).
  vm_compute. reflexivity.
Defined.

Lemma sec_analysis_is_completed_witness :
  exists p',
    SecAgent.analyze_sec_financials
      (Ok (RefJson.dumps AgentExamples.answer_object))
      (PDict AgentExamples.complete_metrics) None
    = Ok (PDict [("metrics", PDict AgentExamples.complete_metrics);
                 ("analysis_json", PDict p');
                 ("raw_model_text",
                   PStr (RefJson.dumps AgentExamples.answer_object))])
    /\ (forall k v,
          dict_get k [("verdict", PStr "stable");
                      ("red_flags", PList [PStr "leverage"])] = Some v ->
          dict_get k p' = Some v)
    /\ (forall k, In k (dict_keys SecAgent.SEC_JSON_SCHEMA) ->
         is_some (dict_get k p') = true)
    /\ (forall k v,
          dict_get k [("verdict", PStr "stable");
                      ("red_flags", PList [PStr "leverage"])] = None ->
          dict_get k p' = Some v ->
          In k (dict_keys SecAgent.SEC_JSON_SCHEMA)
          /\ (v = PList [] \/ v = PStr "")).
Proof.
  apply (sec_analysis_is_completed
           (RefJson.dumps AgentExamples.answer_object)
           AgentExamples.complete_metrics
           [("verdict", PStr "stable");
            ("red_flags", PList [PStr "leverage"])] None);
    vm_compute; reflexivity.
Defined.

Lemma array_answer_raises_witness :
  SecAgent.analyze_sec_financials (Ok AgentExamples.array_answer)
    (PDict AgentExamples.complete_metrics) None
  = Raise (TypeError "list indices must be integers or slices, not str").
Proof.
  apply (array_answer_raises AgentExamples.array_answer
           AgentExamples.complete_metrics [PInt 1; PInt 2] "verdict" None).
  - vm_compute. reflexivity.
  - vm_compute. reflexivity.
  - cbn. tauto.
  - vm_compute. reflexivity.
Defined.

Lemma signals_of_analyzer_output_witness :
  exists trend a20 a50 cross vlabel,
    StockAgent.derive_signals
      (PriceTrend.pull_price_trend_yf (Ok Examples.rising))
    = Ok (PDict [("trend_label", PStr trend);
                 ("above_sma20", PBool a20);
                 ("above_sma50", PBool a50);
                 ("crossover", cross);
                 ("volatility_label", vlabel);
                 ("days_window",
                   PInt (Z.of_nat
                           (Nat.min 5
                              (List.length
                                 (PriceTrend.dropna Examples.rising)))))])
    /\ In trend ["Up"; "Down"; "Flat"]
    /\ ((List.length (PriceTrend.dropna Examples.rising) < 50)%nat ->
        cross = PNone /\ a50 = false)
    /\ is_none vlabel
       = is_none
           (try_except
              (PriceTrend.annualized_vol
                 (try_except
                    (PriceTrend.logrets
                       (map snd (PriceTrend.dropna Examples.rising)))
                    (fun _ => [])))
              (fun _ => PNone)).
Proof.
  apply (signals_of_analyzer_output Examples.rising "2024-01-01"
           100%float (tl (PriceTrend.dropna Examples.rising))
           (try_except
              (PriceTrend.logrets
                 (map snd (PriceTrend.dropna Examples.rising)))
              (fun _ => [])));
    vm_compute; reflexivity.
Defined.

Lemma price_error_is_passed_through_witness :
  StockAgent.analyze_stock_price AgentExamples.model_down
    (PDict [("error", PStr "Empty dataframe")]) None
  = Ok (PDict [("error",
                get_default "error" (PStr "No price data provided")
                            [("error", PStr "Empty dataframe")])]).
Proof.
  apply (price_error_is_passed_through AgentExamples.model_down
           [("error", PStr "Empty dataframe")] None).
  right. reflexivity.
Defined.


Lemma raw_articles_are_summarised_items_witness :
  let l := match AgentExamples.sampled_news with
           | PList l => l
           | _ => []
           end in
  let r := try_except
             (NewsAgent.analyze_news
                (Ok (RefJson.dumps AgentExamples.answer_object))
                (PList l) None)
             (fun _ => PNone) in
  exists arts analysis text,
    r = PDict [("raw_articles", PList arts);
               ("analysis_json", analysis);
               ("raw_model_text", PStr text)]
    /\ mapM NewsAgent.article (filter keeps l) = Ok arts
    /\ Forall (fun a => exists h s src dt,
                  a = PDict [("headline", h); ("summary", s);
                             ("source", src); ("date", dt)]
                  /\ truthy s = true) arts.
Proof.
  cbv zeta.
  apply (raw_articles_are_summarised_items
           (Ok (RefJson.dumps AgentExamples.answer_object))
           (match AgentExamples.sampled_news with
            | PList l => l
            | _ => []
            end) None).
  vm_compute. reflexivity.
Defined.

Lemma news_without_summaries_skips_model_witness :
  NewsAgent.analyze_news AgentExamples.model_down
    (PList (map PDict [[("headline", PStr "b"); ("summary", PStr "")];
                       [("headline", PStr "c")]])) None
  = Ok (PDict [("raw_articles", PList []);
               ("analysis_json", NewsAgent.empty_payload);
               ("raw_model_text",
                 PStr (json_dumps NewsAgent.empty_payload))]).
Proof.
  apply (news_without_summaries_skips_model AgentExamples.model_down
           [[("headline", PStr "b"); ("summary", PStr "")];
            [("headline", PStr "c")]] None).
  reflexivity.
Defined.

Lemma news_sample_of_sampler_result_witness :
  let r := try_except
             (FinnhubNews.pull_finnhub_news "k"
                (Some (PList Examples.mixed_news)))
             (fun _ => PNone) in
  (exists e, r = PDict [("error", e)]
             /\ NewsAgent.get_news_sample r = PList [])
  \/ (exists n sample,
        r = PDict [("count", PInt n); ("sample", PList sample)]
        /\ NewsAgent.get_news_sample r = PList sample
        /\ (List.length sample <= 20)%nat).
Proof.
  cbv zeta.
  apply (news_sample_of_sampler_result "k"
           (Some (PList Examples.mixed_news))).
  vm_compute. reflexivity.
Defined.

End AgentsOnReferenceLibrary.
